(** * PriMag sales back office: derived totals, sale numbering, audit mirror
      and revenue aggregation

    A shallow embedding of [sales/models.py] and of the management command
    [sales/management/commands/generate_revenue_records.py], with the
    properties of the written specification stated over it.

    Layout: the embedding first (Python values the code computes with, the
    model records, the record store, the [save] methods, the signal
    handlers and the management command), then the lemmas and theorems. *)

From Stdlib Require Import ZArith QArith Qabs Qpower Lia Bool List String Ascii.
From stdpp Require Import gmap strings list fin_maps.

Local Open Scope Z_scope.

(* ===================================================================== *)
(** * Part I: the embedding                                               *)
(* ===================================================================== *)

(** ** Python exceptions and fallible computations *)

Inductive exn : Set :=
| ValueError (msg : string)
| OverflowError (msg : string)
| AttributeError (msg : string)
| DatabaseError (msg : string)
| IntegrityError (msg : string)
| InvalidOperation (msg : string).

(** [str(e)] *)
Definition exn_str (e : exn) : string :=
  match e with
  | ValueError m | OverflowError m | AttributeError m | DatabaseError m
  | IntegrityError m | InvalidOperation m => m
  end.

Inductive result (A : Type) : Type :=
| Ok (a : A)
| Raise (e : exn).
Arguments Ok {A} a.
Arguments Raise {A} e.

Definition bind {A B : Type} (r : result A) (k : A -> result B) : result B :=
  match r with
  | Ok a => k a
  | Raise e => Raise e
  end.

Notation "'do' x <- r ; k" := (bind r (fun x => k))
  (at level 10, x name, r at level 100, k at level 200).

(** ** [str]: rendering integers, and counting characters

    A text is held as the bytes of its UTF-8 form.  A character is a byte
    that is not a continuation byte (one of the form 10xxxxxx), with the
    continuation bytes that follow it; [len] and slices count
    characters. *)

Module PyStr.

Definition is_continuation (c : ascii) : bool :=
  match c with
  | Ascii _ _ _ _ _ _ b6 b7 => b7 && negb b6
  end.

(** [len(s)] *)
Fixpoint len (s : string) : nat :=
  match s with
  | EmptyString => O
  | String c s' => if is_continuation c then len s' else S (len s')
  end.

(** [s[:n]] *)
Fixpoint slice_to (n : nat) (s : string) : string :=
  match s with
  | EmptyString => EmptyString
  | String c s' =>
      if is_continuation c then String c (slice_to n s')
      else
        match n with
        | O => EmptyString
        | S n' => String c (slice_to n' s')
        end
  end.

Definition digit (n : Z) : ascii := ascii_of_nat (48 + Z.to_nat (n mod 10)).

Fixpoint digits (fuel : nat) (n : Z) (acc : string) : string :=
  match fuel with
  | O => acc
  | S f =>
      let acc' := String (digit n) acc in
      if n <? 10 then acc' else digits f (n / 10) acc'
  end.

(** The decimal digits of [|n|]. *)
Definition digits_of (n : Z) : string :=
  digits (S (Z.to_nat (Z.log2 (Z.abs n)))) (Z.abs n) "".

(** [str(n)] *)
Definition str_int (n : Z) : string :=
  if n <? 0 then "-" +:+ digits_of n else digits_of n.

Fixpoint zeros (k : nat) : string :=
  match k with
  | O => ""
  | S k' => String "0" (zeros k')
  end.

(** [f"{n:0wd}"]: at least [w] characters, zeros after the sign. *)
Definition format_0d (w : nat) (n : Z) : string :=
  let ds := digits_of n in
  if n <? 0 then "-" +:+ zeros (w - 1 - String.length ds) +:+ ds
  else zeros (w - String.length ds) +:+ ds.

(** ["%+d" % n] *)
Definition format_signed (n : Z) : string :=
  if n <? 0 then str_int n else "+" +:+ str_int n.

End PyStr.

(** ** [decimal.Decimal] under the default context

    A finite decimal is a signed coefficient and an exponent; the default
    context has 28 significant digits and rounds half to even.  The
    exponent limits of the context (beyond 10^±999999) and the sign of
    zero are left out: no money amount comes near the former and the
    latter does not change a value. *)

Module Decimal.

Record t : Set := mk { coeff : Z; expo : Z }.

Definition prec : Z := 28.

(** [len(self._int)]: the number of decimal digits of the coefficient. *)
Fixpoint ndigits_aux (fuel : nat) (n : Z) : Z :=
  match fuel with
  | O => 1
  | S f => if n <? 10 then 1 else 1 + ndigits_aux f (n / 10)
  end.

Definition ndigits (c : Z) : Z :=
  ndigits_aux (Z.to_nat (Z.log2 (Z.abs c))) (Z.abs c).

(** [Decimal(n)] for an [int], as the arithmetic operators convert it. *)
Definition of_int (n : Z) : t := mk n 0.

(** Drop the last [k] digits of [c], rounding half to even. *)
Definition round_half_even (c k : Z) : Z :=
  let q := Z.abs c / 10 ^ k in
  let r := Z.abs c mod 10 ^ k in
  let half := 5 * 10 ^ (k - 1) in
  let q' := if (half <? r) || ((r =? half) && Z.odd q) then q + 1 else q in
  Z.sgn c * q'.

(** [_fix]: round to the precision of the context. *)
Definition fix_ (d : t) : t :=
  let n := ndigits (coeff d) in
  if n <=? prec then d
  else
    let k := n - prec in
    let c' := round_half_even (coeff d) k in
    if ndigits c' <=? prec then mk c' (expo d + k)
    else mk (c' / 10) (expo d + k + 1).

(** The exact sum, at the smaller of the two exponents. *)
Definition add_exact (a b : t) : t :=
  let e := Z.min (expo a) (expo b) in
  mk (coeff a * 10 ^ (expo a - e) + coeff b * 10 ^ (expo b - e)) e.

(** [a + b] *)
Definition add (a b : t) : t := fix_ (add_exact a b).

(** [a * b] *)
Definition mul (a b : t) : t :=
  fix_ (mk (coeff a * coeff b) (expo a + expo b)).

(** The loop of [__truediv__] that brings an exact quotient as close to
    the ideal exponent as its trailing zeros allow. *)
Fixpoint strip_zeros (fuel : nat) (c e ideal : Z) : Z * Z :=
  match fuel with
  | O => (c, e)
  | S f =>
      if (e <? ideal) && (c mod 10 =? 0)
      then strip_zeros f (c / 10) (e + 1) ideal
      else (c, e)
  end.

(** [a / n] for a positive [int] literal [n] (the code divides by 100). *)
Definition div_int (a : t) (n : positive) : t :=
  let c := Z.abs (coeff a) in
  let sign := Z.sgn (coeff a) in
  let ideal := expo a in
  if c =? 0 then fix_ (mk 0 ideal)
  else
    let shift := ndigits (Z.pos n) - ndigits c + prec + 1 in
    let e := ideal - shift in
    let num := if 0 <=? shift then c * 10 ^ shift else c in
    let den := if 0 <=? shift then Z.pos n else Z.pos n * 10 ^ (- shift) in
    let q := num / den in
    let r := num mod den in
    if r =? 0 then
      let '(q', e') := strip_zeros (Z.to_nat (ideal - e)) q e ideal in
      fix_ (mk (sign * q') e')
    else
      let q' := if q mod 5 =? 0 then q + 1 else q in
      fix_ (mk (sign * q') e).

(** The rational number a decimal denotes. *)
Definition value (d : t) : Q := inject_Z (coeff d) * (10 # 1) ^ expo d.

(** [a == b]: decimals compare by value. *)
Definition eqb (a b : t) : bool :=
  let e := Z.min (expo a) (expo b) in
  coeff a * 10 ^ (expo a - e) =? coeff b * 10 ^ (expo b - e).

(** [str(d)] *)
Definition to_str (d : t) : string :=
  let int_ := PyStr.digits_of (coeff d) in
  let len := Z.of_nat (String.length int_) in
  let sign := if coeff d <? 0 then "-" else "" in
  let leftdigits := expo d + len in
  let dotplace :=
    if (expo d <=? 0) && (-6 <? leftdigits) then leftdigits else 1 in
  let '(intpart, fracpart) :=
    if dotplace <=? 0 then
      ("0", "." +:+ PyStr.zeros (Z.to_nat (- dotplace)) +:+ int_)
    else if len <=? dotplace then
      (int_ +:+ PyStr.zeros (Z.to_nat (dotplace - len)), "")
    else
      (substring 0 (Z.to_nat dotplace) int_,
       "." +:+ substring (Z.to_nat dotplace) (Z.to_nat (len - dotplace)) int_)
  in
  let exp_ :=
    if leftdigits =? dotplace then ""
    else "E" +:+ PyStr.format_signed (leftdigits - dotplace) in
  sign +:+ intpart +:+ fracpart +:+ exp_.

(** [bool(d)]: a decimal is falsy exactly when it is zero. *)
Definition truthy (d : t) : bool := negb (coeff d =? 0).

(** [bounded s B d]: written with [s] decimal places, [d] is an integer
    of absolute value below [B]. *)
Definition bounded (s B : Z) (d : t) : Prop :=
  - s <= expo d /\ Z.abs (coeff d) * 10 ^ (expo d + s) < B.

(** A value a [DecimalField(max_digits, decimal_places)] can hold: written
    with [decimal_places] places it is an integer of at most [max_digits]
    digits. *)
Definition in_field (max_digits decimal_places : Z) (d : t) : Prop :=
  bounded decimal_places (10 ^ max_digits) d.

End Decimal.

Abbreviation Decimal := Decimal.t.

#[global] Instance Decimal_eq_dec : EqDecision Decimal.
Proof. solve_decision. Defined.

(** ** [datetime.date]

    Dates of the proleptic Gregorian calendar, years 1 to 9999, with the
    day-number arithmetic of the [datetime] module. *)

Module PyDate.

Record date : Set := mkdate { year : Z; month : Z; day : Z }.

Definition MINYEAR : Z := 1.
Definition MAXYEAR : Z := 9999.
Definition MAXORDINAL : Z := 3652059.

Definition is_leap (y : Z) : bool :=
  (y mod 4 =? 0) && (negb (y mod 100 =? 0) || (y mod 400 =? 0)).

Definition DAYS_IN_MONTH (m : Z) : Z :=
  match m with
  | 1 => 31 | 2 => 28 | 3 => 31 | 4 => 30 | 5 => 31 | 6 => 30
  | 7 => 31 | 8 => 31 | 9 => 30 | 10 => 31 | 11 => 30 | 12 => 31
  | _ => -1
  end.

Definition DAYS_BEFORE_MONTH (m : Z) : Z :=
  match m with
  | 1 => 0 | 2 => 31 | 3 => 59 | 4 => 90 | 5 => 120 | 6 => 151
  | 7 => 181 | 8 => 212 | 9 => 243 | 10 => 273 | 11 => 304 | 12 => 334
  | _ => -1
  end.

Definition days_in_month (y m : Z) : Z :=
  if (m =? 2) && is_leap y then 29 else DAYS_IN_MONTH m.

Definition days_before_year (y : Z) : Z :=
  let y' := y - 1 in y' * 365 + y' / 4 - y' / 100 + y' / 400.

Definition days_before_month (y m : Z) : Z :=
  DAYS_BEFORE_MONTH m + (if (2 <? m) && is_leap y then 1 else 0).

Definition ymd2ord (y m d : Z) : Z :=
  days_before_year y + days_before_month y m + d.

Definition DI400Y : Z := 146097.
Definition DI100Y : Z := 36524.
Definition DI4Y : Z := 1461.

(** The tail of [_ord2ymd]: month and day from the day of the year,
    estimating the month and correcting the estimate when too large. *)
Definition month_day (y : Z) (leapyear : bool) (n : Z) : date :=
  let m := Z.shiftr (n + 50) 5 in
  let preceding :=
    DAYS_BEFORE_MONTH m + (if (2 <? m) && leapyear then 1 else 0) in
  if n <? preceding then
    let m' := m - 1 in
    let preceding' :=
      preceding
      - (DAYS_IN_MONTH m' + (if (m' =? 2) && leapyear then 1 else 0)) in
    mkdate y m' (n - preceding' + 1)
  else mkdate y m (n - preceding + 1).

Definition ord2ymd (ordinal : Z) : date :=
  let n := ordinal - 1 in
  let n400 := n / DI400Y in
  let n := n mod DI400Y in
  let y := n400 * 400 + 1 in
  let n100 := n / DI100Y in
  let n := n mod DI100Y in
  let n4 := n / DI4Y in
  let n := n mod DI4Y in
  let n1 := n / 365 in
  let n := n mod 365 in
  let y := y + n100 * 100 + n4 * 4 + n1 in
  if (n1 =? 4) || (n100 =? 4) then mkdate (y - 1) 12 31
  else
    let leapyear := (n1 =? 3) && (negb (n4 =? 24) || (n100 =? 3)) in
    month_day y leapyear n.

(** The check every constructed date passes. *)
Definition check_date_fields (y m d : Z) : result date :=
  if negb ((MINYEAR <=? y) && (y <=? MAXYEAR)) then
    Raise (ValueError "year is out of range")
  else if negb ((1 <=? m) && (m <=? 12)) then
    Raise (ValueError "month must be in 1..12")
  else if negb ((1 <=? d) && (d <=? days_in_month y m)) then
    Raise (ValueError "day is out of range for month")
  else Ok (mkdate y m d).

Definition valid (d : date) : Prop :=
  1 <= year d <= 9999 /\ 1 <= month d <= 12 /\
  1 <= day d <= days_in_month (year d) (month d).

Definition validb (d : date) : bool :=
  (1 <=? year d) && (year d <=? 9999) && (1 <=? month d) && (month d <=? 12)
  && (1 <=? day d) && (day d <=? days_in_month (year d) (month d)).

(** [d.replace(year=.., month=.., day=..)] *)
Definition replace (d : date) (y m dd : option Z) : result date :=
  check_date_fields (default (year d) y) (default (month d) m)
                    (default (day d) dd).

Definition toordinal (d : date) : Z := ymd2ord (year d) (month d) (day d).

(** [d - timedelta(days=k)] *)
Definition sub_days (d : date) (k : Z) : result date :=
  let o := toordinal d - k in
  if (0 <? o) && (o <=? MAXORDINAL) then Ok (ord2ymd o)
  else Raise (OverflowError "date value out of range").

(** [a <= b]: dates compare as (year, month, day) triples. *)
Definition leb (a b : date) : bool :=
  (year a <? year b)
  || ((year a =? year b)
      && ((month a <? month b)
          || ((month a =? month b) && (day a <=? day b)))).

(** [d.strftime('%Y%m%d')] *)
Definition strftime_Ymd (d : date) : string :=
  PyStr.format_0d 4 (year d) +:+ PyStr.format_0d 2 (month d)
  +:+ PyStr.format_0d 2 (day d).

End PyDate.

Abbreviation date := PyDate.date.

#[global] Instance date_eq_dec : EqDecision date.
Proof. solve_decision. Defined.

#[global] Instance date_countable : Countable date.
Proof.
  apply (inj_countable'
           (fun d => (PyDate.year d, PyDate.month d, PyDate.day d))
           (fun t => PyDate.mkdate t.1.1 t.1.2 t.2)).
  intros []; reflexivity.
Defined.

(* --------------------------------------------------------------------- *)
(** ** The records of [sales/models.py]

    Each model keeps the fields the modelled code reads or writes.  A
    primary key (a UUID) is its text; a related object reached through a
    foreign key is held as the object itself; a [DateTimeField] that the
    code only compares by calendar day is held as that day.  The
    timestamps that no code of the application reads ([updated_at],
    which every save of a row rewrites, and the [timestamp] of an audit
    row) are left out: nothing below speaks of them. *)

Abbreviation uuid := string.

Module User.
(** [full_name] is what [get_full_name()] returns. *)
Record t : Set := mk { id : Z; username : string; full_name : string }.
End User.

Module UserProfile.
Record t : Set := mk { id : uuid; user : User.t }.

(** [__str__] *)
Definition str (p : t) : string :=
  (if String.eqb (User.full_name (user p)) "" then User.username (user p)
   else User.full_name (user p)) +:+ " - PriMag Profile".
End UserProfile.

Module Customer.
Record t : Set := mk {
  id : uuid;
  name : string;
  company_name : string;
  created_by : Z
}.

(** [__str__] *)
Definition str (c : t) : string :=
  if String.eqb (company_name c) "" then name c
  else name c +:+ " (" +:+ company_name c +:+ ")".
End Customer.

Inductive TransactionType : Set := income | expense.

(** [get_transaction_type_display()], which is also [transaction_type.title()] *)
Definition transaction_type_display (k : TransactionType) : string :=
  match k with income => "Income" | expense => "Expense" end.

Module Transaction.
Record t : Set := mk {
  id : uuid;
  customer : Customer.t;
  transaction_type : TransactionType;
  amount : Decimal;
  is_taxable : bool;
  tax_percentage : Decimal;
  tax_amount : Decimal;
  gst_applicable : bool;
  gst_percentage : Decimal;
  gst_amount : Decimal;
  total_amount : Decimal;
  created_by : Z
}.

(** [__str__]; the rupee sign is the three bytes of its UTF-8 form. *)
Definition str (x : t) : string :=
  transaction_type_display (transaction_type x) +:+ " - "
  +:+ Customer.name (customer x) +:+ " - "
  +:+ String (ascii_of_nat 226) (String (ascii_of_nat 130)
        (String (ascii_of_nat 185) ""))
  +:+ Decimal.to_str (amount x).
End Transaction.

Module Receipt.
Record t : Set := mk { id : uuid; receipt_number : string; issued_by : Z }.

Definition str (r : t) : string := "Receipt " +:+ receipt_number r.
End Receipt.

Inductive Frequency : Set := daily | weekly | monthly | yearly.

#[global] Instance Frequency_eq_dec : EqDecision Frequency.
Proof. solve_decision. Defined.

#[global] Instance Frequency_countable : Countable Frequency.
Proof.
  apply (inj_countable'
           (fun f => match f with
                     | daily => 0%nat | weekly => 1%nat
                     | monthly => 2%nat | yearly => 3%nat
                     end)
           (fun n => match n with
                     | 0%nat => daily | 1%nat => weekly
                     | 2%nat => monthly | _ => yearly
                     end)).
  intros []; reflexivity.
Defined.

Module Revenue.
Record t : Set := mk {
  customer : uuid;
  total_revenue : Decimal;
  frequency : Frequency;
  start_date : date;
  end_date : date;
  total_transactions : Z;
  total_tax : Decimal;
  total_gst : Decimal;
  created_by : Z
}.
End Revenue.

(** The columns of [unique_together = ('customer', 'frequency', 'start_date')]. *)
Abbreviation revenue_key := (uuid * Frequency * date)%type.

Module AuditLog.
(** JSON objects of the snapshots, as ordered lists of text pairs. *)
Abbreviation dict := (list (string * string)).

Record t : Set := mk {
  user : option Z;
  action : string;
  model_name : string;
  object_id : string;
  object_str : string;
  old_values : option dict;
  new_values : option dict;
  changes : option (list (string * (string * string)));
  ip_address : option string;
  description : string
}.
End AuditLog.

Module Item.
Record t : Set := mk { id : uuid; name : string; sku : string }.
End Item.

Inductive SaleStatus : Set :=
  draft | confirmed | dispatched | delivered | cancelled | returned.

Module Sale.
Record t : Set := mk {
  id : uuid;
  sale_number : string;
  customer : option Customer.t;
  sale_date : date;
  status : SaleStatus;
  subtotal : Decimal;
  total_tax : Decimal;
  total_gst : Decimal;
  total_amount : Decimal;
  created_by : Z;
  created_at : date
}.

Definition str (s : t) : string := "Sale " +:+ sale_number s.
End Sale.

Module SaleItem.
Record t : Set := mk {
  id : uuid;
  sale : uuid;
  item : Item.t;
  quantity : Z;
  unit_price : Decimal;
  tax_percentage : Decimal;
  tax_amount : Decimal;
  gst_percentage : Decimal;
  gst_amount : Decimal;
  line_total : Decimal
}.

Definition str (i : t) : string :=
  Item.name (item i) +:+ " x " +:+ PyStr.str_int (quantity i).
End SaleItem.

(** ** The record store *)

Record Store : Type := mkStore {
  user_profiles : list UserProfile.t;
  customers : list Customer.t;
  transactions : list Transaction.t;
  receipts : list Receipt.t;
  sales : list Sale.t;
  sale_items : list SaleItem.t;
  revenues : gmap revenue_key Revenue.t;
  audit_logs : list AuditLog.t;
  stdout : list string
}.

Definition empty_store : Store := mkStore [] [] [] [] [] [] ∅ [] [].

Definition set_user_profiles (v : list UserProfile.t) (st : Store) : Store :=
  mkStore v (customers st) (transactions st) (receipts st) (sales st)
          (sale_items st) (revenues st) (audit_logs st) (stdout st).
Definition set_customers (v : list Customer.t) (st : Store) : Store :=
  mkStore (user_profiles st) v (transactions st) (receipts st) (sales st)
          (sale_items st) (revenues st) (audit_logs st) (stdout st).
Definition set_transactions (v : list Transaction.t) (st : Store) : Store :=
  mkStore (user_profiles st) (customers st) v (receipts st) (sales st)
          (sale_items st) (revenues st) (audit_logs st) (stdout st).
Definition set_receipts (v : list Receipt.t) (st : Store) : Store :=
  mkStore (user_profiles st) (customers st) (transactions st) v (sales st)
          (sale_items st) (revenues st) (audit_logs st) (stdout st).
Definition set_sales (v : list Sale.t) (st : Store) : Store :=
  mkStore (user_profiles st) (customers st) (transactions st) (receipts st) v
          (sale_items st) (revenues st) (audit_logs st) (stdout st).
Definition set_sale_items (v : list SaleItem.t) (st : Store) : Store :=
  mkStore (user_profiles st) (customers st) (transactions st) (receipts st)
          (sales st) v (revenues st) (audit_logs st) (stdout st).
Definition set_revenues (v : gmap revenue_key Revenue.t) (st : Store) : Store :=
  mkStore (user_profiles st) (customers st) (transactions st) (receipts st)
          (sales st) (sale_items st) v (audit_logs st) (stdout st).
Definition set_audit_logs (v : list AuditLog.t) (st : Store) : Store :=
  mkStore (user_profiles st) (customers st) (transactions st) (receipts st)
          (sales st) (sale_items st) (revenues st) v (stdout st).

(** [print(line)] *)
Definition print (line : string) (st : Store) : Store :=
  mkStore (user_profiles st) (customers st) (transactions st) (receipts st)
          (sales st) (sale_items st) (revenues st) (audit_logs st)
          (stdout st ++ [line]).

(** *** [Model.save]: the row is updated in place when its primary key is
    already in the table and appended otherwise; [created] tells which.

    A table holds the values of the instance that was saved.  What a
    [DecimalField] column gives back when the row is read, and what a
    [unique] column refuses, come with the columns further down. *)

Definition has_pk {A : Type} (pk : A -> uuid) (k : uuid) (tbl : list A) : bool :=
  existsb (fun r => String.eqb (pk r) k) tbl.

Definition upsert {A : Type} (pk : A -> uuid) (row : A) (tbl : list A) : list A :=
  if has_pk pk (pk row) tbl
  then map (fun r => if String.eqb (pk r) (pk row) then row else r) tbl
  else tbl ++ [row].

(** The row of a table under a primary key, as it was written. *)
Definition get_by_pk {A : Type} (pk : A -> uuid) (k : uuid) (tbl : list A)
  : option A :=
  find (fun r => String.eqb (pk r) k) tbl.

(* --------------------------------------------------------------------- *)
(** ** Derived fields *)

(** [Transaction.save], before the row is written: "Auto-calculate tax and
    GST". *)
Definition Transaction_auto_calculate (self : Transaction.t) : Transaction.t :=
  let tax_amount :=
    if Transaction.is_taxable self
    then Decimal.div_int
           (Decimal.mul (Transaction.amount self)
                        (Transaction.tax_percentage self)) 100
    else Transaction.tax_amount self in
  let gst_amount :=
    if Transaction.gst_applicable self
    then Decimal.div_int
           (Decimal.mul (Transaction.amount self)
                        (Transaction.gst_percentage self)) 100
    else Transaction.gst_amount self in
  let total_amount :=
    Decimal.add (Decimal.add (Transaction.amount self) tax_amount) gst_amount in
  {| Transaction.id := Transaction.id self;
     Transaction.customer := Transaction.customer self;
     Transaction.transaction_type := Transaction.transaction_type self;
     Transaction.amount := Transaction.amount self;
     Transaction.is_taxable := Transaction.is_taxable self;
     Transaction.tax_percentage := Transaction.tax_percentage self;
     Transaction.tax_amount := tax_amount;
     Transaction.gst_applicable := Transaction.gst_applicable self;
     Transaction.gst_percentage := Transaction.gst_percentage self;
     Transaction.gst_amount := gst_amount;
     Transaction.total_amount := total_amount;
     Transaction.created_by := Transaction.created_by self |}.

(** [SaleItem.save], before the row is written: "Auto-calculate tax, GST
    and line total".  [quantity] is an [int]; the product converts it. *)
Definition SaleItem_auto_calculate (self : SaleItem.t) : SaleItem.t :=
  let gross :=
    Decimal.mul (SaleItem.unit_price self)
                (Decimal.of_int (SaleItem.quantity self)) in
  let tax_amount :=
    Decimal.div_int (Decimal.mul gross (SaleItem.tax_percentage self)) 100 in
  let gst_amount :=
    Decimal.div_int (Decimal.mul gross (SaleItem.gst_percentage self)) 100 in
  let line_total := Decimal.add (Decimal.add gross tax_amount) gst_amount in
  {| SaleItem.id := SaleItem.id self;
     SaleItem.sale := SaleItem.sale self;
     SaleItem.item := SaleItem.item self;
     SaleItem.quantity := SaleItem.quantity self;
     SaleItem.unit_price := SaleItem.unit_price self;
     SaleItem.tax_percentage := SaleItem.tax_percentage self;
     SaleItem.tax_amount := tax_amount;
     SaleItem.gst_percentage := SaleItem.gst_percentage self;
     SaleItem.gst_amount := gst_amount;
     SaleItem.line_total := line_total |}.

(** ** Sale numbering *)

(** [Sale.objects.filter(created_at__date=today).count()] *)
Definition sales_created_on (today : date) (tbl : list Sale.t) : Z :=
  Z.of_nat
    (length (List.filter (fun s => bool_decide (Sale.created_at s = today)) tbl)).

Definition with_sale_number (n : string) (s : Sale.t) : Sale.t :=
  {| Sale.id := Sale.id s; Sale.sale_number := n;
     Sale.customer := Sale.customer s; Sale.sale_date := Sale.sale_date s;
     Sale.status := Sale.status s; Sale.subtotal := Sale.subtotal s;
     Sale.total_tax := Sale.total_tax s; Sale.total_gst := Sale.total_gst s;
     Sale.total_amount := Sale.total_amount s;
     Sale.created_by := Sale.created_by s;
     Sale.created_at := Sale.created_at s |}.

Definition with_created_at (d : date) (s : Sale.t) : Sale.t :=
  {| Sale.id := Sale.id s; Sale.sale_number := Sale.sale_number s;
     Sale.customer := Sale.customer s; Sale.sale_date := Sale.sale_date s;
     Sale.status := Sale.status s; Sale.subtotal := Sale.subtotal s;
     Sale.total_tax := Sale.total_tax s; Sale.total_gst := Sale.total_gst s;
     Sale.total_amount := Sale.total_amount s;
     Sale.created_by := Sale.created_by s;
     Sale.created_at := d |}.

(** [Sale.save], before the row is written: "Auto-generate sale_number if
    not provided".  [now] is the local clock's day, read twice by the code
    (for the text and for the count). *)
Definition Sale_auto_number (now : date) (tbl : list Sale.t) (self : Sale.t)
  : Sale.t :=
  if String.eqb (Sale.sale_number self) "" then
    let date_str := PyDate.strftime_Ymd now in
    let today_count := sales_created_on now tbl + 1 in
    with_sale_number
      ("SAL-" +:+ date_str +:+ "-" +:+ PyStr.format_0d 5 today_count) self
  else self.

(** ** Revenue aggregation: the period and the totals

    The same lines compute the period and the totals in [log_sale_changes]
    and in the management command. *)

(** [status__in=['confirmed', 'dispatched', 'delivered']] *)
Definition counts_for_revenue (s : SaleStatus) : bool :=
  match s with
  | confirmed | dispatched | delivered => true
  | draft | cancelled | returned => false
  end.

Definition month_period (sale_date : date) : result (date * date) :=
  do start_date <- PyDate.replace sale_date None None (Some 1);
  do end_date <-
    (if PyDate.month sale_date =? 12 then
       do first <- PyDate.replace sale_date
                     (Some (PyDate.year sale_date + 1)) (Some 1) (Some 1);
       PyDate.sub_days first 1
     else
       do first <- PyDate.replace sale_date
                     None (Some (PyDate.month sale_date + 1)) (Some 1);
       PyDate.sub_days first 1);
  Ok (start_date, end_date).

(** [customer=c] in a filter on sales: the foreign key holds [c]'s key. *)
Definition customer_is (cid : uuid) (s : Sale.t) : bool :=
  match Sale.customer s with
  | Some c => String.eqb (Customer.id c) cid
  | None => false
  end.

Definition period_sales (cid : uuid) (start_date end_date : date)
    (tbl : list Sale.t) : list Sale.t :=
  List.filter
    (fun s => customer_is cid s
              && PyDate.leb start_date (Sale.sale_date s)
              && PyDate.leb (Sale.sale_date s) end_date
              && counts_for_revenue (Sale.status s))
    tbl.

(** [aggregate(Sum(column))]: the database adds exactly, and answers
    [None] over no rows. *)
Definition Sum (column : Sale.t -> Decimal) (rows : list Sale.t)
  : option Decimal :=
  match rows with
  | [] => None
  | r :: rest =>
      Some (fold_left (fun acc x => Decimal.add_exact acc (column x))
                      rest (column r))
  end.

(** [x or 0] *)
Definition or_zero (x : option Decimal) : Decimal :=
  match x with
  | Some d => if Decimal.truthy d then d else Decimal.of_int 0
  | None => Decimal.of_int 0
  end.

(** [Revenue.objects.get_or_create(customer=.., frequency=.., start_date=..,
    defaults={...})] with the defaults the code passes. *)
Definition Revenue_defaults (cid : uuid) (freq : Frequency)
    (start_date end_date : date) (created_by : Z) : Revenue.t :=
  {| Revenue.customer := cid;
     Revenue.total_revenue := Decimal.of_int 0;
     Revenue.frequency := freq;
     Revenue.start_date := start_date;
     Revenue.end_date := end_date;
     Revenue.total_transactions := 0;
     Revenue.total_tax := Decimal.of_int 0;
     Revenue.total_gst := Decimal.of_int 0;
     Revenue.created_by := created_by |}.

Definition Revenue_get_or_create (cid : uuid) (freq : Frequency)
    (start_date end_date : date) (created_by : Z)
    (tbl : gmap revenue_key Revenue.t)
  : Revenue.t * bool * gmap revenue_key Revenue.t :=
  match tbl !! (cid, freq, start_date) with
  | Some r => (r, false, tbl)
  | None =>
      let r := Revenue_defaults cid freq start_date end_date created_by in
      (r, true, <[(cid, freq, start_date) := r]> tbl)
  end.

(** The four assignments to [revenue] from the period's sales. *)
Definition recalculate (revenue : Revenue.t) (rows : list Sale.t) : Revenue.t :=
  {| Revenue.customer := Revenue.customer revenue;
     Revenue.total_revenue := or_zero (Sum Sale.total_amount rows);
     Revenue.frequency := Revenue.frequency revenue;
     Revenue.start_date := Revenue.start_date revenue;
     Revenue.end_date := Revenue.end_date revenue;
     Revenue.total_transactions := Z.of_nat (length rows);
     Revenue.total_tax := or_zero (Sum Sale.total_tax rows);
     Revenue.total_gst := or_zero (Sum Sale.total_gst rows);
     Revenue.created_by := Revenue.created_by revenue |}.

(** [revenue.save()]: the row that was fetched under [key] is rewritten. *)
Definition Revenue_save (key : revenue_key) (r : Revenue.t)
    (tbl : gmap revenue_key Revenue.t) : gmap revenue_key Revenue.t :=
  <[key := r]> tbl.

(** The body of the [try] in [log_sale_changes]. *)
Definition aggregate_sale_period (instance : Sale.t) (customer : Customer.t)
    (st : Store) : result Store :=
  do period <- month_period (Sale.sale_date instance);
  let '(start_date, end_date) := period in
  let '(revenue, _, tbl) :=
    Revenue_get_or_create (Customer.id customer) monthly start_date end_date
                          (Sale.created_by instance) (revenues st) in
  let rows := period_sales (Customer.id customer) start_date end_date (sales st) in
  Ok (set_revenues
        (Revenue_save (Customer.id customer, monthly, start_date)
                      (recalculate revenue rows) tbl) st).

(* --------------------------------------------------------------------- *)
(** ** The audit mirror, the signal handlers and the writes

    Inserting the audit row is the database's work and may fail; the
    embedding takes that insertion as a parameter, so that every statement
    below holds whatever it does. *)

Section Writes.

Variable AuditLog_objects_create :
  AuditLog.t -> list AuditLog.t -> result (list AuditLog.t).

(** [key in d] and [d[key]] on a snapshot. *)
Definition dict_get (key : string) (d : AuditLog.dict) : option string :=
  option_map snd (find (fun kv => String.eqb (fst kv) key) d).

(** The loop of [log_action] that fills [changes]. *)
Definition diff_values (old_values new_values : AuditLog.dict)
  : list (string * (string * string)) :=
  flat_map
    (fun kv =>
       match dict_get (fst kv) old_values with
       | Some old =>
           if String.eqb old (snd kv) then []
           else [(fst kv, (old, snd kv))]
       | None => []
       end)
    new_values.

(** A snapshot is truthy when it is given and not empty. *)
Definition dict_truthy (d : option AuditLog.dict) : bool :=
  match d with
  | Some (_ :: _) => true
  | _ => false
  end.

(** [AuditLog.log_action]: the whole body is one [try]; the handler of
    [except Exception] prints and returns. *)
Definition log_action (user : option Z)
    (action model_name object_id object_str : string)
    (old_values new_values : option AuditLog.dict)
    (ip_address : option string) (description : string)
    (st : Store) : result Store :=
  let attempt : result Store :=
    let changes :=
      if dict_truthy old_values && dict_truthy new_values
      then diff_values (default [] old_values) (default [] new_values)
      else [] in
    do logs <-
      AuditLog_objects_create
        {| AuditLog.user := user;
           AuditLog.action := action;
           AuditLog.model_name := model_name;
           AuditLog.object_id := object_id;
           AuditLog.object_str := PyStr.slice_to 500 object_str;
           AuditLog.old_values := old_values;
           AuditLog.new_values := new_values;
           AuditLog.changes :=
             match changes with [] => None | _ => Some changes end;
           AuditLog.ip_address := ip_address;
           AuditLog.description := description |}
        (audit_logs st);
    Ok (set_audit_logs logs st) in
  match attempt with
  | Ok st' => Ok st'
  | Raise e => Ok (print ("Error logging audit: " +:+ exn_str e) st)
  end.

(** *** [post_save] receivers *)

Definition create_user_profile (instance : UserProfile.t) (created : bool)
    (st : Store) : result Store :=
  if created then
    log_action (Some (User.id (UserProfile.user instance))) "create"
      "UserProfile" (UserProfile.id instance) (UserProfile.str instance)
      None None None
      ("User profile created for "
       +:+ User.username (UserProfile.user instance)) st
  else Ok st.

Definition log_customer_changes (instance : Customer.t) (created : bool)
    (st : Store) : result Store :=
  if created then
    log_action (Some (Customer.created_by instance)) "create" "Customer"
      (Customer.id instance) (Customer.str instance) None None None
      ("Customer created: " +:+ Customer.name instance) st
  else Ok st.

Definition log_sale_changes (instance : Sale.t) (created : bool)
    (st : Store) : result Store :=
  do st1 <-
    (if created then
       let customer_info :=
         match Sale.customer instance with
         | Some c => Customer.name c
         | None => "No Customer"
         end in
       log_action (Some (Sale.created_by instance)) "create" "Sale"
         (Sale.id instance) (Sale.str instance) None None None
         ("Sale created: " +:+ Sale.sale_number instance +:+ " for "
          +:+ customer_info) st
     else Ok st);
  match Sale.customer instance with
  | Some customer =>
      match aggregate_sale_period instance customer st1 with
      | Ok st2 => Ok st2
      | Raise _ => Ok st1   (* [except Exception: pass] *)
      end
  | None => Ok st1
  end.

Definition log_transaction_changes (instance : Transaction.t)
    (created : bool) (st : Store) : result Store :=
  if created then
    log_action (Some (Transaction.created_by instance)) "create"
      "Transaction" (Transaction.id instance) (Transaction.str instance)
      None None None
      (transaction_type_display (Transaction.transaction_type instance)
       +:+ " transaction created: "
       +:+ Decimal.to_str (Transaction.amount instance)) st
  else Ok st.

Definition log_receipt_changes (instance : Receipt.t) (created : bool)
    (st : Store) : result Store :=
  if created then
    log_action (Some (Receipt.issued_by instance)) "create" "Receipt"
      (Receipt.id instance) (Receipt.str instance) None None None
      ("Receipt issued: " +:+ Receipt.receipt_number instance) st
  else Ok st.

Definition log_saleitem_changes (instance : SaleItem.t) (created : bool)
    (st : Store) : result Store :=
  if created then
    log_action None "create" "SaleItem" (SaleItem.id instance)
      (SaleItem.str instance) None None None
      ("Sale item created: " +:+ Item.name (SaleItem.item instance)
       +:+ " x " +:+ PyStr.str_int (SaleItem.quantity instance)) st
  else Ok st.

(** *** [save]: the derived fields, the row, then the receiver.

    Each returns the instance as the caller holds it afterwards, and
    writes the row as the instance holds it, on a database that takes the
    row.  The answers of the columns come further down: what the
    [DecimalField] columns of a row give back ([Transaction_fetch],
    [SaleItem_fetch]) and the refusal of a repeated [sale_number]
    ([Sale_save_unique]). *)

Definition UserProfile_save (self : UserProfile.t) (st : Store)
  : result (UserProfile.t * Store) :=
  let created := negb (has_pk UserProfile.id (UserProfile.id self)
                              (user_profiles st)) in
  let st1 := set_user_profiles (upsert UserProfile.id self (user_profiles st)) st in
  do st2 <- create_user_profile self created st1;
  Ok (self, st2).

Definition Customer_save (self : Customer.t) (st : Store)
  : result (Customer.t * Store) :=
  let created := negb (has_pk Customer.id (Customer.id self) (customers st)) in
  let st1 := set_customers (upsert Customer.id self (customers st)) st in
  do st2 <- log_customer_changes self created st1;
  Ok (self, st2).

Definition Transaction_save (self : Transaction.t) (st : Store)
  : result (Transaction.t * Store) :=
  let self := Transaction_auto_calculate self in
  let created :=
    negb (has_pk Transaction.id (Transaction.id self) (transactions st)) in
  let st1 := set_transactions (upsert Transaction.id self (transactions st)) st in
  do st2 <- log_transaction_changes self created st1;
  Ok (self, st2).

Definition Receipt_save (self : Receipt.t) (st : Store)
  : result (Receipt.t * Store) :=
  let created := negb (has_pk Receipt.id (Receipt.id self) (receipts st)) in
  let st1 := set_receipts (upsert Receipt.id self (receipts st)) st in
  do st2 <- log_receipt_changes self created st1;
  Ok (self, st2).

(** [created_at] is [auto_now_add]: set when the row is inserted.  This
    is the save on a table that takes the row; [Sale_save_unique] adds
    the refusal of a number that another row carries. *)
Definition Sale_save (now : date) (self : Sale.t) (st : Store)
  : result (Sale.t * Store) :=
  let self := Sale_auto_number now (sales st) self in
  let created := negb (has_pk Sale.id (Sale.id self) (sales st)) in
  let self := if created then with_created_at now self else self in
  let st1 := set_sales (upsert Sale.id self (sales st)) st in
  do st2 <- log_sale_changes self created st1;
  Ok (self, st2).

Definition SaleItem_save (self : SaleItem.t) (st : Store)
  : result (SaleItem.t * Store) :=
  let self := SaleItem_auto_calculate self in
  let created := negb (has_pk SaleItem.id (SaleItem.id self) (sale_items st)) in
  let st1 := set_sale_items (upsert SaleItem.id self (sale_items st)) st in
  do st2 <- log_saleitem_changes self created st1;
  Ok (self, st2).

(** *** Writes as requests, and sequences of them *)

Inductive write : Type :=
| save_user_profile (p : UserProfile.t)
| save_customer (c : Customer.t)
| save_transaction (t : Transaction.t)
| save_receipt (r : Receipt.t)
| save_sale (now : date) (s : Sale.t)
| save_sale_item (i : SaleItem.t).

Definition perform (w : write) (st : Store) : result Store :=
  match w with
  | save_user_profile p => do r <- UserProfile_save p st; Ok (snd r)
  | save_customer c => do r <- Customer_save c st; Ok (snd r)
  | save_transaction t => do r <- Transaction_save t st; Ok (snd r)
  | save_receipt r => do r <- Receipt_save r st; Ok (snd r)
  | save_sale now s => do r <- Sale_save now s st; Ok (snd r)
  | save_sale_item i => do r <- SaleItem_save i st; Ok (snd r)
  end.

Fixpoint perform_all (ws : list write) (st : Store) : result Store :=
  match ws with
  | [] => Ok st
  | w :: rest => do st' <- perform w st; perform_all rest st'
  end.

End Writes.

(* --------------------------------------------------------------------- *)
(** ** The management command [generate_revenue_records]

    The queryset is ordered by the database ([order_by('customer',
    'sale_date')]); the embedding takes that ordering as a parameter.  The
    console messages of the command are left out, its counters are kept.
    [processed] is keyed by the customer and the start date: the text
    [isoformat()] gives is one-to-one on dates. *)

Record progress : Type := mkProgress {
  h_revenues : gmap revenue_key Revenue.t;
  processed : gset (uuid * date);
  created_count : Z;
  updated_count : Z
}.

(** One turn of the loop [for sale in sales]. *)
Definition handle_sale (tbl : list Sale.t) (sale : Sale.t) (p : progress)
  : result progress :=
  let customer := Sale.customer sale in
  let sale_date := Sale.sale_date sale in
  do period <- month_period sale_date;
  let '(start_date, end_date) := period in
  do cid <-
    match customer with
    | Some c => Ok (Customer.id c)
    | None => Raise (AttributeError "'NoneType' object has no attribute 'id'")
    end;
  let key := (cid, start_date) in
  if bool_decide (key ∈ processed p) then Ok p
  else
    let '(revenue, created, revs) :=
      Revenue_get_or_create cid monthly start_date end_date
                            (Sale.created_by sale) (h_revenues p) in
    let rows := period_sales cid start_date end_date tbl in
    Ok {| h_revenues :=
            Revenue_save (cid, monthly, start_date)
                         (recalculate revenue rows) revs;
          processed := {[key]} ∪ processed p;
          created_count :=
            if created then created_count p + 1 else created_count p;
          updated_count :=
            if created then updated_count p else updated_count p + 1 |}.

(** The loop; an exception leaves it with what the earlier turns wrote. *)
Fixpoint handle_loop (tbl : list Sale.t) (queue : list Sale.t) (p : progress)
  : progress * option exn :=
  match queue with
  | [] => (p, None)
  | sale :: rest =>
      match handle_sale tbl sale p with
      | Ok p' => handle_loop tbl rest p'
      | Raise e => (p, Some e)
      end
  end.

Record outcome : Type := mkOutcome {
  final : Store;
  counts : Z * Z;          (* created, updated *)
  raised : option exn
}.

Section Command.

Variable order_by_customer_sale_date : list Sale.t -> list Sale.t.

(** [Command.handle] *)
Definition handle (st : Store) : outcome :=
  let sales_qs :=
    order_by_customer_sale_date
      (List.filter (fun s => counts_for_revenue (Sale.status s)) (sales st)) in
  match sales_qs with
  | [] => mkOutcome st (0, 0) None      (* "No confirmed sales found." *)
  | _ =>
      let '(p, err) :=
        handle_loop (sales st) sales_qs (mkProgress (revenues st) ∅ 0 0) in
      mkOutcome (set_revenues (h_revenues p) st)
                (created_count p, updated_count p) err
  end.

End Command.

(* --------------------------------------------------------------------- *)
(** ** Notions the proofs use *)

(** [same_tables st st']: only the audit log and the console differ. *)
Definition same_tables (st st' : Store) : Prop :=
  user_profiles st' = user_profiles st /\ customers st' = customers st /\
  transactions st' = transactions st /\ receipts st' = receipts st /\
  sales st' = sales st /\ sale_items st' = sale_items st /\
  revenues st' = revenues st.

(** The instance [Sale.save] hands back and the row it stores. *)
Definition saved_sale (now : date) (s : Sale.t) (st : Store) : Sale.t :=
  let s1 := Sale_auto_number now (sales st) s in
  if negb (has_pk Sale.id (Sale.id s1) (sales st))
  then with_created_at now s1 else s1.

(** Whether a write inserts its row (the [created] flag of [post_save]),
    and the model name and key its audit row carries. *)
Definition creates (w : write) (st : Store) : bool :=
  match w with
  | save_user_profile p =>
      negb (has_pk UserProfile.id (UserProfile.id p) (user_profiles st))
  | save_customer c => negb (has_pk Customer.id (Customer.id c) (customers st))
  | save_transaction t =>
      negb (has_pk Transaction.id (Transaction.id t) (transactions st))
  | save_receipt r => negb (has_pk Receipt.id (Receipt.id r) (receipts st))
  | save_sale _ s => negb (has_pk Sale.id (Sale.id s) (sales st))
  | save_sale_item i =>
      negb (has_pk SaleItem.id (SaleItem.id i) (sale_items st))
  end.




(** The customer and the period under which the command processes a sale,
    when the turn of the loop does not raise. *)
Definition can_handle (s : Sale.t) : option (uuid * date * date) :=
  match month_period (Sale.sale_date s), Sale.customer s with
  | Ok (start_date, end_date), Some c =>
      Some (Customer.id c, start_date, end_date)
  | _, _ => None
  end.

(** The sales the loop gets through before a turn raises. *)
Fixpoint handled_prefix (queue : list Sale.t) : list Sale.t :=
  match queue with
  | [] => []
  | s :: rest =>
      match can_handle s with
      | Some _ => s :: handled_prefix rest
      | None => []
      end
  end.

(** The Revenue row of a customer and period is there and recomputing its
    totals would not change it. *)
Definition settled (tbl : list Sale.t) (revs : gmap revenue_key Revenue.t)
    (k : uuid * date * date) : Prop :=
  exists r,
    revs !! (k.1.1, monthly, k.1.2) = Some r /\
    recalculate r (period_sales k.1.1 k.1.2 k.2 tbl) = r.

(** Every key the loop has processed is settled. *)
Definition processed_settled (tbl : list Sale.t) (p : progress) : Prop :=
  forall s k,
    can_handle s = Some k -> (k.1.1, k.1.2) ∈ processed p ->
    settled tbl (h_revenues p) k.

(* --------------------------------------------------------------------- *)
(** ** The properties of the specification, as predicates on the records *)







(** The line items of a sale. *)
Definition items_of (sale : uuid) (items : list SaleItem.t) : list SaleItem.t :=
  List.filter (fun i => String.eqb (SaleItem.sale i) sale) items.





(* ===================================================================== *)
(** * Part I, continued: more of the code

    The [post_delete] receivers and the computed properties of [Item] in
    [sales/models.py], the columns of [sales/admin.py] that show them, and
    the line-item table of the invoice in [sales/utils/reports.py]. *)
(* ===================================================================== *)

(** ** More of [decimal.Decimal] *)

Module DecimalOps.

Import Decimal.

(** The conditions the default context traps: they are raised. *)
Inductive signal : Set := DivisionByZero | DivisionUndefined.

(** [copy_negate()] *)
Definition neg (a : t) : t := mk (- coeff a) (expo a).

(** [a - b] is [a + (-b)]. *)
Definition sub (a b : t) : t := add a (neg b).

(** [a / b] *)
Definition truediv (a b : t) : signal + t :=
  if coeff b =? 0 then
    inl (if coeff a =? 0 then DivisionUndefined else DivisionByZero)
  else
    let sign := Z.sgn (coeff a) * Z.sgn (coeff b) in
    let ca := Z.abs (coeff a) in
    let cb := Z.abs (coeff b) in
    let ideal := expo a - expo b in
    if ca =? 0 then inr (fix_ (mk 0 ideal))
    else
      let shift := ndigits cb - ndigits ca + prec + 1 in
      let e := ideal - shift in
      let num := if 0 <=? shift then ca * 10 ^ shift else ca in
      let den := if 0 <=? shift then cb else cb * 10 ^ (- shift) in
      let q := num / den in
      let r := num mod den in
      if r =? 0 then
        let '(q', e') := strip_zeros (Z.to_nat (ideal - e)) q e ideal in
        inr (fix_ (mk (sign * q') e'))
      else
        let q' := if q mod 5 =? 0 then q + 1 else q in
        inr (fix_ (mk (sign * q') e)).

(** [a > 0] *)
Definition gt_zero (a : t) : bool := 0 <? coeff a.

(** [format(d, '.<places>f')]: rescale to [places] decimal places, rounding
    half to even, and write the digits around the point. *)
Definition format_f (places : Z) (d : t) : string :=
  let sign := if coeff d <? 0 then "-" else "" in
  let c := Z.abs (coeff d) in
  let m :=
    if c =? 0 then 0
    else if - places <=? expo d then c * 10 ^ (expo d + places)
    else round_half_even c (- places - expo d) in
  let int_ := PyStr.digits_of m in
  let len := Z.of_nat (String.length int_) in
  let dotplace := len - places in
  let '(intpart, fracpart) :=
    if dotplace <? 0 then
      ("0", PyStr.zeros (Z.to_nat (- dotplace)) +:+ int_)
    else if len <? dotplace then
      (int_ +:+ PyStr.zeros (Z.to_nat (dotplace - len)), "")
    else
      (let i := substring 0 (Z.to_nat dotplace) int_ in
       if String.eqb i "" then "0" else i,
       substring (Z.to_nat dotplace) (Z.to_nat (len - dotplace)) int_) in
  sign +:+ intpart
  +:+ (if String.eqb fracpart "" then "" else "." +:+ fracpart).

(** [_rescale(-places, ROUND_HALF_EVEN)]: the value written with [places]
    decimal places.  Zeros are appended when the exponent allows it;
    otherwise digits are dropped and the last digit kept is rounded half
    to even. *)
Definition rescale (places : Z) (d : t) : t :=
  let c := coeff d in
  mk (if c =? 0 then 0
      else if - places <=? expo d then c * 10 ^ (expo d + places)
      else round_half_even c (- places - expo d))
     (- places).

(** [d.quantize(Decimal(1).scaleb(-places), context=Context(prec=digits))]:
    the rescaled value; when it has more digits than the context holds the
    operation is invalid, a condition the context traps. *)
Definition quantize (digits places : Z) (d : t) : result t :=
  let ans := rescale places d in
  if ndigits (coeff ans) <=? digits then Ok ans
  else Raise (InvalidOperation "[<class 'decimal.InvalidOperation'>]").

End DecimalOps.

(** What a property that answers [0] or a [Decimal] returns. *)
Inductive number : Set :=
| Int (n : Z)
| Dec (d : Decimal).

(** [x > 0] *)
Definition number_gt_zero (x : number) : bool :=
  match x with
  | Int n => 0 <? n
  | Dec d => DecimalOps.gt_zero d
  end.

(** [f"{x:.1f}"]; an [int] goes through [float], which holds the [0] the
    properties answer. *)
Definition number_format_1f (x : number) : string :=
  match x with
  | Int n => PyStr.str_int n +:+ ".0"
  | Dec d => DecimalOps.format_f 1 d
  end.

(* --------------------------------------------------------------------- *)
(** ** [Item]: pricing and stock

    The columns the computed properties read, beside those [Item.t]
    holds.  A price is [None] on an instance that has none yet. *)

Module Inventory.

Record t : Set := mk {
  item : Item.t;
  cost_price : option Decimal;
  selling_price : option Decimal;
  quantity_on_hand : Z;
  minimum_stock_level : Z
}.

(** "Calculate profit per unit" *)
Definition profit_per_unit (self : t) : number :=
  match selling_price self, cost_price self with
  | Some sp, Some cp => Dec (DecimalOps.sub sp cp)
  | _, _ => Int 0
  end.

(** "Calculate profit margin percentage" *)
Definition margin_percentage (self : t) : DecimalOps.signal + number :=
  match selling_price self, cost_price self with
  | Some sp, Some cp =>
      if Decimal.eqb sp (Decimal.of_int 0) then inr (Int 0)
      else
        match DecimalOps.truediv (DecimalOps.sub sp cp) sp with
        | inl s => inl s
        | inr q => inr (Dec (Decimal.mul q (Decimal.of_int 100)))
        end
  | _, _ => inr (Int 0)
  end.

(** "Check if item is below minimum stock level" *)
Definition is_low_stock (self : t) : bool :=
  quantity_on_hand self <=? minimum_stock_level self.

End Inventory.

(** The double quote of the markup. *)
Definition dquote : string := String (ascii_of_nat 34) "".

(** [ItemAdmin.profit_margin]: the colour, then the markup. *)
Definition profit_margin_color (margin : number) : string :=
  if number_gt_zero margin then "green" else "red".

Definition profit_margin (obj : Inventory.t) : DecimalOps.signal + string :=
  match Inventory.margin_percentage obj with
  | inl s => inl s
  | inr margin =>
      let color := profit_margin_color margin in
      inr ("<span style=" +:+ dquote +:+ "color: " +:+ color
           +:+ "; font-weight: bold;" +:+ dquote +:+ ">"
           +:+ number_format_1f margin +:+ "%</span>")
  end.

(* --------------------------------------------------------------------- *)
(** ** The audit list: [AuditLogAdmin.object_str_short] *)

Definition object_str_short (obj : AuditLog.t) : string :=
  let text :=
    if String.eqb (AuditLog.object_str obj) "" then AuditLog.object_id obj
    else AuditLog.object_str obj in
  if (50 <? PyStr.len text)%nat then PyStr.slice_to 47 text +:+ "..."
  else text.

(* --------------------------------------------------------------------- *)
(** ** [post_delete] receivers *)

Section Deletions.

Variable AuditLog_objects_create :
  AuditLog.t -> list AuditLog.t -> result (list AuditLog.t).

Definition log_sale_deletion (instance : Sale.t) (st : Store) : result Store :=
  log_action AuditLog_objects_create None "delete" "Sale"
    (Sale.id instance) (Sale.str instance) None None None
    ("Sale deleted: " +:+ Sale.sale_number instance) st.

Definition log_customer_deletion (instance : Customer.t) (st : Store)
  : result Store :=
  log_action AuditLog_objects_create None "delete" "Customer"
    (Customer.id instance) (Customer.str instance) None None None
    ("Customer deleted: " +:+ Customer.name instance) st.

Definition log_saleitem_deletion (instance : SaleItem.t) (st : Store)
  : result Store :=
  log_action AuditLog_objects_create None "delete" "SaleItem"
    (SaleItem.id instance) (SaleItem.str instance) None None None
    ("Sale item deleted: " +:+ Item.name (SaleItem.item instance)
     +:+ " x " +:+ PyStr.str_int (SaleItem.quantity instance)) st.

End Deletions.

(* --------------------------------------------------------------------- *)
(** ** The invoice: the table of line items

    [InvoicePDFGenerator.generate_invoice] looks the line items up under
    the name [saleitem_set].  The rows that point at a Sale are reached
    under the [related_name] of [SaleItem.sale]; a foreign key that gives
    none is reached under the model name followed by [_set]. *)

Definition SaleItem_sale_related_name : option string := Some "items".

Definition reverse_accessor (model_name : string) (related_name : option string)
  : string :=
  default (model_name +:+ "_set") related_name.

(** [getattr(sale, name, None)] for the managers of the rows that point at
    a Sale; [all()] of the manager is the list. *)
Definition Sale_getattr_manager (name : string) (sale : Sale.t) (st : Store)
  : option (list SaleItem.t) :=
  if String.eqb name (reverse_accessor "saleitem" SaleItem_sale_related_name)
  then Some (items_of (Sale.id sale) (sale_items st))
  else None.

(** A cell that shows an amount: [f"${x:.2f}"]. *)
Definition money_cell (x : Decimal) : string :=
  "$" +:+ DecimalOps.format_f 2 x.

(** The rows of the table, and the table when it has a row beside its
    header. *)
Definition invoice_rows (items : list SaleItem.t) : list (list string) :=
  ["Description"; "Qty"; "Unit"; "Tax"; "GST"; "Line Total"]
  :: map (fun si =>
            [ Item.name (SaleItem.item si);
              PyStr.str_int (SaleItem.quantity si);
              money_cell (SaleItem.unit_price si);
              money_cell (SaleItem.tax_amount si);
              money_cell (SaleItem.gst_amount si);
              money_cell (SaleItem.line_total si) ])
         items.

Definition invoice_table (sale : Sale.t) (st : Store)
  : option (list (list string)) :=
  match Sale_getattr_manager "saleitem_set" sale st with
  | Some items =>
      let rows := invoice_rows items in
      if (1 <? length rows)%nat then Some rows else None
  | None => None
  end.

(* --------------------------------------------------------------------- *)
(** ** Notions the further proofs use *)

(** The row [log_action] hands to the insertion, and what the call
    leaves: the audit table after the insertion, or the line it prints
    when the insertion raises. *)
Definition audit_row (user : option Z)
    (action model_name object_id object_str : string)
    (old_values new_values : option AuditLog.dict)
    (ip_address : option string) (description : string) : AuditLog.t :=
  let changes :=
    if dict_truthy old_values && dict_truthy new_values
    then diff_values (default [] old_values) (default [] new_values)
    else [] in
  {| AuditLog.user := user;
     AuditLog.action := action;
     AuditLog.model_name := model_name;
     AuditLog.object_id := object_id;
     AuditLog.object_str := PyStr.slice_to 500 object_str;
     AuditLog.old_values := old_values;
     AuditLog.new_values := new_values;
     AuditLog.changes :=
       match changes with [] => None | _ => Some changes end;
     AuditLog.ip_address := ip_address;
     AuditLog.description := description |}.

Definition after_audit
    (create : AuditLog.t -> list AuditLog.t -> result (list AuditLog.t))
    (row : AuditLog.t) (st : Store) : Store :=
  match create row (audit_logs st) with
  | Ok logs => set_audit_logs logs st
  | Raise e => print ("Error logging audit: " +:+ exn_str e) st
  end.

(** The number [Sale.save] builds for a day and a rank in the day. *)
Definition sale_number_for (day : date) (rank : Z) : string :=
  "SAL-" +:+ PyDate.strftime_Ymd day +:+ "-" +:+ PyStr.format_0d 5 rank.

(** Every sale of the table carries the number of the day it was created
    on and of its rank among the sales created that day. *)
Definition auto_numbered (tbl : list Sale.t) : Prop :=
  forall pre s post,
    tbl = pre ++ s :: post ->
    PyDate.valid (Sale.created_at s) /\
    Sale.sale_number s
    = sale_number_for (Sale.created_at s)
        (sales_created_on (Sale.created_at s) pre + 1).

(** Reading a number back from its decimal digits. *)
Fixpoint int_of_digits_from (acc : Z) (s : string) : Z :=
  match s with
  | EmptyString => acc
  | String c s' =>
      int_of_digits_from (acc * 10 + (Z.of_nat (nat_of_ascii c) - 48)) s'
  end.

Definition int_of_digits (s : string) : Z := int_of_digits_from 0 s.

(** The keys of the rows the audit log records as created, per model. *)
Definition audited_keys (model : string) (logs : list AuditLog.t)
  : list string :=
  map AuditLog.object_id
      (List.filter
         (fun r => String.eqb (AuditLog.model_name r) model
                   && String.eqb (AuditLog.action r) "create")
         logs).

(** The audit log mirrors the tables: per model, it records as created
    exactly the keys of the stored rows, in the order of the table. *)
Definition mirrored (st : Store) : Prop :=
  audited_keys "UserProfile" (audit_logs st)
  = map UserProfile.id (user_profiles st) /\
  audited_keys "Customer" (audit_logs st) = map Customer.id (customers st) /\
  audited_keys "Transaction" (audit_logs st)
  = map Transaction.id (transactions st) /\
  audited_keys "Receipt" (audit_logs st) = map Receipt.id (receipts st) /\
  audited_keys "Sale" (audit_logs st) = map Sale.id (sales st) /\
  audited_keys "SaleItem" (audit_logs st) = map SaleItem.id (sale_items st).

(** The customer and month start under which the command files a sale,
    and the set of those of a list of sales. *)
Definition period_key (s : Sale.t) : option (uuid * date) :=
  option_map (fun k : uuid * date * date => (k.1.1, k.1.2)) (can_handle s).

Definition period_keys (l : list Sale.t) : gset (uuid * date) :=
  list_to_set (omap period_key l).


(* ===================================================================== *)
(** * Part I, continued: the columns of the database

    The tables of [Store] keep a row as [save] wrote it, and the instance
    keeps its amounts.  A query builds its instances through the columns:
    a [DecimalField] gives the amount at the decimal places it declares,
    and a column declared [unique=True] refuses a row that repeats a
    stored value. *)
(* ===================================================================== *)

(** ** [DecimalField(max_digits, decimal_places)]

    The amount a query gives is the amount that was written, quantized
    to the decimal places of the field under the context of the field,
    whose precision is [max_digits]: it is rounded half to even, and it
    cannot be given when it has more digits than the field declares. *)

Definition DecimalField_from_db (max_digits decimal_places : Z) (v : Decimal)
  : result Decimal :=
  DecimalOps.quantize max_digits decimal_places v.

(** A Transaction as a query builds it from its row. *)
Definition Transaction_from_db (row : Transaction.t) : result Transaction.t :=
  do amount <- DecimalField_from_db 12 2 (Transaction.amount row);
  do tax_percentage <- DecimalField_from_db 5 2 (Transaction.tax_percentage row);
  do tax_amount <- DecimalField_from_db 12 2 (Transaction.tax_amount row);
  do gst_percentage <- DecimalField_from_db 5 2 (Transaction.gst_percentage row);
  do gst_amount <- DecimalField_from_db 12 2 (Transaction.gst_amount row);
  do total_amount <- DecimalField_from_db 12 2 (Transaction.total_amount row);
  Ok {| Transaction.id := Transaction.id row;
        Transaction.customer := Transaction.customer row;
        Transaction.transaction_type := Transaction.transaction_type row;
        Transaction.amount := amount;
        Transaction.is_taxable := Transaction.is_taxable row;
        Transaction.tax_percentage := tax_percentage;
        Transaction.tax_amount := tax_amount;
        Transaction.gst_applicable := Transaction.gst_applicable row;
        Transaction.gst_percentage := gst_percentage;
        Transaction.gst_amount := gst_amount;
        Transaction.total_amount := total_amount;
        Transaction.created_by := Transaction.created_by row |}.

(** [Transaction.objects.filter(pk=k).first()] *)
Definition Transaction_fetch (k : uuid) (st : Store)
  : result (option Transaction.t) :=
  match get_by_pk Transaction.id k (transactions st) with
  | Some row => do t <- Transaction_from_db row; Ok (Some t)
  | None => Ok None
  end.

(** A SaleItem as a query builds it from its row. *)
Definition SaleItem_from_db (row : SaleItem.t) : result SaleItem.t :=
  do unit_price <- DecimalField_from_db 10 2 (SaleItem.unit_price row);
  do tax_percentage <- DecimalField_from_db 5 2 (SaleItem.tax_percentage row);
  do tax_amount <- DecimalField_from_db 10 2 (SaleItem.tax_amount row);
  do gst_percentage <- DecimalField_from_db 5 2 (SaleItem.gst_percentage row);
  do gst_amount <- DecimalField_from_db 10 2 (SaleItem.gst_amount row);
  do line_total <- DecimalField_from_db 12 2 (SaleItem.line_total row);
  Ok {| SaleItem.id := SaleItem.id row;
        SaleItem.sale := SaleItem.sale row;
        SaleItem.item := SaleItem.item row;
        SaleItem.quantity := SaleItem.quantity row;
        SaleItem.unit_price := unit_price;
        SaleItem.tax_percentage := tax_percentage;
        SaleItem.tax_amount := tax_amount;
        SaleItem.gst_percentage := gst_percentage;
        SaleItem.gst_amount := gst_amount;
        SaleItem.line_total := line_total |}.

(** [SaleItem.objects.filter(pk=k).first()] *)
Definition SaleItem_fetch (k : uuid) (st : Store) : result (option SaleItem.t) :=
  match get_by_pk SaleItem.id k (sale_items st) with
  | Some row => do i <- SaleItem_from_db row; Ok (Some i)
  | None => Ok None
  end.

(** ** [sale_number = CharField(max_length=100, unique=True, blank=True)]

    The database refuses the row of a sale whose number another row of
    the table carries: the insert or update raises, nothing is written
    and [post_save] is not sent. *)

Definition sale_number_taken (self : Sale.t) (tbl : list Sale.t) : bool :=
  existsb
    (fun r => String.eqb (Sale.sale_number r) (Sale.sale_number self)
              && negb (String.eqb (Sale.id r) (Sale.id self)))
    tbl.

(** [Sale.save] with the answer of the unique column: the number is
    generated first, then the row is written if the database takes it. *)
Definition Sale_save_unique
    (create : AuditLog.t -> list AuditLog.t -> result (list AuditLog.t))
    (now : date) (self : Sale.t) (st : Store) : result (Sale.t * Store) :=
  if sale_number_taken (Sale_auto_number now (sales st) self) (sales st)
  then Raise (IntegrityError "UNIQUE constraint failed: sales_sale.sale_number")
  else Sale_save create now self st.

(** ** Notions the proofs about the columns use *)

(** An amount that is a whole number of cents. *)
Definition whole_cents (d : Decimal) : Prop :=
  exists n : Z, (Decimal.value d == inject_Z n / (100 # 1))%Q.

(** [r] is [d] rounded to the cent: it has two decimal places and lies at
    most half a cent from [d]. *)
Definition rounded_to_cent (d r : Decimal) : Prop :=
  Decimal.expo r = -2 /\
  (Qabs (Decimal.value r - Decimal.value d) <= 1 # 200)%Q.

(* --------------------------------------------------------------------- *)
(** ** Databases and records for the examples *)

(** An audit table that accepts every row, and one that refuses them. *)
Definition reliable_create (row : AuditLog.t) (logs : list AuditLog.t)
  : result (list AuditLog.t) := Ok (logs ++ [row]).

Definition failing_create (row : AuditLog.t) (logs : list AuditLog.t)
  : result (list AuditLog.t) := Raise (DatabaseError "database is locked").

(** A queryset order: the order of the table. *)
Definition table_order (l : list Sale.t) : list Sale.t := l.

Definition acme : Customer.t :=
  {| Customer.id := "c-acme"; Customer.name := "Acme";
     Customer.company_name := "Acme Ltd"; Customer.created_by := 1 |}.

(** amount=1000, tax_percentage=5, taxable, no GST, on a fresh record (the
    amounts still at their default 0). *)
Definition fresh_transaction : Transaction.t :=
  {| Transaction.id := "t-1";
     Transaction.customer := acme;
     Transaction.transaction_type := income;
     Transaction.amount := Decimal.of_int 1000;
     Transaction.is_taxable := true;
     Transaction.tax_percentage := Decimal.of_int 5;
     Transaction.tax_amount := Decimal.of_int 0;
     Transaction.gst_applicable := false;
     Transaction.gst_percentage := Decimal.of_int 0;
     Transaction.gst_amount := Decimal.of_int 0;
     Transaction.total_amount := Decimal.of_int 0;
     Transaction.created_by := 1 |}.

(** The same transaction as the table holds it after that save
    (1000.00, 5.00 %, tax 50.00, total 1050.00) ... *)
Definition taxed_transaction : Transaction.t :=
  {| Transaction.id := "t-1";
     Transaction.customer := acme;
     Transaction.transaction_type := income;
     Transaction.amount := Decimal.mk 100000 (-2);
     Transaction.is_taxable := true;
     Transaction.tax_percentage := Decimal.mk 500 (-2);
     Transaction.tax_amount := Decimal.mk 5000 (-2);
     Transaction.gst_applicable := false;
     Transaction.gst_percentage := Decimal.mk 0 (-2);
     Transaction.gst_amount := Decimal.mk 0 (-2);
     Transaction.total_amount := Decimal.mk 105000 (-2);
     Transaction.created_by := 1 |}.

(** ... and as an edit hands it back with the taxable box unticked. *)
Definition untaxed_transaction : Transaction.t :=
  {| Transaction.id := "t-1";
     Transaction.customer := acme;
     Transaction.transaction_type := income;
     Transaction.amount := Decimal.mk 100000 (-2);
     Transaction.is_taxable := false;
     Transaction.tax_percentage := Decimal.mk 500 (-2);
     Transaction.tax_amount := Decimal.mk 5000 (-2);
     Transaction.gst_applicable := false;
     Transaction.gst_percentage := Decimal.mk 0 (-2);
     Transaction.gst_amount := Decimal.mk 0 (-2);
     Transaction.total_amount := Decimal.mk 105000 (-2);
     Transaction.created_by := 1 |}.

Definition store_with_taxed_transaction : Store :=
  set_transactions [taxed_transaction] empty_store.

Definition widget : Item.t :=
  {| Item.id := "i-widget"; Item.name := "Widget"; Item.sku := "W-1" |}.

(** Three widgets at 19.99 with 5 % tax and 12.5 % GST. *)
Definition widget_line (quantity : Z) : SaleItem.t :=
  {| SaleItem.id := "si-1";
     SaleItem.sale := "s-1";
     SaleItem.item := widget;
     SaleItem.quantity := quantity;
     SaleItem.unit_price := Decimal.mk 1999 (-2);
     SaleItem.tax_percentage := Decimal.mk 500 (-2);
     SaleItem.tax_amount := Decimal.of_int 0;
     SaleItem.gst_percentage := Decimal.mk 1250 (-2);
     SaleItem.gst_amount := Decimal.of_int 0;
     SaleItem.line_total := Decimal.of_int 0 |}.

Definition march_5 : date := PyDate.mkdate 2024 3 5.

(** A sale as a form hands it over: no number yet, the given total and no
    tax. *)
Definition a_sale (id : uuid) (customer : option Customer.t)
    (sale_date : date) (status : SaleStatus) (total : Decimal) : Sale.t :=
  {| Sale.id := id; Sale.sale_number := ""; Sale.customer := customer;
     Sale.sale_date := sale_date; Sale.status := status;
     Sale.subtotal := total; Sale.total_tax := Decimal.of_int 0;
     Sale.total_gst := Decimal.of_int 0; Sale.total_amount := total;
     Sale.created_by := 1; Sale.created_at := sale_date |}.

(** The first two sales of 5 March 2024. *)
Definition first_sale : Sale.t :=
  a_sale "s-1" (Some acme) march_5 confirmed (Decimal.mk 10000 (-2)).
Definition second_sale : Sale.t :=
  a_sale "s-2" (Some acme) march_5 draft (Decimal.mk 2500 (-2)).

(** A sale with no customer. *)
Definition counter_sale : Sale.t :=
  a_sale "s-3" None march_5 confirmed (Decimal.mk 999 (-2)).


(** A sale dated in the last month of the calendar. *)
Definition last_month_sale : Sale.t :=
  a_sale "s-9" (Some acme) (PyDate.mkdate 9999 12 15) confirmed
         (Decimal.mk 10000 (-2)).



(** The first sale of 5 March 2024 as its save stored it, and the table
    that holds it. *)
Definition numbered_first_sale : Sale.t :=
  with_created_at march_5 (with_sale_number "SAL-20240305-00001" first_sale).

Definition store_with_first_sale : Store :=
  set_sales [numbered_first_sale] empty_store.

(** A counter sale (no customer) in the table. *)
Definition numbered_counter_sale : Sale.t :=
  with_sale_number "SAL-20240305-00001" counter_sale.

Definition counter_store : Store :=
  set_sales [numbered_counter_sale] empty_store.

(** A customer, a sale, one of its lines, and the sale saved again. *)
Definition a_day_of_writes : list write :=
  [ save_customer acme;
    save_sale march_5 first_sale;
    save_sale_item (widget_line 3);
    save_sale march_5 numbered_first_sale;
    save_transaction fresh_transaction ].

(** Widgets bought at 20.00 and sold at 25.00, four in stock. *)
Definition widget_stock : Inventory.t :=
  {| Inventory.item := widget;
     Inventory.cost_price := Some (Decimal.mk 2000 (-2));
     Inventory.selling_price := Some (Decimal.mk 2500 (-2));
     Inventory.quantity_on_hand := 4;
     Inventory.minimum_stock_level := 10 |}.

(** Fifteen cents at 3.33 % tax and 3.33 % GST. *)
Definition small_transaction : Transaction.t :=
  {| Transaction.id := "t-2";
     Transaction.customer := acme;
     Transaction.transaction_type := income;
     Transaction.amount := Decimal.mk 15 (-2);
     Transaction.is_taxable := true;
     Transaction.tax_percentage := Decimal.mk 333 (-2);
     Transaction.tax_amount := Decimal.of_int 0;
     Transaction.gst_applicable := true;
     Transaction.gst_percentage := Decimal.mk 333 (-2);
     Transaction.gst_amount := Decimal.of_int 0;
     Transaction.total_amount := Decimal.of_int 0;
     Transaction.created_by := 1 |}.

(** The second sale of 5 March 2024 as its save stored it, alone in the
    table after the first sale of the day was deleted, and a new sale. *)
Definition numbered_second_sale : Sale.t :=
  with_created_at march_5 (with_sale_number "SAL-20240305-00002" second_sale).

Definition store_after_deletion : Store :=
  set_sales [numbered_second_sale] empty_store.

Definition third_sale : Sale.t :=
  a_sale "s-4" (Some acme) march_5 draft (Decimal.mk 4000 (-2)).

(* ===================================================================== *)
(** * Part II: lemmas and theorems                                        *)
(* ===================================================================== *)

(** ** Decimal arithmetic: when the context does not round *)

Section DecimalFacts.
Import Decimal.

Lemma pow10_pos k : 0 < 10 ^ k \/ k < 0.
Proof. destruct (Z.lt_ge_cases k 0); [right; lia | left; apply Z.pow_pos_nonneg; lia]. Qed.

Lemma pow10_ge1 k : 0 <= k -> 1 <= 10 ^ k.
Proof. intros. assert (0 < 10 ^ k) by (apply Z.pow_pos_nonneg; lia). lia. Qed.

Lemma ndigits_aux_pos fuel : forall n, 1 <= ndigits_aux fuel n.
Proof.
  induction fuel as [|f IH]; intros n; simpl; [lia|].
  destruct (n <? 10); [lia | specialize (IH (n / 10)); lia].
Qed.

Lemma ndigits_aux_le fuel :
  forall n k, 0 <= n < 10 ^ k -> 1 <= k -> ndigits_aux fuel n <= k.
Proof.
  induction fuel as [|f IH]; intros n k Hn Hk; simpl; [lia|].
  destruct (Z.ltb_spec n 10) as [Hlt|Hge]; [lia|].
  assert (Hk2 : 2 <= k).
  { destruct (Z.eq_dec k 1) as [->|]; [|lia]. simpl in Hn. lia. }
  assert (Hdiv : 0 <= n / 10 < 10 ^ (k - 1)).
  { split; [apply Z.div_pos; lia|].
    apply Z.div_lt_upper_bound; [lia|].
    replace (10 * 10 ^ (k - 1)) with (10 ^ k); [lia|].
    replace k with (1 + (k - 1)) at 1 by lia.
    rewrite Z.pow_add_r by lia. reflexivity. }
  specialize (IH (n / 10) (k - 1) Hdiv). lia.
Qed.

(** With the fuel [ndigits] gives it, the count is the number of digits. *)
Lemma ndigits_aux_spec fuel :
  forall n, 0 < n -> Z.log2 n <= Z.of_nat fuel ->
            10 ^ (ndigits_aux fuel n - 1) <= n < 10 ^ ndigits_aux fuel n.
Proof.
  induction fuel as [|f IH]; intros n Hn Hlog.
  - assert (n = 1).
    { destruct (Z.eq_dec n 1) as [|Hne]; [assumption|].
      assert (1 <= Z.log2 n) by (apply Z.log2_le_pow2; simpl; lia). lia. }
    subst n. simpl. lia.
  - rewrite Nat2Z.inj_succ in Hlog. cbn [ndigits_aux].
    destruct (Z.ltb_spec n 10) as [Hlt|Hge]; [simpl; lia|].
    assert (Hq : 0 < n / 10) by (apply Z.div_str_pos; lia).
    assert (Hlq : Z.log2 (n / 10) <= Z.of_nat f).
    { assert (n / 10 <= n / 2).
      { apply Z.div_le_lower_bound; [lia|].
        pose proof (Z.mul_div_le n 10 ltac:(lia)).
        pose proof (Z.div_mod n 2 ltac:(lia)).
        pose proof (Z.mod_pos_bound n 2 ltac:(lia)). lia. }
      assert (Z.log2 (n / 2) = Z.log2 n - 1).
      { assert (3 <= Z.log2 n) by (apply Z.log2_le_pow2; simpl; lia).
        rewrite <- Z.div2_div, Z.div2_spec, Z.log2_shiftr by lia. lia. }
      pose proof (Z.log2_le_mono (n / 10) (n / 2) ltac:(lia)). lia. }
    specialize (IH (n / 10) Hq Hlq).
    set (r := ndigits_aux f (n / 10)) in *.
    pose proof (ndigits_aux_pos f (n / 10)) as Hr. fold r in Hr.
    replace (1 + r - 1) with (1 + (r - 1)) by lia.
    rewrite !Z.pow_add_r by lia. change (10 ^ 1) with 10.
    pose proof (Z.div_mod n 10 ltac:(lia)).
    pose proof (Z.mod_pos_bound n 10 ltac:(lia)). lia.
Qed.

Lemma ndigits_spec c :
  c <> 0 -> 10 ^ (ndigits c - 1) <= Z.abs c < 10 ^ ndigits c.
Proof.
  intros Hc. unfold ndigits. apply ndigits_aux_spec; [lia|].
  pose proof (Z.log2_nonneg (Z.abs c)). lia.
Qed.

Lemma ndigits_pos c : 1 <= ndigits c.
Proof. apply ndigits_aux_pos. Qed.

Lemma ndigits_le c k : Z.abs c < 10 ^ k -> 1 <= k -> ndigits c <= k.
Proof. intros H Hk. apply ndigits_aux_le; lia. Qed.

Lemma fix_small d : Z.abs (coeff d) < 10 ^ prec -> fix_ d = d.
Proof.
  intros H. unfold fix_.
  destruct (Z.leb_spec (ndigits (coeff d)) prec) as [_|Hgt]; [reflexivity|].
  pose proof (ndigits_le (coeff d) prec H). unfold prec in *. lia.
Qed.

(** *** Values *)

Lemma ten_neq0 : ~ (10 # 1 == 0)%Q.
Proof. discriminate. Qed.

Lemma Qpow10_Z k : 0 <= k -> (inject_Z (10 ^ k) == (10 # 1) ^ k)%Q.
Proof. intros. apply (Zpower_Qpower 10 k). assumption. Qed.

Lemma value_mk c e : value (mk c e) = (inject_Z c * (10 # 1) ^ e)%Q.
Proof. reflexivity. Qed.

Lemma value_scaled d s :
  0 <= expo d + s ->
  (value d == inject_Z (coeff d * 10 ^ (expo d + s)) / (10 # 1) ^ s)%Q.
Proof.
  intros H. unfold value.
  rewrite inject_Z_mult, Qpow10_Z by assumption.
  rewrite Qpower_plus by apply ten_neq0.
  field. apply Qpower_not_0, ten_neq0.
Qed.

Lemma value_mul_exact a b :
  (value (mk (coeff a * coeff b) (expo a + expo b)) == value a * value b)%Q.
Proof.
  unfold value; simpl.
  rewrite inject_Z_mult, Qpower_plus by apply ten_neq0. ring.
Qed.

Lemma value_add_exact a b :
  (value (add_exact a b) == value a + value b)%Q.
Proof.
  unfold add_exact, value; simpl.
  set (e := Z.min (expo a) (expo b)).
  rewrite inject_Z_plus, !inject_Z_mult.
  rewrite !Qpow10_Z by lia.
  rewrite !Qpower_minus by apply ten_neq0.
  field. apply Qpower_not_0, ten_neq0.
Qed.

Lemma value_of_int n : (value (of_int n) == inject_Z n)%Q.
Proof. unfold value, of_int; simpl. ring. Qed.

(** *** Magnitudes *)

Lemma bounded_coeff s B d : bounded s B d -> Z.abs (coeff d) < B.
Proof.
  intros [He Hc]. pose proof (pow10_ge1 (expo d + s)). nia.
Qed.

Lemma bounded_weaken s B B' d : bounded s B d -> B <= B' -> bounded s B' d.
Proof. intros [He Hc] HB. split; lia. Qed.

Lemma bounded_rescale s B k d :
  bounded s B d -> 0 <= k -> bounded (s + k) (B * 10 ^ k) d.
Proof.
  intros [He Hc] Hk. split; [lia|].
  replace (expo d + (s + k)) with ((expo d + s) + k) by lia.
  rewrite Z.pow_add_r by lia.
  pose proof (pow10_ge1 k Hk). nia.
Qed.

Lemma bounded_of_int n B : Z.abs n < B -> bounded 0 B (of_int n).
Proof. intros H. split; simpl; lia. Qed.

Lemma fix_bounded s B d : bounded s B d -> B <= 10 ^ prec -> fix_ d = d.
Proof.
  intros Hb HB. apply fix_small. pose proof (bounded_coeff _ _ _ Hb). lia.
Qed.

Lemma bounded_mul_exact s1 B1 s2 B2 a b :
  bounded s1 B1 a -> bounded s2 B2 b ->
  bounded (s1 + s2) (B1 * B2) (mk (coeff a * coeff b) (expo a + expo b)).
Proof.
  intros [Ha1 Ha2] [Hb1 Hb2]. split; simpl; [lia|].
  replace (expo a + expo b + (s1 + s2))
    with ((expo a + s1) + (expo b + s2)) by lia.
  rewrite Z.pow_add_r by lia. rewrite Z.abs_mul.
  pose proof (pow10_ge1 (expo a + s1)). pose proof (pow10_ge1 (expo b + s2)).
  pose proof (Z.abs_nonneg (coeff a)). pose proof (Z.abs_nonneg (coeff b)).
  nia.
Qed.

Lemma bounded_add_exact s B1 B2 a b :
  bounded s B1 a -> bounded s B2 b -> bounded s (B1 + B2) (add_exact a b).
Proof.
  intros [Ha1 Ha2] [Hb1 Hb2]. unfold add_exact.
  set (e := Z.min (expo a) (expo b)). split; simpl; [lia|].
  assert (Ea : 10 ^ (expo a + s) = 10 ^ (expo a - e) * 10 ^ (e + s)).
  { rewrite <- Z.pow_add_r by lia. f_equal. lia. }
  assert (Eb : 10 ^ (expo b + s) = 10 ^ (expo b - e) * 10 ^ (e + s)).
  { rewrite <- Z.pow_add_r by lia. f_equal. lia. }
  rewrite Ea in Ha2. rewrite Eb in Hb2.
  pose proof (pow10_ge1 (e + s)). pose proof (pow10_ge1 (expo a - e)).
  pose proof (pow10_ge1 (expo b - e)).
  pose proof (Z.abs_triangle (coeff a * 10 ^ (expo a - e))
                             (coeff b * 10 ^ (expo b - e))) as Ht.
  rewrite !Z.abs_mul in Ht.
  rewrite (Z.abs_eq (10 ^ (expo a - e))) in Ht by lia.
  rewrite (Z.abs_eq (10 ^ (expo b - e))) in Ht by lia.
  nia.
Qed.

(** Multiplication and addition are exact below the precision. *)

Lemma mul_exact s1 B1 s2 B2 a b :
  bounded s1 B1 a -> bounded s2 B2 b -> B1 * B2 <= 10 ^ prec ->
  bounded (s1 + s2) (B1 * B2) (mul a b) /\
  (value (mul a b) == value a * value b)%Q.
Proof.
  intros Ha Hb HB.
  pose proof (bounded_mul_exact _ _ _ _ _ _ Ha Hb) as Hm.
  unfold mul. rewrite (fix_bounded _ _ _ Hm HB).
  split; [exact Hm | apply value_mul_exact].
Qed.

Lemma add_exact_ok s B1 B2 a b :
  bounded s B1 a -> bounded s B2 b -> B1 + B2 <= 10 ^ prec ->
  bounded s (B1 + B2) (add a b) /\
  (value (add a b) == value a + value b)%Q.
Proof.
  intros Ha Hb HB.
  pose proof (bounded_add_exact _ _ _ _ _ Ha Hb) as Hm.
  unfold add. rewrite (fix_bounded _ _ _ Hm HB).
  split; [exact Hm | apply value_add_exact].
Qed.

End DecimalFacts.

Section DecimalDivision.
Import Decimal.

Lemma strip_zeros_spec fuel :
  forall c e ideal c' e',
    strip_zeros fuel c e ideal = (c', e') ->
    0 <= c -> e <= ideal ->
    e <= e' <= ideal /\ 0 <= c' /\ c = c' * 10 ^ (e' - e) /\
    (ideal - e <= Z.of_nat fuel -> e' = ideal \/ c' mod 10 <> 0).
Proof.
  induction fuel as [|f IH]; intros c e ideal c' e' Hs Hc He.
  - simpl in Hs. inversion Hs; subst c' e'.
    rewrite Z.sub_diag. simpl. repeat split; try lia.
  - simpl in Hs.
    destruct (Z.ltb_spec e ideal) as [Hlt|Hge];
      destruct (Z.eqb_spec (c mod 10) 0) as [Hm|Hm]; simpl in Hs;
      try (inversion Hs; subst c' e'; rewrite Z.sub_diag; simpl;
           repeat split; lia).
    apply IH in Hs; [|apply Z.div_pos; lia | lia].
    destruct Hs as (He' & Hc' & Heq & Hstop).
    split; [lia|]. split; [lia|]. split.
    + replace (e' - e) with (1 + (e' - (e + 1))) by lia.
      rewrite Z.pow_add_r by lia. change (10 ^ 1) with 10.
      pose proof (Z.div_mod c 10). lia.
    + intros Hf. apply Hstop. lia.
Qed.

Lemma ndigits_100 : ndigits (Z.pos 100) = 3.
Proof. reflexivity. Qed.

(** Dividing by 100 is exact whenever the dividend fits the precision:
    the quotient only moves the decimal point. *)
Lemma div100_exact s B a :
  bounded s B a -> B <= 10 ^ prec ->
  bounded (s + 2) B (div_int a 100) /\
  (value (div_int a 100) == value a / (100 # 1))%Q.
Proof.
  intros Hb HB. pose proof (bounded_coeff _ _ _ Hb) as Hc.
  destruct Hb as [Hb1 Hb2].
  unfold div_int. cbv zeta.
  destruct (Z.eqb_spec (Z.abs (coeff a)) 0) as [Hz|Hnz].
  - assert (Hc0 : coeff a = 0) by lia.
    rewrite fix_small by (simpl; unfold prec; lia).
    split; [split; simpl; lia|].
    unfold value; simpl. rewrite Hc0. field.
  - set (C := Z.abs (coeff a)) in *.
    assert (HC : 0 < C) by lia.
    assert (Hnd : 1 <= ndigits C <= prec).
    { split; [apply ndigits_pos|].
      apply ndigits_le; [|unfold prec; lia]. subst C. lia. }
    rewrite ndigits_100.
    set (shift := 3 - ndigits C + prec + 1).
    assert (Hshift : 4 <= shift) by (subst shift; lia).
    destruct (Z.leb_spec 0 shift) as [_|]; [|lia].
    assert (Hpow : 10 ^ shift = 10 ^ (shift - 2) * 100).
    { replace shift with ((shift - 2) + 2) at 1 by lia.
      rewrite Z.pow_add_r by lia. reflexivity. }
    rewrite Hpow, Z.mul_assoc.
    rewrite Z.mod_mul by lia. rewrite Z.div_mul by lia.
    destruct (Z.eqb_spec 0 0) as [_|]; [|lia].
    destruct (strip_zeros (Z.to_nat (expo a - (expo a - shift)))
                (C * 10 ^ (shift - 2)) (expo a - shift) (expo a))
      as [q' e'] eqn:Hstrip.
    apply strip_zeros_spec in Hstrip;
      [| pose proof (pow10_ge1 (shift - 2)); nia | lia].
    destruct Hstrip as (He' & Hq' & Heq & Hstop).
    specialize (Hstop ltac:(lia)).
    set (j := expo a - e').
    assert (Hj : 0 <= j <= shift) by (subst j; lia).
    replace (e' - (expo a - shift)) with (shift - j) in Heq by (subst j; lia).
    (* the loop stopped within two steps of the ideal exponent *)
    assert (Hj2 : j <= 2).
    { destruct (Z.le_gt_cases j 2) as [|Hgt]; [assumption|exfalso].
      assert (Hq : q' = C * 10 ^ (j - 2)).
      { replace (shift - 2) with ((j - 2) + (shift - j)) in Heq by lia.
        rewrite Z.pow_add_r, Z.mul_assoc in Heq by lia.
        apply Z.mul_cancel_r in Heq;
          [lia | pose proof (pow10_ge1 (shift - j)); lia]. }
      destruct Hstop as [Hi | Hm]; [subst j; lia|].
      apply Hm. rewrite Hq.
      replace (j - 2) with (1 + (j - 3)) by lia.
      rewrite Z.pow_add_r by lia. change (10 ^ 1) with 10.
      rewrite Z.mul_assoc, (Z.mul_comm C 10), <- Z.mul_assoc.
      rewrite Z.mul_comm. apply Z.mod_mul. lia. }
    assert (HCq : C = q' * 10 ^ (2 - j)).
    { replace (shift - j) with ((2 - j) + (shift - 2)) in Heq by lia.
      rewrite Z.pow_add_r, Z.mul_assoc in Heq by lia.
      apply Z.mul_cancel_r in Heq;
        [lia | pose proof (pow10_ge1 (shift - 2)); lia]. }
    assert (Hq'C : q' <= C).
    { pose proof (pow10_ge1 (2 - j)). nia. }
    assert (Hsgn : Z.abs (Z.sgn (coeff a) * q') = q').
    { destruct (Z.sgn_spec (coeff a)) as [[? Hs]|[[? Hs]|[? Hs]]];
        rewrite Hs; lia. }
    rewrite fix_small by (simpl; rewrite Hsgn; unfold prec in *; lia).
    split.
    + split; simpl; [subst j; lia|].
      rewrite Hsgn.
      replace (e' + (s + 2)) with ((2 - j) + (expo a + s)) by (subst j; lia).
      rewrite Z.pow_add_r, Z.mul_assoc, <- HCq by lia. exact Hb2.
    + unfold value; simpl.
      assert (Hca : coeff a = Z.sgn (coeff a) * q' * 10 ^ (2 - j)).
      { rewrite <- Z.mul_assoc, <- HCq. subst C.
        destruct (Z.sgn_spec (coeff a)) as [[? Hs]|[[? Hs]|[? Hs]]];
          rewrite Hs; lia. }
      rewrite Hca at 2.
      replace (expo a) with (e' + j) by (subst j; lia).
      rewrite !inject_Z_mult.
      assert (Hjj : j = 0 \/ j = 1 \/ j = 2) by lia.
      rewrite Qpower_plus by apply ten_neq0.
      set (X := ((10 # 1) ^ e')%Q). set (S := inject_Z (Z.sgn (coeff a))).
      set (Q' := inject_Z q').
      destruct Hjj as [-> | [-> | ->]].
      * change (inject_Z (10 ^ (2 - 0))) with (100 # 1)%Q.
        change ((10 # 1) ^ 0)%Q with 1%Q. field.
      * change (inject_Z (10 ^ (2 - 1))) with (10 # 1)%Q.
        change ((10 # 1) ^ 1)%Q with (10 # 1)%Q. field.
      * change (inject_Z (10 ^ (2 - 2))) with 1%Q.
        change ((10 # 1) ^ 2)%Q with (100 # 1)%Q. field.
Qed.

End DecimalDivision.

(** ** The calendar: day numbers and dates *)

Section DateFacts.
Import PyDate.

Lemma divmod_unique (n b q r : Z) :
  0 <= r < b -> n = b * q + r -> n / b = q /\ n mod b = r.
Proof.
  intros Hr Hn; split; symmetry.
  - apply (Z.div_unique n b q r); [left; exact Hr | exact Hn].
  - apply (Z.mod_unique n b q r); [left; exact Hr | exact Hn].
Qed.

Lemma year_decomp y :
  1 <= y ->
  exists a b c e,
    0 <= a /\ 0 <= b <= 3 /\ 0 <= c <= 24 /\ 0 <= e <= 3 /\
    y = 400 * a + 100 * b + 4 * c + e + 1 /\
    days_before_year y = 146097 * a + 36524 * b + 1461 * c + 365 * e /\
    is_leap y = (e =? 3) && (negb (c =? 24) || (b =? 3)).
Proof.
  intros Hy.
  pose (a := (y - 1) / 400). pose (r := (y - 1) mod 400).
  pose (b := r / 100). pose (r' := r mod 100).
  pose (c := r' / 4). pose (e := r' mod 4).
  assert (H1 : y - 1 = 400 * a + r /\ 0 <= r < 400).
  { subst a r. split; [apply Z.div_mod; lia | apply Z.mod_pos_bound; lia]. }
  assert (H2 : r = 100 * b + r' /\ 0 <= r' < 100).
  { subst b r'. split; [apply Z.div_mod; lia | apply Z.mod_pos_bound; lia]. }
  assert (H3 : r' = 4 * c + e /\ 0 <= e < 4).
  { subst c e. split; [apply Z.div_mod; lia | apply Z.mod_pos_bound; lia]. }
  clearbody a r b r' c e.
  destruct H1 as [H1 H1'], H2 as [H2 H2'], H3 as [H3 H3'].
  exists a, b, c, e.
  assert (Hy' : y = 400 * a + 100 * b + 4 * c + e + 1) by lia.
  repeat split; try lia.
  - unfold days_before_year.
    destruct (divmod_unique (y - 1) 4 (100 * a + 25 * b + c) e) as [-> _]; [lia|lia|].
    destruct (divmod_unique (y - 1) 100 (4 * a + b) (4 * c + e)) as [-> _]; [lia|lia|].
    destruct (divmod_unique (y - 1) 400 a (100 * b + 4 * c + e)) as [-> _]; [lia|lia|].
    lia.
  - unfold is_leap.
    destruct (Z.eq_dec e 3) as [He|He].
    + destruct (divmod_unique y 4 (100 * a + 25 * b + c + 1) 0) as [_ ->]; [lia|lia|].
      destruct (Z.eq_dec c 24) as [Hc|Hc].
      * destruct (divmod_unique y 100 (4 * a + b + 1) 0) as [_ ->]; [lia|lia|].
        destruct (Z.eq_dec b 3) as [Hb|Hb].
        -- destruct (divmod_unique y 400 (a + 1) 0) as [_ ->]; [lia|lia|].
           subst. reflexivity.
        -- destruct (divmod_unique y 400 a (100 * b + 100)) as [_ ->]; [lia|lia|].
           subst e c. simpl.
           destruct (Z.eqb_spec (100 * b + 100) 0); [lia|].
           destruct (Z.eqb_spec b 3); [lia|]. reflexivity.
      * destruct (divmod_unique y 100 (4 * a + b) (4 * c + 4)) as [_ ->]; [lia|lia|].
        subst e. simpl.
        destruct (Z.eqb_spec (4 * c + 4) 0); [lia|].
        destruct (Z.eqb_spec c 24); [lia|]. reflexivity.
    + destruct (divmod_unique y 4 (100 * a + 25 * b + c) (e + 1)) as [_ ->]; [lia|lia|].
      destruct (Z.eqb_spec (e + 1) 0); [lia|].
      destruct (Z.eqb_spec e 3); [lia|]. reflexivity.
Qed.

Lemma ord2ymd_regular a b c e r :
  0 <= a -> 0 <= b <= 3 -> 0 <= c <= 24 -> 0 <= e <= 3 -> 0 <= r < 365 ->
  ord2ymd (146097 * a + 36524 * b + 1461 * c + 365 * e + r + 1) =
  month_day (400 * a + 100 * b + 4 * c + e + 1)
            ((e =? 3) && (negb (c =? 24) || (b =? 3))) r.
Proof.
  intros Ha Hb Hc He Hr.
  unfold ord2ymd, DI400Y, DI100Y, DI4Y. cbv zeta.
  replace (146097 * a + 36524 * b + 1461 * c + 365 * e + r + 1 - 1)
    with (146097 * a + (36524 * b + (1461 * c + (365 * e + r)))) by lia.
  destruct (divmod_unique (146097 * a + (36524 * b + (1461 * c + (365 * e + r))))
              146097 a (36524 * b + (1461 * c + (365 * e + r)))) as [-> ->];
    [lia | lia |].
  destruct (divmod_unique (36524 * b + (1461 * c + (365 * e + r)))
              36524 b (1461 * c + (365 * e + r))) as [-> ->]; [lia | lia |].
  destruct (divmod_unique (1461 * c + (365 * e + r)) 1461 c (365 * e + r))
    as [-> ->]; [lia | lia |].
  destruct (divmod_unique (365 * e + r) 365 e r) as [-> ->]; [lia | lia |].
  destruct (Z.eqb_spec e 4); [lia|]. destruct (Z.eqb_spec b 4); [lia|].
  simpl orb. cbv iota.
  replace (a * 400 + 1 + b * 100 + c * 4 + e)
    with (400 * a + 100 * b + 4 * c + e + 1) by lia.
  reflexivity.
Qed.

Lemma ord2ymd_last_day a b c :
  0 <= a -> 0 <= b <= 3 -> 0 <= c <= 24 -> (c <> 24 \/ b = 3) ->
  ord2ymd (146097 * a + 36524 * b + 1461 * c + 365 * 3 + 365 + 1) =
  mkdate (400 * a + 100 * b + 4 * c + 3 + 1) 12 31.
Proof.
  intros Ha Hb Hc Hl.
  unfold ord2ymd, DI400Y, DI100Y, DI4Y. cbv zeta.
  replace (146097 * a + 36524 * b + 1461 * c + 365 * 3 + 365 + 1 - 1)
    with (146097 * a + (36524 * b + (1461 * c + 1460))) by lia.
  destruct (divmod_unique (146097 * a + (36524 * b + (1461 * c + 1460)))
              146097 a (36524 * b + (1461 * c + 1460))) as [-> ->];
    [lia | lia |].
  destruct (Z.eq_dec c 24) as [Hc24 | Hc24].
  - assert (b = 3) by lia. subst b c.
    change (36524 * 3 + (1461 * 24 + 1460)) with 146096.
    change (146096 / 36524) with 4. change (146096 mod 36524) with 0.
    change (0 / 1461) with 0. change (0 mod 1461) with 0.
    change (0 / 365) with 0. change (0 mod 365) with 0.
    simpl. f_equal. lia.
  - destruct (divmod_unique (36524 * b + (1461 * c + 1460))
                36524 b (1461 * c + 1460)) as [-> ->]; [lia | lia |].
    destruct (divmod_unique (1461 * c + 1460) 1461 c 1460)
      as [-> ->]; [lia | lia |].
    change (1460 / 365) with 4. change (1460 mod 365) with 0.
    simpl. f_equal. lia.
Qed.

Lemma month_day_spec y leap m d :
  1 <= m <= 12 ->
  1 <= d <= (if (m =? 2) && leap then 29 else DAYS_IN_MONTH m) ->
  month_day y leap
    (DAYS_BEFORE_MONTH m + (if (2 <? m) && leap then 1 else 0) + d - 1)
  = mkdate y m d.
Proof.
  intros Hm Hd. unfold month_day. cbv zeta.
  rewrite Z.shiftr_div_pow2 by lia. change (2 ^ 5) with 32.
  assert (Hcases : m = 1 \/ m = 2 \/ m = 3 \/ m = 4 \/ m = 5 \/ m = 6 \/
                   m = 7 \/ m = 8 \/ m = 9 \/ m = 10 \/ m = 11 \/ m = 12)
    by lia.
  destruct leap;
    repeat (destruct Hcases as [-> | Hcases]); try subst m;
    simpl in Hd |- *;
    match goal with
    | |- context [(?k + d - 1 + 50) / 32] =>
        let q := eval compute in ((k + 50) / 32) in
        assert (Hq : (k + d - 1 + 50) / 32 = q \/
                     (k + d - 1 + 50) / 32 = q + 1)
          by (Z.div_mod_to_equations; lia);
        destruct Hq as [Hq | Hq]; rewrite Hq; simpl;
        match goal with
        | |- context [?x <? ?y] =>
            destruct (Z.ltb_spec x y);
            try (f_equal; lia); exfalso; Z.div_mod_to_equations; lia
        end
    end.
Qed.

Lemma ord2ymd_ymd2ord y m d :
  valid (mkdate y m d) -> ord2ymd (ymd2ord y m d) = mkdate y m d.
Proof.
  unfold valid; simpl. intros (Hy & Hm & Hd).
  destruct (year_decomp y) as (a & b & c & e & Ha & Hb & Hc & He & Hyeq & Hdby & Hleap);
    [lia|].
  unfold ymd2ord, days_before_month. rewrite Hdby.
  unfold days_in_month in Hd.
  set (L := is_leap y) in *.
  set (r := DAYS_BEFORE_MONTH m + (if (2 <? m) && L then 1 else 0) + d - 1).
  assert (Hr : 0 <= r < 365 \/ (L = true /\ m = 12 /\ d = 31 /\ r = 365)).
  { subst r.
    assert (Hcases : m = 1 \/ m = 2 \/ m = 3 \/ m = 4 \/ m = 5 \/ m = 6 \/
                     m = 7 \/ m = 8 \/ m = 9 \/ m = 10 \/ m = 11 \/ m = 12)
      by lia.
    clearbody L. clear Hleap.
    destruct L; repeat (destruct Hcases as [-> | Hcases]); try subst m;
      simpl in Hd |- *; lia. }
  destruct Hr as [Hr | (HL & -> & -> & Hr)].
  - replace (146097 * a + 36524 * b + 1461 * c + 365 * e +
             (DAYS_BEFORE_MONTH m + (if (2 <? m) && L then 1 else 0)) + d)
      with (146097 * a + 36524 * b + 1461 * c + 365 * e + r + 1)
      by (subst r; lia).
    rewrite ord2ymd_regular by lia.
    rewrite <- Hleap, <- Hyeq. fold L. subst r.
    apply month_day_spec; assumption.
  - rewrite HL in Hleap. symmetry in Hleap.
    apply andb_true_iff in Hleap as [He3 Hcb].
    apply Z.eqb_eq in He3. subst e.
    apply orb_true_iff in Hcb.
    rewrite HL.
    change (DAYS_BEFORE_MONTH 12 + (if (2 <? 12) && true then 1 else 0))
      with 335.
    replace (146097 * a + 36524 * b + 1461 * c + 365 * 3 + 335 + 31)
      with (146097 * a + 36524 * b + 1461 * c + 365 * 3 + 365 + 1) by lia.
    rewrite ord2ymd_last_day by lia.
    f_equal. lia.
Qed.

End DateFacts.

(** ** The record store: rows after a write *)

Lemma get_by_pk_upsert {A : Type} (pk : A -> uuid) (row : A) (tbl : list A) :
  get_by_pk pk (pk row) (upsert pk row tbl) = Some row.
Proof.
  unfold get_by_pk, upsert, has_pk.
  destruct (existsb (fun r => String.eqb (pk r) (pk row)) tbl) eqn:Hex.
  - induction tbl as [|r tbl IH]; simpl in *; [discriminate|].
    destruct (String.eqb_spec (pk r) (pk row)) as [Heq|Hne]; simpl.
    + rewrite String.eqb_refl. reflexivity.
    + destruct (String.eqb_spec (pk r) (pk row)); [contradiction|].
      apply IH. exact Hex.
  - induction tbl as [|r tbl IH]; simpl in *.
    + rewrite String.eqb_refl. reflexivity.
    + apply orb_false_iff in Hex as [Hr Hex].
      rewrite Hr. apply IH. exact Hex.
Qed.


Section WriteFacts.

Variable create : AuditLog.t -> list AuditLog.t -> result (list AuditLog.t).

(** The audit mirror returns normally whatever the insertion does; when the
    insertion raises, one line is printed. *)
Lemma log_action_contained user action model_name object_id object_str
    old_values new_values ip_address description st :
  exists st' row,
    log_action create user action model_name object_id object_str
               old_values new_values ip_address description st = Ok st' /\
    same_tables st st' /\
    (AuditLog.action row = action /\ AuditLog.model_name row = model_name /\
     AuditLog.object_id row = object_id) /\
    stdout st' =
      stdout st ++
      match create row (audit_logs st) with
      | Ok _ => []
      | Raise e => ["Error logging audit: " +:+ exn_str e]
      end.
Proof.
  unfold log_action. cbv zeta.
  match goal with
  | |- context [create ?r (audit_logs st)] => set (row := r)
  end.
  destruct (create row (audit_logs st)) as [logs|e] eqn:Hc; simpl.
  - exists (set_audit_logs logs st), row. rewrite Hc.
    split; [reflexivity|]. split; [repeat split|]. split; [repeat split|].
    simpl. rewrite app_nil_r. reflexivity.
  - exists (print ("Error logging audit: " +:+ exn_str e) st), row. rewrite Hc.
    split; [reflexivity|]. split; [repeat split|]. split; [repeat split|].
    reflexivity.
Qed.

(** A receiver that logs only when the row was created. *)
Lemma audit_if_created_contained (created : bool) user action model_name
    object_id object_str old_values new_values ip_address description st :
  exists (st' : Store) (row : AuditLog.t),
    (if created
     then log_action create user action model_name object_id object_str
                     old_values new_values ip_address description st
     else Ok st) = Ok st' /\
    same_tables st st' /\
    (AuditLog.action row = action /\ AuditLog.model_name row = model_name /\
     AuditLog.object_id row = object_id) /\
    stdout st' =
      stdout st ++
      (if created then
         match create row (audit_logs st) with
         | Ok _ => @nil string
         | Raise e => ["Error logging audit: " +:+ exn_str e]
         end
       else []).
Proof.
  destruct created.
  - apply log_action_contained.
  - exists st,
      (AuditLog.mk None action model_name object_id "" None None None None "").
    split; [reflexivity|]. split; [repeat split|]. split; [repeat split|].
    rewrite app_nil_r. reflexivity.
Qed.

End WriteFacts.

(** ** The columns: what a [DecimalField] gives back *)

Section ColumnFacts.

Import Decimal.

(** Dropping digits half to even moves a number by at most half a unit of
    the last digit kept. *)
Lemma round_half_even_near c k :
  0 < k -> 2 * Z.abs (round_half_even c k * 10 ^ k - c) <= 10 ^ k.
Proof.
  intros Hk. unfold round_half_even.
  assert (HP : 0 < 10 ^ k) by (apply Z.pow_pos_nonneg; lia).
  assert (Hhalf : 2 * (5 * 10 ^ (k - 1)) = 10 ^ k).
  { replace k with (1 + (k - 1)) at 2 by lia.
    rewrite Z.pow_add_r by lia. change (10 ^ 1) with 10. lia. }
  set (P := 10 ^ k) in *. set (half := 5 * 10 ^ (k - 1)) in *.
  pose proof (Z.div_mod (Z.abs c) P ltac:(lia)) as Hdm.
  pose proof (Z.mod_pos_bound (Z.abs c) P HP) as Hr.
  set (q := Z.abs c / P) in *. set (r := Z.abs c mod P) in *.
  assert (Hcases :
            forall q', (q' = q /\ r <= half) \/ (q' = q + 1 /\ half <= r) ->
                       2 * Z.abs (Z.sgn c * q' * P - c) <= P).
  { intros q' Hq'.
    assert (Hc : c = Z.sgn c * Z.abs c).
    { destruct (Z.sgn_spec c) as [[? Hs]|[[? Hs]|[? Hs]]]; rewrite Hs; lia. }
    assert (Hd : Z.sgn c * q' * P - c = Z.sgn c * (q' * P - Z.abs c)).
    { rewrite Hc at 2. ring. }
    rewrite Hd, Z.abs_mul.
    assert (Hsg : Z.abs (Z.sgn c) <= 1).
    { destruct (Z.sgn_spec c) as [[? Hs]|[[? Hs]|[? Hs]]]; rewrite Hs; lia. }
    assert (Hin : 2 * Z.abs (q' * P - Z.abs c) <= P).
    { rewrite Hdm. destruct Hq' as [[-> Hle]|[-> Hge]].
      - replace (q * P - (P * q + r)) with (- r) by ring. lia.
      - replace ((q + 1) * P - (P * q + r)) with (P - r) by ring. lia. }
    pose proof (Z.abs_nonneg (Z.sgn c)).
    pose proof (Z.abs_nonneg (q' * P - Z.abs c)). nia. }
  apply Hcases.
  destruct (Z.ltb_spec half r) as [Hlt|Hge]; simpl.
  - right. split; [reflexivity | lia].
  - destruct (Z.eqb_spec r half) as [He|Hne]; simpl.
    + destruct (Z.odd q); [right | left]; split; (reflexivity || lia).
    + left. split; [reflexivity | lia].
Qed.

(** A multiple of the unit kept is not moved. *)
Lemma round_half_even_exact n k :
  0 < k -> round_half_even (n * 10 ^ k) k = n.
Proof.
  intros Hk. unfold round_half_even.
  assert (HP : 0 < 10 ^ k) by (apply Z.pow_pos_nonneg; lia).
  assert (Hhalf : 0 < 5 * 10 ^ (k - 1)).
  { assert (0 < 10 ^ (k - 1)) by (apply Z.pow_pos_nonneg; lia). lia. }
  rewrite Z.abs_mul, (Z.abs_eq (10 ^ k)) by lia.
  rewrite Z.mod_mul, Z.div_mul by lia.
  destruct (Z.ltb_spec (5 * 10 ^ (k - 1)) 0) as [|_]; [lia|].
  destruct (Z.eqb_spec 0 (5 * 10 ^ (k - 1))) as [|_]; [lia|]. simpl.
  rewrite Z.sgn_mul, (Z.sgn_pos (10 ^ k)) by lia.
  rewrite Z.mul_1_r.
  destruct (Z.sgn_spec n) as [[? Hs]|[[? Hs]|[? Hs]]]; rewrite Hs; lia.
Qed.

(** *** Fractions of integers *)

Lemma Qdiv_inject_eq a b c d :
  0 < b -> 0 < d ->
  (inject_Z a / inject_Z b == inject_Z c / inject_Z d)%Q -> a * d = c * b.
Proof.
  intros Hb Hd H.
  assert (Hb' : ~ (inject_Z b == 0)%Q).
  { intros E. apply (inject_Z_injective b 0) in E. lia. }
  assert (Hd' : ~ (inject_Z d == 0)%Q).
  { intros E. apply (inject_Z_injective d 0) in E. lia. }
  apply inject_Z_injective. rewrite !inject_Z_mult.
  transitivity (inject_Z a / inject_Z b * (inject_Z b * inject_Z d))%Q;
    [field; exact Hb'|].
  rewrite H. field. exact Hd'.
Qed.

Lemma Qabs_frac_le a p :
  0 < p -> 200 * Z.abs a <= p ->
  (Qabs (inject_Z a / inject_Z p) <= 1 # 200)%Q.
Proof.
  intros Hp H. apply Qabs_Qle_condition.
  destruct p as [|p|p]; try lia.
  unfold Qle, Qdiv, Qmult, Qinv, Qopp, inject_Z; simpl.
  split; lia.
Qed.

(** A decimal as a fraction over a power of ten. *)
Lemma value_frac d s :
  0 <= s -> 0 <= expo d + s ->
  (value d == inject_Z (coeff d * 10 ^ (expo d + s)) / inject_Z (10 ^ s))%Q.
Proof.
  intros Hs H. rewrite (value_scaled d s H), (Qpow10_Z s Hs). reflexivity.
Qed.

(** *** Rescaling *)

Lemma rescale_expo places d : expo (DecimalOps.rescale places d) = - places.
Proof. reflexivity. Qed.

Lemma rescale_coeff places d :
  coeff (DecimalOps.rescale places d)
  = if - places <=? expo d then coeff d * 10 ^ (expo d + places)
    else round_half_even (coeff d) (- places - expo d).
Proof.
  unfold DecimalOps.rescale. cbv zeta. simpl coeff.
  destruct (Z.eqb_spec (coeff d) 0) as [E|]; [|reflexivity].
  rewrite E. destruct (_ <=? _); [reflexivity|].
  unfold round_half_even. reflexivity.
Qed.

(** An amount written with no more places than the column has is given
    back with its value. *)
Lemma rescale_pad places d :
  0 <= places -> - places <= expo d ->
  (value (DecimalOps.rescale places d) == value d)%Q.
Proof.
  intros Hp He.
  rewrite (value_frac d places Hp ltac:(lia)).
  rewrite (value_frac (DecimalOps.rescale places d) places Hp)
    by (rewrite rescale_expo; lia).
  rewrite rescale_expo, rescale_coeff.
  destruct (Z.leb_spec (- places) (expo d)) as [_|]; [|lia].
  replace (- places + places) with 0 by lia.
  rewrite Z.pow_0_r, Z.mul_1_r. reflexivity.
Qed.

(** Rounded to the cent, an amount moves by at most half a cent. *)
Lemma rescale_near d :
  (Qabs (value (DecimalOps.rescale 2 d) - value d) <= 1 # 200)%Q.
Proof.
  destruct (Z.le_gt_cases (- 2) (expo d)) as [Hge|Hlt].
  - assert (E : (value (DecimalOps.rescale 2 d) - value d == 0)%Q)
      by (rewrite (rescale_pad 2 d) by lia; ring).
    rewrite E. discriminate.
  - set (k := - 2 - expo d). set (s := - expo d).
    assert (Hk : 0 < k) by (subst k; lia).
    rewrite (value_frac d s) by (subst s; lia).
    rewrite (value_frac (DecimalOps.rescale 2 d) s)
      by (rewrite ?rescale_expo; subst s; lia).
    rewrite rescale_expo, rescale_coeff. change (- (2)) with (-2).
    destruct (Z.leb_spec (- 2) (expo d)) as [|_]; [lia|].
    fold k. replace (expo d + s) with 0 by (subst s; lia).
    replace (- 2 + s) with k by (subst s k; lia).
    rewrite Z.pow_0_r, Z.mul_1_r.
    assert (HP : 0 < 10 ^ s) by (apply Z.pow_pos_nonneg; subst s; lia).
    assert (HPq : ~ (inject_Z (10 ^ s) == 0)%Q).
    { intros E. apply (inject_Z_injective (10 ^ s) 0) in E.
      rewrite E in HP. lia. }
    assert (E : (inject_Z (round_half_even (coeff d) k * 10 ^ k)
                 / inject_Z (10 ^ s)
                 - inject_Z (coeff d) / inject_Z (10 ^ s)
                 == inject_Z (round_half_even (coeff d) k * 10 ^ k - coeff d)
                    / inject_Z (10 ^ s))%Q).
    { rewrite <- Z.add_opp_r, inject_Z_plus, inject_Z_opp.
      field. exact HPq. }
    rewrite E. apply Qabs_frac_le; [exact HP|].
    replace s with (k + 2) by (subst s k; lia).
    rewrite Z.pow_add_r by lia. change (10 ^ 2) with 100.
    pose proof (round_half_even_near (coeff d) k Hk). lia.
Qed.

Lemma rescale_rounds d : rounded_to_cent d (DecimalOps.rescale 2 d).
Proof. split; [reflexivity | apply rescale_near]. Qed.

(** A whole number of cents is given back as it is. *)
Lemma rescale_whole d :
  whole_cents d -> (value (DecimalOps.rescale 2 d) == value d)%Q.
Proof.
  intros [n Hn].
  destruct (Z.le_gt_cases (- 2) (expo d)) as [Hge|Hlt];
    [apply rescale_pad; lia|].
  set (k := - 2 - expo d). set (s := - expo d).
  assert (Hk : 0 < k) by (subst k; lia).
  assert (HPk : 0 < 10 ^ k) by (apply Z.pow_pos_nonneg; lia).
  assert (Hs : 10 ^ s = 10 ^ k * 100).
  { replace s with (k + 2) by (subst s k; lia).
    rewrite Z.pow_add_r by lia. reflexivity. }
  assert (Hc : coeff d = n * 10 ^ k).
  { rewrite (value_frac d s) in Hn by (subst s; lia).
    replace (expo d + s) with 0 in Hn by (subst s; lia).
    rewrite Z.pow_0_r, Z.mul_1_r in Hn.
    change (100 # 1)%Q with (inject_Z 100) in Hn.
    apply Qdiv_inject_eq in Hn; [|lia|lia]. rewrite Hs in Hn. nia. }
  rewrite Hn.
  unfold value. rewrite rescale_expo, rescale_coeff. change (- (2)) with (-2).
  destruct (Z.leb_spec (- 2) (expo d)) as [|_]; [lia|].
  fold k. rewrite Hc, round_half_even_exact by exact Hk.
  change ((10 # 1) ^ (- 2))%Q with (/ (100 # 1))%Q. reflexivity.
Qed.

Lemma quantize_ok digits places d q :
  DecimalOps.quantize digits places d = Ok q -> q = DecimalOps.rescale places d.
Proof.
  unfold DecimalOps.quantize. cbv zeta.
  destruct (_ <=? _); [|discriminate]. intros H. injection H as <-. reflexivity.
Qed.

(** *** Whole cents *)

Lemma bounded_whole_cents B d : bounded 2 B d -> whole_cents d.
Proof.
  intros [He _]. exists (coeff d * 10 ^ (expo d + 2)).
  rewrite (value_frac d 2) by lia. reflexivity.
Qed.

Lemma whole_cents_double a c :
  (value c == (2 # 1) * value a)%Q -> whole_cents a -> whole_cents c.
Proof.
  intros H [n Hn]. exists (2 * n).
  rewrite H, Hn, inject_Z_mult. change (inject_Z 2) with (2 # 1)%Q. field.
Qed.

End ColumnFacts.

(** ** Transactions and sale items: the derived amounts *)

Section DerivedAmounts.

Import Decimal.

Variable create : AuditLog.t -> list AuditLog.t -> result (list AuditLog.t).

Lemma percent_of_exact s1 B1 s2 B2 a p :
  bounded s1 B1 a -> bounded s2 B2 p -> B1 * B2 <= 10 ^ prec ->
  bounded (s1 + s2 + 2) (B1 * B2) (div_int (mul a p) 100) /\
  (value (div_int (mul a p) 100) == value a * value p / (100 # 1))%Q.
Proof.
  intros Ha Hp HB.
  destruct (mul_exact _ _ _ _ _ _ Ha Hp HB) as [Hm Hv].
  destruct (div100_exact _ _ _ Hm HB) as [Hd Hdv].
  split; [exact Hd|]. rewrite Hdv, Hv. reflexivity.
Qed.

Lemma transaction_auto_calculate_exact (t : Transaction.t) :
  in_field 12 2 (Transaction.amount t) ->
  in_field 5 2 (Transaction.tax_percentage t) ->
  in_field 5 2 (Transaction.gst_percentage t) ->
  in_field 12 2 (Transaction.tax_amount t) ->
  in_field 12 2 (Transaction.gst_amount t) ->
  let t' := Transaction_auto_calculate t in
  (value (Transaction.total_amount t')
   == value (Transaction.amount t') + value (Transaction.tax_amount t')
      + value (Transaction.gst_amount t'))%Q /\
  (Transaction.is_taxable t = true ->
   (value (Transaction.tax_amount t')
    == value (Transaction.amount t) * value (Transaction.tax_percentage t)
       / (100 # 1))%Q) /\
  (Transaction.gst_applicable t = true ->
   (value (Transaction.gst_amount t')
    == value (Transaction.amount t) * value (Transaction.gst_percentage t)
       / (100 # 1))%Q).
Proof.
  unfold in_field. intros Ha Htp Hgp Hta Hga. simpl.
  pose proof (percent_of_exact _ _ _ _ _ _ Ha Htp ltac:(unfold prec; lia))
    as [Htb Htv].
  pose proof (percent_of_exact _ _ _ _ _ _ Ha Hgp ltac:(unfold prec; lia))
    as [Hgb Hgv].
  set (tax := if Transaction.is_taxable t
              then div_int (mul (Transaction.amount t)
                                (Transaction.tax_percentage t)) 100
              else Transaction.tax_amount t).
  set (gst := if Transaction.gst_applicable t
              then div_int (mul (Transaction.amount t)
                                (Transaction.gst_percentage t)) 100
              else Transaction.gst_amount t).
  assert (Htax : bounded 6 (10 ^ 17) tax).
  { subst tax. destruct (Transaction.is_taxable t); [exact Htb|].
    apply (bounded_weaken 6 (10 ^ 12 * 10 ^ 4)); [|lia].
    apply (bounded_rescale 2 _ 4); [exact Hta | lia]. }
  assert (Hgst : bounded 6 (10 ^ 17) gst).
  { subst gst. destruct (Transaction.gst_applicable t); [exact Hgb|].
    apply (bounded_weaken 6 (10 ^ 12 * 10 ^ 4)); [|lia].
    apply (bounded_rescale 2 _ 4); [exact Hga | lia]. }
  assert (Ha6 : bounded 6 (10 ^ 16) (Transaction.amount t)).
  { apply (bounded_weaken 6 (10 ^ 12 * 10 ^ 4)); [|lia].
    apply (bounded_rescale 2 _ 4); [exact Ha | lia]. }
  destruct (add_exact_ok _ _ _ _ _ Ha6 Htax ltac:(unfold prec; lia))
    as [Hs1 Hv1].
  destruct (add_exact_ok _ _ _ _ _ Hs1 Hgst ltac:(unfold prec; lia))
    as [Hs2 Hv2].
  split; [rewrite Hv2, Hv1; reflexivity|].
  split; intros Hflag; [subst tax | subst gst]; rewrite Hflag; assumption.
Qed.

(** With a flag off, the amount the instance carries is kept as it is. *)
Lemma transaction_auto_calculate_flag_off (t : Transaction.t) :
  (Transaction.is_taxable t = false ->
   Transaction.tax_amount (Transaction_auto_calculate t)
   = Transaction.tax_amount t) /\
  (Transaction.gst_applicable t = false ->
   Transaction.gst_amount (Transaction_auto_calculate t)
   = Transaction.gst_amount t).
Proof. split; intros H; simpl; rewrite H; reflexivity. Qed.

Lemma Transaction_save_stores (t : Transaction.t) (st : Store) :
  exists st',
    Transaction_save create t st = Ok (Transaction_auto_calculate t, st') /\
    get_by_pk Transaction.id (Transaction.id t) (transactions st')
    = Some (Transaction_auto_calculate t).
Proof.
  unfold Transaction_save, log_transaction_changes. cbv zeta.
  set (t' := Transaction_auto_calculate t).
  set (st1 := set_transactions _ st).
  assert (Hrow : get_by_pk Transaction.id (Transaction.id t) (transactions st1)
                 = Some t').
  { subst st1. simpl. apply (get_by_pk_upsert Transaction.id t'). }
  destruct (negb _).
  - match goal with
    | |- context [log_action create ?u ?a ?m ?o ?s ?ov ?nv ?ip ?d st1] =>
        destruct (log_action_contained create u a m o s ov nv ip d st1)
          as (st' & row & -> & Hsame & _ & _)
    end.
    exists st'. split; [reflexivity|].
    destruct Hsame as (_ & _ & -> & _). exact Hrow.
  - exists st1. split; [reflexivity | exact Hrow].
Qed.

(** What a Transaction read back from its row holds. *)
Lemma Transaction_from_db_fields (r row : Transaction.t) :
  Transaction_from_db r = Ok row ->
  Transaction.amount row = DecimalOps.rescale 2 (Transaction.amount r) /\
  Transaction.tax_percentage row
  = DecimalOps.rescale 2 (Transaction.tax_percentage r) /\
  Transaction.tax_amount row = DecimalOps.rescale 2 (Transaction.tax_amount r) /\
  Transaction.gst_percentage row
  = DecimalOps.rescale 2 (Transaction.gst_percentage r) /\
  Transaction.gst_amount row = DecimalOps.rescale 2 (Transaction.gst_amount r) /\
  Transaction.total_amount row
  = DecimalOps.rescale 2 (Transaction.total_amount r).
Proof.
  unfold Transaction_from_db, DecimalField_from_db.
  repeat match goal with
         | |- context [DecimalOps.quantize ?m ?p ?v] =>
             let q := fresh "q" in
             let E := fresh "E" in
             destruct (DecimalOps.quantize m p v) as [q|] eqn:E;
             [apply quantize_ok in E; subst q; simpl bind
             |simpl bind; discriminate]
         end.
  intros H. injection H as <-. repeat split.
Qed.

(** C2: a save of a Transaction leaves, on the instance,
    total_amount = amount + tax_amount + gst_amount, with
    tax_amount = amount * tax_percentage / 100 when is_taxable is true and
    gst_amount = amount * gst_percentage / 100 when gst_applicable is true,
    all as exact decimal values.  The row, when it is read back, gives
    each of the three computed amounts rounded to the cent (two decimal
    places, half to even), so it satisfies the same equations when the
    computed tax and GST are whole numbers of cents. *)
Theorem transaction_save_totals (t : Transaction.t) (st : Store)
    (row : Transaction.t) :
  in_field 12 2 (Transaction.amount t) ->
  in_field 5 2 (Transaction.tax_percentage t) ->
  in_field 5 2 (Transaction.gst_percentage t) ->
  in_field 12 2 (Transaction.tax_amount t) ->
  in_field 12 2 (Transaction.gst_amount t) ->
  Transaction_from_db (Transaction_auto_calculate t) = Ok row ->
  exists t' st',
    Transaction_save create t st = Ok (t', st') /\
    (value (Transaction.total_amount t')
     == value (Transaction.amount t') + value (Transaction.tax_amount t')
        + value (Transaction.gst_amount t'))%Q /\
    (Transaction.is_taxable t = true ->
     (value (Transaction.tax_amount t')
      == value (Transaction.amount t) * value (Transaction.tax_percentage t)
         / (100 # 1))%Q) /\
    (Transaction.gst_applicable t = true ->
     (value (Transaction.gst_amount t')
      == value (Transaction.amount t) * value (Transaction.gst_percentage t)
         / (100 # 1))%Q) /\
    Transaction_fetch (Transaction.id t) st' = Ok (Some row) /\
    (value (Transaction.amount row) == value (Transaction.amount t))%Q /\
    rounded_to_cent (Transaction.tax_amount t') (Transaction.tax_amount row) /\
    rounded_to_cent (Transaction.gst_amount t') (Transaction.gst_amount row) /\
    rounded_to_cent (Transaction.total_amount t')
                    (Transaction.total_amount row) /\
    (whole_cents (Transaction.tax_amount t') ->
     whole_cents (Transaction.gst_amount t') ->
     (value (Transaction.total_amount row)
      == value (Transaction.amount row) + value (Transaction.tax_amount row)
         + value (Transaction.gst_amount row))%Q /\
     (value (Transaction.tax_amount row)
      == value (Transaction.tax_amount t'))%Q /\
     (value (Transaction.gst_amount row)
      == value (Transaction.gst_amount t'))%Q).
Proof.
  intros Ha Htp Hgp Hta Hga Hdb.
  destruct (Transaction_save_stores t st) as (st' & Hsave & Hrow).
  destruct (transaction_auto_calculate_exact t Ha Htp Hgp Hta Hga)
    as (Htot & Htax & Hgst).
  destruct (Transaction_from_db_fields _ _ Hdb)
    as (Ea & _ & Et & _ & Eg & Es).
  set (t' := Transaction_auto_calculate t) in *.
  assert (Hamount : (value (Transaction.amount row)
                     == value (Transaction.amount t))%Q).
  { rewrite Ea. apply rescale_pad; [lia | apply Ha]. }
  exists t', st'.
  split; [exact Hsave|]. split; [exact Htot|].
  split; [exact Htax|]. split; [exact Hgst|].
  split.
  { unfold Transaction_fetch. rewrite Hrow. fold t'. rewrite Hdb. reflexivity. }
  split; [exact Hamount|].
  split; [rewrite Et; apply rescale_rounds|].
  split; [rewrite Eg; apply rescale_rounds|].
  split; [rewrite Es; apply rescale_rounds|].
  intros Wt Wg.
  assert (Ws : whole_cents (Transaction.total_amount t')).
  { destruct (bounded_whole_cents _ _ Ha) as [n Hn].
    destruct Wt as [a Hta']. destruct Wg as [b Hga'].
    exists (n + a + b). rewrite Htot. simpl Transaction.amount.
    rewrite Hn, Hta', Hga', !inject_Z_plus. field. }
  rewrite Es, Et, Eg, (rescale_whole _ Ws).
  split.
  - rewrite Htot, Hamount.
    rewrite (rescale_whole (Transaction.tax_amount t')) by exact Wt.
    rewrite (rescale_whole (Transaction.gst_amount t')) by exact Wg.
    reflexivity.
  - split; apply rescale_whole; assumption.
Qed.

Lemma saleitem_auto_calculate_exact (i : SaleItem.t) :
  in_field 10 2 (SaleItem.unit_price i) ->
  in_field 5 2 (SaleItem.tax_percentage i) ->
  in_field 5 2 (SaleItem.gst_percentage i) ->
  - 2 ^ 31 <= SaleItem.quantity i < 2 ^ 31 ->
  let i' := SaleItem_auto_calculate i in
  (value (SaleItem.line_total i')
   == value (SaleItem.unit_price i) * inject_Z (SaleItem.quantity i)
      + value (SaleItem.tax_amount i') + value (SaleItem.gst_amount i'))%Q /\
  (value (SaleItem.tax_amount i')
   == value (SaleItem.unit_price i) * inject_Z (SaleItem.quantity i)
      * value (SaleItem.tax_percentage i) / (100 # 1))%Q /\
  (value (SaleItem.gst_amount i')
   == value (SaleItem.unit_price i) * inject_Z (SaleItem.quantity i)
      * value (SaleItem.gst_percentage i) / (100 # 1))%Q.
Proof.
  unfold in_field. intros Hu Htp Hgp Hq. simpl.
  assert (Hqb : bounded 0 (2 ^ 31 + 1) (of_int (SaleItem.quantity i))).
  { apply bounded_of_int. lia. }
  destruct (mul_exact _ _ _ _ _ _ Hu Hqb ltac:(unfold prec; lia))
    as [Hgb Hgv].
  rewrite value_of_int in Hgv.
  set (gross := mul (SaleItem.unit_price i) (of_int (SaleItem.quantity i))) in *.
  destruct (percent_of_exact _ _ _ _ _ _ Hgb Htp ltac:(unfold prec; lia))
    as [Htb Htv].
  destruct (percent_of_exact _ _ _ _ _ _ Hgb Hgp ltac:(unfold prec; lia))
    as [Hsb Hsv].
  assert (Hg6 : bounded 6 (10 ^ 10 * (2 ^ 31 + 1) * 10 ^ 4) gross).
  { apply (bounded_rescale (2 + 0) _ 4); [exact Hgb | lia]. }
  destruct (add_exact_ok _ _ _ _ _ Hg6 Htb ltac:(unfold prec; lia))
    as [Hs1 Hv1].
  destruct (add_exact_ok _ _ _ _ _ Hs1 Hsb ltac:(unfold prec; lia))
    as [Hs2 Hv2].
  split; [rewrite Hv2, Hv1, Hgv; reflexivity|].
  split; [rewrite Htv, Hgv | rewrite Hsv, Hgv]; reflexivity.
Qed.

Lemma SaleItem_save_stores (i : SaleItem.t) (st : Store) :
  exists st',
    SaleItem_save create i st = Ok (SaleItem_auto_calculate i, st') /\
    get_by_pk SaleItem.id (SaleItem.id i) (sale_items st')
    = Some (SaleItem_auto_calculate i) /\
    sales st' = sales st /\ revenues st' = revenues st.
Proof.
  unfold SaleItem_save, log_saleitem_changes. cbv zeta.
  set (i' := SaleItem_auto_calculate i).
  set (st1 := set_sale_items _ st).
  assert (Hrow : get_by_pk SaleItem.id (SaleItem.id i) (sale_items st1)
                 = Some i').
  { subst st1. simpl. apply (get_by_pk_upsert SaleItem.id i'). }
  destruct (negb _).
  - match goal with
    | |- context [log_action create ?u ?a ?m ?o ?s ?ov ?nv ?ip ?d st1] =>
        destruct (log_action_contained create u a m o s ov nv ip d st1)
          as (st' & row & -> & Hsame & _ & _)
    end.
    exists st'. split; [reflexivity|].
    destruct Hsame as (_ & _ & _ & _ & Hsales & -> & Hrev).
    split; [exact Hrow|]. rewrite Hsales, Hrev. split; reflexivity.
  - exists st1. split; [reflexivity|]. split; [exact Hrow|].
    split; reflexivity.
Qed.

(** What a SaleItem read back from its row holds. *)
Lemma SaleItem_from_db_fields (r row : SaleItem.t) :
  SaleItem_from_db r = Ok row ->
  SaleItem.quantity row = SaleItem.quantity r /\
  SaleItem.unit_price row = DecimalOps.rescale 2 (SaleItem.unit_price r) /\
  SaleItem.tax_amount row = DecimalOps.rescale 2 (SaleItem.tax_amount r) /\
  SaleItem.gst_amount row = DecimalOps.rescale 2 (SaleItem.gst_amount r) /\
  SaleItem.line_total row = DecimalOps.rescale 2 (SaleItem.line_total r).
Proof.
  unfold SaleItem_from_db, DecimalField_from_db.
  repeat match goal with
         | |- context [DecimalOps.quantize ?m ?p ?v] =>
             let q := fresh "q" in
             let E := fresh "E" in
             destruct (DecimalOps.quantize m p v) as [q|] eqn:E;
             [apply quantize_ok in E; subst q; simpl bind
             |simpl bind; discriminate]
         end.
  intros H. injection H as <-. repeat split.
Qed.

(** C9: a save of a SaleItem leaves, on the instance,
    line_total = unit_price * quantity + tax_amount + gst_amount with
    tax_amount = unit_price * quantity * tax_percentage / 100 and gst_amount
    likewise, as exact decimal values, so both are linear in the quantity:
    an item with the same unit price and percentages and twice the
    quantity gets twice the tax, twice the GST and twice the pre-tax
    amount.  The row, when it is read back, gives each computed amount
    rounded to the cent (two decimal places, half to even), so it
    satisfies the same equations, and doubles with the quantity, when the
    computed tax and GST are whole numbers of cents. *)
Theorem saleitem_save_line_total (i : SaleItem.t) (st : Store)
    (row : SaleItem.t) :
  in_field 10 2 (SaleItem.unit_price i) ->
  in_field 5 2 (SaleItem.tax_percentage i) ->
  in_field 5 2 (SaleItem.gst_percentage i) ->
  - 2 ^ 31 <= SaleItem.quantity i < 2 ^ 31 ->
  SaleItem_from_db (SaleItem_auto_calculate i) = Ok row ->
  exists i' st',
    SaleItem_save create i st = Ok (i', st') /\
    (value (SaleItem.line_total i')
     == value (SaleItem.unit_price i) * inject_Z (SaleItem.quantity i)
        + value (SaleItem.tax_amount i') + value (SaleItem.gst_amount i'))%Q /\
    (value (SaleItem.tax_amount i')
     == value (SaleItem.unit_price i) * inject_Z (SaleItem.quantity i)
        * value (SaleItem.tax_percentage i) / (100 # 1))%Q /\
    (value (SaleItem.gst_amount i')
     == value (SaleItem.unit_price i) * inject_Z (SaleItem.quantity i)
        * value (SaleItem.gst_percentage i) / (100 # 1))%Q /\
    SaleItem_fetch (SaleItem.id i) st' = Ok (Some row) /\
    SaleItem.quantity row = SaleItem.quantity i /\
    (value (SaleItem.unit_price row) == value (SaleItem.unit_price i))%Q /\
    rounded_to_cent (SaleItem.tax_amount i') (SaleItem.tax_amount row) /\
    rounded_to_cent (SaleItem.gst_amount i') (SaleItem.gst_amount row) /\
    rounded_to_cent (SaleItem.line_total i') (SaleItem.line_total row) /\
    (whole_cents (SaleItem.tax_amount i') ->
     whole_cents (SaleItem.gst_amount i') ->
     (value (SaleItem.line_total row)
      == value (SaleItem.unit_price row) * inject_Z (SaleItem.quantity row)
         + value (SaleItem.tax_amount row)
         + value (SaleItem.gst_amount row))%Q /\
     (value (SaleItem.tax_amount row) == value (SaleItem.tax_amount i'))%Q /\
     (value (SaleItem.gst_amount row) == value (SaleItem.gst_amount i'))%Q) /\
    forall (j : SaleItem.t) (st2 : Store) (rowj : SaleItem.t),
      SaleItem.unit_price j = SaleItem.unit_price i ->
      SaleItem.tax_percentage j = SaleItem.tax_percentage i ->
      SaleItem.gst_percentage j = SaleItem.gst_percentage i ->
      SaleItem.quantity j = 2 * SaleItem.quantity i ->
      - 2 ^ 31 <= SaleItem.quantity j < 2 ^ 31 ->
      SaleItem_from_db (SaleItem_auto_calculate j) = Ok rowj ->
      exists j' st2',
        SaleItem_save create j st2 = Ok (j', st2') /\
        (value (SaleItem.tax_amount j')
         == (2 # 1) * value (SaleItem.tax_amount i'))%Q /\
        (value (SaleItem.gst_amount j')
         == (2 # 1) * value (SaleItem.gst_amount i'))%Q /\
        (value (SaleItem.unit_price j) * inject_Z (SaleItem.quantity j)
         == (2 # 1) * (value (SaleItem.unit_price i)
                       * inject_Z (SaleItem.quantity i)))%Q /\
        SaleItem_fetch (SaleItem.id j) st2' = Ok (Some rowj) /\
        (whole_cents (SaleItem.tax_amount i') ->
         whole_cents (SaleItem.gst_amount i') ->
         (value (SaleItem.tax_amount rowj)
          == (2 # 1) * value (SaleItem.tax_amount row))%Q /\
         (value (SaleItem.gst_amount rowj)
          == (2 # 1) * value (SaleItem.gst_amount row))%Q).
Proof.
  intros Hu Htp Hgp Hq Hdb.
  destruct (SaleItem_save_stores i st) as (st' & Hsave & Hrow & _).
  destruct (saleitem_auto_calculate_exact i Hu Htp Hgp Hq)
    as (Hline & Htax & Hgst).
  destruct (SaleItem_from_db_fields _ _ Hdb) as (Eq & Eu & Et & Eg & El).
  set (i' := SaleItem_auto_calculate i) in *.
  assert (Hprice : (value (SaleItem.unit_price row)
                    == value (SaleItem.unit_price i))%Q).
  { rewrite Eu. apply rescale_pad; [lia | apply Hu]. }
  exists i', st'.
  split; [exact Hsave|]. split; [exact Hline|].
  split; [exact Htax|]. split; [exact Hgst|].
  split.
  { unfold SaleItem_fetch. rewrite Hrow. fold i'. rewrite Hdb. reflexivity. }
  split; [exact Eq|]. split; [exact Hprice|].
  split; [rewrite Et; apply rescale_rounds|].
  split; [rewrite Eg; apply rescale_rounds|].
  split; [rewrite El; apply rescale_rounds|].
  split.
  { intros Wt Wg.
    assert (Wl : whole_cents (SaleItem.line_total i')).
    { destruct (bounded_whole_cents _ _ Hu) as [n Hn].
      destruct Wt as [a Hta']. destruct Wg as [b Hga'].
      exists (n * SaleItem.quantity i + a + b).
      rewrite Hline, Hn, Hta', Hga', !inject_Z_plus, inject_Z_mult. field. }
    rewrite El, Et, Eg, Eq, (rescale_whole _ Wl).
    split.
    - rewrite Hline, Hprice.
      rewrite (rescale_whole (SaleItem.tax_amount i')) by exact Wt.
      rewrite (rescale_whole (SaleItem.gst_amount i')) by exact Wg.
      reflexivity.
    - split; apply rescale_whole; assumption. }
  intros j st2 rowj Eqj_u Eqj_t Eqj_g Eqj_q Hqj Hdbj.
  destruct (SaleItem_save_stores j st2) as (st2' & Hsavej & Hrowj & _).
  destruct (saleitem_auto_calculate_exact j) as (_ & Htaxj & Hgstj);
    try (rewrite ?Eqj_u, ?Eqj_t, ?Eqj_g; assumption).
  destruct (SaleItem_from_db_fields _ _ Hdbj) as (_ & _ & Etj & Egj & _).
  set (j' := SaleItem_auto_calculate j) in *.
  assert (Htax2 : (value (SaleItem.tax_amount j')
                   == (2 # 1) * value (SaleItem.tax_amount i'))%Q).
  { rewrite Htaxj, Htax, Eqj_u, Eqj_t, Eqj_q, inject_Z_mult.
    change (inject_Z 2) with (2 # 1)%Q. field. }
  assert (Hgst2 : (value (SaleItem.gst_amount j')
                   == (2 # 1) * value (SaleItem.gst_amount i'))%Q).
  { rewrite Hgstj, Hgst, Eqj_u, Eqj_g, Eqj_q, inject_Z_mult.
    change (inject_Z 2) with (2 # 1)%Q. field. }
  exists j', st2'.
  split; [exact Hsavej|]. split; [exact Htax2|]. split; [exact Hgst2|].
  split.
  { rewrite Eqj_u, Eqj_q, inject_Z_mult.
    change (inject_Z 2) with (2 # 1)%Q. ring. }
  split.
  { unfold SaleItem_fetch. rewrite Hrowj. fold j'. rewrite Hdbj. reflexivity. }
  intros Wt Wg. rewrite Etj, Egj, Et, Eg.
  rewrite (rescale_whole (SaleItem.tax_amount i')) by exact Wt.
  rewrite (rescale_whole (SaleItem.gst_amount i')) by exact Wg.
  rewrite (rescale_whole (SaleItem.tax_amount j'))
    by (apply (whole_cents_double _ _ Htax2 Wt)).
  rewrite (rescale_whole (SaleItem.gst_amount j'))
    by (apply (whole_cents_double _ _ Hgst2 Wg)).
  split; assumption.
Qed.

End DerivedAmounts.

(** The example of the specification: amount=1000, tax_percentage=5,
    taxable, no GST, on a fresh record; the row reads back as 1000.00,
    50.00, 0.00 and 1050.00. *)
Lemma transaction_save_totals_witness :
  Decimal.in_field 12 2 (Transaction.amount fresh_transaction) /\
  Decimal.in_field 5 2 (Transaction.tax_percentage fresh_transaction) /\
  Decimal.in_field 5 2 (Transaction.gst_percentage fresh_transaction) /\
  Decimal.in_field 12 2 (Transaction.tax_amount fresh_transaction) /\
  Decimal.in_field 12 2 (Transaction.gst_amount fresh_transaction) /\
  Transaction_from_db (Transaction_auto_calculate fresh_transaction)
  = Ok taxed_transaction /\
  exists t' st',
    Transaction_save reliable_create fresh_transaction empty_store
    = Ok (t', st') /\
    (Decimal.value (Transaction.tax_amount t') == 50 # 1)%Q /\
    (Decimal.value (Transaction.gst_amount t') == 0)%Q /\
    (Decimal.value (Transaction.total_amount t') == 1050 # 1)%Q /\
    Transaction_fetch "t-1" st' = Ok (Some taxed_transaction) /\
    (Decimal.value (Transaction.total_amount taxed_transaction)
     == Decimal.value (Transaction.amount taxed_transaction)
        + Decimal.value (Transaction.tax_amount taxed_transaction)
        + Decimal.value (Transaction.gst_amount taxed_transaction))%Q.
Proof.
  assert (H1 : Decimal.in_field 12 2 (Transaction.amount fresh_transaction))
    by (split; simpl; lia).
  assert (H2 : Decimal.in_field 5 2
                 (Transaction.tax_percentage fresh_transaction))
    by (split; simpl; lia).
  assert (H3 : Decimal.in_field 5 2
                 (Transaction.gst_percentage fresh_transaction))
    by (split; simpl; lia).
  assert (H4 : Decimal.in_field 12 2 (Transaction.tax_amount fresh_transaction))
    by (split; simpl; lia).
  assert (H5 : Decimal.in_field 12 2 (Transaction.gst_amount fresh_transaction))
    by (split; simpl; lia).
  assert (H6 : Transaction_from_db (Transaction_auto_calculate fresh_transaction)
               = Ok taxed_transaction) by reflexivity.
  destruct (transaction_save_totals reliable_create fresh_transaction
              empty_store taxed_transaction H1 H2 H3 H4 H5 H6)
    as (t' & st' & Hsave & Htot & Htax & _ & Hfetch & _ & _ & _ & _ & Hrow).
  do 6 (split; [assumption|]).
  exists t', st'. split; [exact Hsave|].
  specialize (Htax eq_refl).
  assert (Hgst : Transaction.gst_amount t' = Decimal.of_int 0).
  { vm_compute in Hsave. injection Hsave as <- _. reflexivity. }
  assert (Hamt : Transaction.amount t' = Decimal.of_int 1000).
  { vm_compute in Hsave. injection Hsave as <- _. reflexivity. }
  split; [rewrite Htax; reflexivity|].
  split; [rewrite Hgst; reflexivity|].
  split; [rewrite Htot, Htax, Hgst, Hamt; reflexivity|].
  split; [exact Hfetch|].
  apply Hrow.
  - exists 5000. rewrite Htax. reflexivity.
  - exists 0. rewrite Hgst. reflexivity.
Defined.

(** Fifteen cents at 3.33 % and 3.33 %: the computed tax and GST are
    0.004995 each and the computed total 0.159990; the row reads back as
    0.15, 0.00, 0.00 and 0.16, a total that is not the sum of its parts,
    and a tax that is not 3.33 % of the amount. *)
Lemma transaction_row_total_is_off_by_a_cent :
  exists t' st' row,
    Transaction_save reliable_create small_transaction empty_store
    = Ok (t', st') /\
    Transaction_fetch "t-2" st' = Ok (Some row) /\
    ~ (Decimal.value (Transaction.total_amount row)
       == Decimal.value (Transaction.amount row)
          + Decimal.value (Transaction.tax_amount row)
          + Decimal.value (Transaction.gst_amount row))%Q /\
    ~ (Decimal.value (Transaction.tax_amount row)
       == Decimal.value (Transaction.amount row)
          * Decimal.value (Transaction.tax_percentage row) / (100 # 1))%Q.
Proof.
  eexists _, _, _. split; [vm_compute; reflexivity|].
  split; [vm_compute; reflexivity|].
  split; intros H; vm_compute in H; discriminate.
Qed.

(** C1: a Transaction saved with is_taxable false keeps the tax_amount it
    had.  The row was saved taxable (tax 50.00 on 1000.00) and is saved
    again with the flag off: the stored tax_amount is still 50.00, not
    zero, and the total still includes it. *)
Theorem untaxed_transaction_keeps_tax :
  Transaction.is_taxable untaxed_transaction = false /\
  exists t' st',
    Transaction_save reliable_create untaxed_transaction
                     store_with_taxed_transaction = Ok (t', st') /\
    get_by_pk Transaction.id "t-1" (transactions st') = Some t' /\
    Transaction.tax_amount t' = Decimal.mk 5000 (-2) /\
    ~ (Decimal.value (Transaction.tax_amount t') == 0)%Q /\
    (Decimal.value (Transaction.total_amount t') == 1050 # 1)%Q.
Proof.
  split; [reflexivity|].
  eexists _, _. split; [vm_compute; reflexivity|].
  split; [reflexivity|]. split; [reflexivity|].
  split; [intros H; vm_compute in H; discriminate | reflexivity].
Qed.

(** Forty widgets at 19.99, then eighty: the tax and the GST are whole
    cents (39.98 and 99.95), and the row reads back with
    939.53 = 799.60 + 39.98 + 99.95 and doubles with the quantity. *)
Lemma saleitem_save_line_total_witness :
  Decimal.in_field 10 2 (SaleItem.unit_price (widget_line 40)) /\
  Decimal.in_field 5 2 (SaleItem.tax_percentage (widget_line 40)) /\
  Decimal.in_field 5 2 (SaleItem.gst_percentage (widget_line 40)) /\
  - 2 ^ 31 <= SaleItem.quantity (widget_line 40) < 2 ^ 31 /\
  exists row rowj,
    SaleItem_from_db (SaleItem_auto_calculate (widget_line 40)) = Ok row /\
    SaleItem_from_db (SaleItem_auto_calculate (widget_line 80)) = Ok rowj /\
    exists i' st',
      SaleItem_save reliable_create (widget_line 40) empty_store
      = Ok (i', st') /\
      (Decimal.value (SaleItem.line_total i')
       == (79960 # 100) + Decimal.value (SaleItem.tax_amount i')
          + Decimal.value (SaleItem.gst_amount i'))%Q /\
      (Decimal.value (SaleItem.tax_amount i') == 3998 # 100)%Q /\
      SaleItem_fetch "si-1" st' = Ok (Some row) /\
      (Decimal.value (SaleItem.line_total row)
       == Decimal.value (SaleItem.unit_price row)
          * inject_Z (SaleItem.quantity row)
          + Decimal.value (SaleItem.tax_amount row)
          + Decimal.value (SaleItem.gst_amount row))%Q /\
      exists j' st2',
        SaleItem_save reliable_create (widget_line 80) st' = Ok (j', st2') /\
        (Decimal.value (SaleItem.tax_amount j')
         == (2 # 1) * Decimal.value (SaleItem.tax_amount i'))%Q /\
        SaleItem_fetch "si-1" st2' = Ok (Some rowj) /\
        (Decimal.value (SaleItem.gst_amount rowj)
         == (2 # 1) * Decimal.value (SaleItem.gst_amount row))%Q.
Proof.
  assert (H1 : Decimal.in_field 10 2 (SaleItem.unit_price (widget_line 40)))
    by (split; simpl; lia).
  assert (H2 : Decimal.in_field 5 2 (SaleItem.tax_percentage (widget_line 40)))
    by (split; simpl; lia).
  assert (H3 : Decimal.in_field 5 2 (SaleItem.gst_percentage (widget_line 40)))
    by (split; simpl; lia).
  assert (H4 : - 2 ^ 31 <= SaleItem.quantity (widget_line 40) < 2 ^ 31)
    by (simpl; lia).
  do 4 (split; [assumption|]).
  destruct (SaleItem_from_db (SaleItem_auto_calculate (widget_line 40)))
    as [row|] eqn:H5; [|vm_compute in H5; discriminate].
  destruct (SaleItem_from_db (SaleItem_auto_calculate (widget_line 80)))
    as [rowj|] eqn:H6; [|vm_compute in H6; discriminate].
  exists row, rowj. split; [reflexivity|]. split; [reflexivity|].
  destruct (saleitem_save_line_total reliable_create (widget_line 40)
              empty_store row H1 H2 H3 H4 H5)
    as (i' & st' & Hsave & Hline & Htax & Hgst & Hfetch & _ & _ & _ & _ & _
        & Hrow & Hdouble).
  assert (Wt : whole_cents (SaleItem.tax_amount i'))
    by (exists 3998; rewrite Htax; reflexivity).
  assert (Wg : whole_cents (SaleItem.gst_amount i'))
    by (exists 9995; rewrite Hgst; reflexivity).
  exists i', st'. split; [exact Hsave|].
  split; [rewrite Hline; reflexivity|].
  split; [rewrite Htax; reflexivity|].
  split; [exact Hfetch|].
  split; [apply (Hrow Wt Wg)|].
  destruct (Hdouble (widget_line 80) st' rowj eq_refl eq_refl eq_refl eq_refl
              ltac:(simpl; lia) H6)
    as (j' & st2' & Hsavej & Htaxj & _ & _ & Hfetchj & Hrows).
  exists j', st2'. split; [exact Hsavej|]. split; [exact Htaxj|].
  split; [exact Hfetchj | apply (Hrows Wt Wg)].
Defined.

(** Three widgets at 19.99, then six: the computed tax, GST and total of
    the three are 2.9985, 7.49625 and 70.46475; the row reads back as
    3.00, 7.50 and 70.46, which is not 59.97 + 3.00 + 7.50, and the GST
    of the six reads back as 14.99, which is not twice 7.50. *)
Lemma saleitem_row_total_is_off_by_a_cent :
  exists i' st' row j' st2' rowj,
    SaleItem_save reliable_create (widget_line 3) empty_store = Ok (i', st') /\
    SaleItem_fetch "si-1" st' = Ok (Some row) /\
    ~ (Decimal.value (SaleItem.line_total row)
       == Decimal.value (SaleItem.unit_price row)
          * inject_Z (SaleItem.quantity row)
          + Decimal.value (SaleItem.tax_amount row)
          + Decimal.value (SaleItem.gst_amount row))%Q /\
    SaleItem_save reliable_create (widget_line 6) st' = Ok (j', st2') /\
    SaleItem_fetch "si-1" st2' = Ok (Some rowj) /\
    ~ (Decimal.value (SaleItem.gst_amount rowj)
       == (2 # 1) * Decimal.value (SaleItem.gst_amount row))%Q.
Proof.
  eexists _, _, _, _, _, _. split; [vm_compute; reflexivity|].
  split; [vm_compute; reflexivity|].
  split; [intros H; vm_compute in H; discriminate|].
  split; [vm_compute; reflexivity|].
  split; [vm_compute; reflexivity|].
  intros H; vm_compute in H; discriminate.
Qed.

(** ** The aggregation period of a sale date *)

Section PeriodFacts.

Import PyDate.

Lemma days_in_month_pos y m : 1 <= m <= 12 -> 28 <= days_in_month y m <= 31.
Proof.
  intros Hm. unfold days_in_month.
  assert (Hcases : m = 1 \/ m = 2 \/ m = 3 \/ m = 4 \/ m = 5 \/ m = 6 \/
                   m = 7 \/ m = 8 \/ m = 9 \/ m = 10 \/ m = 11 \/ m = 12)
    by lia.
  destruct (is_leap y);
    repeat (destruct Hcases as [-> | Hcases]); try subst m; simpl; lia.
Qed.

Lemma days_before_next_month y m :
  1 <= m <= 11 ->
  days_before_month y (m + 1) = days_before_month y m + days_in_month y m.
Proof.
  intros Hm. unfold days_before_month, days_in_month.
  assert (Hcases : m = 1 \/ m = 2 \/ m = 3 \/ m = 4 \/ m = 5 \/ m = 6 \/
                   m = 7 \/ m = 8 \/ m = 9 \/ m = 10 \/ m = 11)
    by lia.
  destruct (is_leap y);
    repeat (destruct Hcases as [-> | Hcases]); try subst m; reflexivity.
Qed.

Lemma days_before_next_year y :
  1 <= y ->
  days_before_year (y + 1)
  = days_before_year y + 365 + (if is_leap y then 1 else 0).
Proof.
  intros Hy.
  destruct (year_decomp y Hy)
    as (a & b & c & e & Ha & Hb & Hc & He & Hyeq & Hdby & Hleap).
  rewrite Hdby, Hleap. unfold days_before_year.
  replace (y + 1 - 1) with y by lia.
  destruct (Z.eq_dec e 3) as [->|He3].
  - destruct (divmod_unique y 4 (100 * a + 25 * b + c + 1) 0) as [-> _];
      [lia|lia|].
    destruct (Z.eq_dec c 24) as [->|Hc24].
    + destruct (divmod_unique y 100 (4 * a + b + 1) 0) as [-> _]; [lia|lia|].
      destruct (Z.eq_dec b 3) as [->|Hb3].
      * destruct (divmod_unique y 400 (a + 1) 0) as [-> _]; [lia|lia|].
        simpl. lia.
      * destruct (divmod_unique y 400 a (100 * b + 100)) as [-> _];
          [lia|lia|].
        destruct (Z.eqb_spec b 3); [lia|]. simpl. lia.
    + destruct (divmod_unique y 100 (4 * a + b) (4 * c + 4)) as [-> _];
        [lia|lia|].
      destruct (divmod_unique y 400 a (100 * b + 4 * c + 4)) as [-> _];
        [lia|lia|].
      destruct (Z.eqb_spec c 24); [lia|]. simpl. lia.
  - destruct (divmod_unique y 4 (100 * a + 25 * b + c) (e + 1)) as [-> _];
      [lia|lia|].
    destruct (divmod_unique y 100 (4 * a + b) (4 * c + e + 1)) as [-> _];
      [lia|lia|].
    destruct (divmod_unique y 400 a (100 * b + 4 * c + e + 1)) as [-> _];
      [lia|lia|].
    destruct (Z.eqb_spec e 3); [lia|]. simpl. lia.
Qed.

Lemma days_before_year_range y :
  1 <= y <= 9999 -> 0 <= days_before_year y <= 3651694.
Proof.
  intros Hy.
  destruct (year_decomp y ltac:(lia))
    as (a & b & c & e & Ha & Hb & Hc & He & Hyeq & Hdby & _).
  rewrite Hdby. lia.
Qed.

Lemma toordinal_range d : valid d -> 0 < toordinal d <= MAXORDINAL.
Proof.
  destruct d as [y m dd]. unfold valid, toordinal, ymd2ord, MAXORDINAL; simpl.
  intros (Hy & Hm & Hd).
  pose proof (days_before_year_range y ltac:(lia)).
  assert (Hdbm : 0 <= days_before_month y m /\
                 days_before_month y m + days_in_month y m
                 <= 365 + (if is_leap y then 1 else 0)).
  { unfold days_before_month, days_in_month.
    assert (Hcases : m = 1 \/ m = 2 \/ m = 3 \/ m = 4 \/ m = 5 \/ m = 6 \/
                     m = 7 \/ m = 8 \/ m = 9 \/ m = 10 \/ m = 11 \/ m = 12)
      by lia.
    destruct (is_leap y);
      repeat (destruct Hcases as [-> | Hcases]); try subst m; simpl; lia. }
  split; [lia|].
  destruct (Z.eq_dec y 9999) as [->|Hne].
  - change (is_leap 9999) with false in Hdbm.
    change (days_before_year 9999) with 3651694. lia.
  - pose proof (days_before_year_range (y + 1) ltac:(lia)) as Hnext.
    rewrite days_before_next_year in Hnext by lia.
    destruct (is_leap y); lia.
Qed.

(** The last day of a month is the day before the first of the next. *)
Lemma day_before_next_month y m :
  1 <= y <= 9999 -> 1 <= m <= 11 ->
  sub_days (mkdate y (m + 1) 1) 1 = Ok (mkdate y m (days_in_month y m)).
Proof.
  intros Hy Hm. unfold sub_days, toordinal, ymd2ord; simpl.
  rewrite days_before_next_month by lia.
  pose proof (days_in_month_pos y m ltac:(lia)) as Hdim.
  assert (Hv : valid (mkdate y m (days_in_month y m))).
  { unfold valid; simpl. lia. }
  pose proof (toordinal_range _ Hv) as Hr.
  unfold toordinal, ymd2ord in Hr; simpl in Hr.
  replace (days_before_year y + (days_before_month y m + days_in_month y m)
           + 1 - 1)
    with (ymd2ord y m (days_in_month y m)) by (unfold ymd2ord; lia).
  unfold ymd2ord at 1 2.
  destruct (Z.ltb_spec 0 (days_before_year y + days_before_month y m
                          + days_in_month y m)); [|lia].
  destruct (Z.leb_spec (days_before_year y + days_before_month y m
                        + days_in_month y m) MAXORDINAL); [|lia].
  simpl. f_equal. apply ord2ymd_ymd2ord. exact Hv.
Qed.

Lemma day_before_next_year y :
  1 <= y < 9999 ->
  sub_days (mkdate (y + 1) 1 1) 1 = Ok (mkdate y 12 31).
Proof.
  intros Hy. unfold sub_days, toordinal, ymd2ord; simpl.
  rewrite days_before_next_year by lia.
  assert (Hv : valid (mkdate y 12 31)).
  { unfold valid; simpl. unfold days_in_month. simpl. lia. }
  pose proof (toordinal_range _ Hv) as Hr.
  unfold toordinal, ymd2ord, days_before_month in Hr; simpl in Hr.
  replace (days_before_year y + 365 + (if is_leap y then 1 else 0)
           + days_before_month (y + 1) 1 + 1 - 1)
    with (ymd2ord y 12 31).
  2:{ unfold ymd2ord, days_before_month. simpl. lia. }
  unfold ymd2ord, days_before_month at 1 2. simpl (DAYS_BEFORE_MONTH 12).
  simpl (2 <? 12). simpl andb.
  destruct (Z.ltb_spec 0 (days_before_year y
                          + (334 + (if is_leap y then 1 else 0)) + 31));
    [|lia].
  destruct (Z.leb_spec (days_before_year y
                        + (334 + (if is_leap y then 1 else 0)) + 31)
                       MAXORDINAL); [|lia].
  simpl. f_equal.
  apply (ord2ymd_ymd2ord y 12 31). exact Hv.
Qed.

Lemma month_period_ok d :
  valid d -> year d < 9999 \/ month d < 12 ->
  month_period d
  = Ok (mkdate (year d) (month d) 1,
        mkdate (year d) (month d) (days_in_month (year d) (month d))).
Proof.
  destruct d as [y m dd]. unfold valid; simpl. intros (Hy & Hm & Hd) Hlast.
  pose proof (days_in_month_pos y m Hm) as Hdim.
  unfold month_period, replace, check_date_fields, MINYEAR, MAXYEAR; simpl.
  destruct (Z.leb_spec 1 y); [|lia]. destruct (Z.leb_spec y 9999); [|lia].
  destruct (Z.leb_spec 1 m); [|lia]. destruct (Z.leb_spec m 12); [|lia].
  destruct (Z.leb_spec 1 (days_in_month y m)); [|lia].
  simpl.
  destruct (Z.eqb_spec m 12) as [->|Hm12].
  - destruct (Z.leb_spec 1 (y + 1)); [|lia].
    destruct (Z.leb_spec (y + 1) 9999); [|lia]. simpl.
    rewrite day_before_next_year by lia. simpl.
    unfold days_in_month. simpl. reflexivity.
  - destruct (Z.leb_spec 1 (m + 1)); [|lia].
    destruct (Z.leb_spec (m + 1) 12); [|lia].
    pose proof (days_in_month_pos y (m + 1) ltac:(lia)).
    destruct (Z.leb_spec 1 (days_in_month y (m + 1))); [|lia]. simpl.
    rewrite day_before_next_month by lia. reflexivity.
Qed.

(** The period only looks at the year and the month of the date. *)
Lemma month_period_of_month d d' :
  year d = year d' -> month d = month d' -> month_period d = month_period d'.
Proof.
  destruct d, d'; simpl. intros -> ->. reflexivity.
Qed.

Lemma month_period_start d s e :
  month_period d = Ok (s, e) -> s = mkdate (year d) (month d) 1.
Proof.
  unfold month_period, replace. simpl.
  destruct (check_date_fields (year d) (month d) 1) as [s0|] eqn:Hs;
    simpl; [|discriminate].
  assert (s0 = mkdate (year d) (month d) 1).
  { unfold check_date_fields in Hs.
    repeat match type of Hs with
           | (if ?c then _ else _) = _ => destruct c; try discriminate
           end.
    congruence. }
  subst s0.
  match goal with
  | |- bind ?r _ = _ -> _ => destruct r; simpl; [|discriminate]
  end.
  congruence.
Qed.

End PeriodFacts.

(** C6, as the code has it: for every sale date before December of the
    year 9999, the aggregation period runs from the first day of the
    date's calendar month to the last day of that month, for every month
    length, February of leap years and the December rollover included. *)
Theorem month_period_is_calendar_month (d : date) :
  PyDate.valid d ->
  PyDate.year d < 9999 \/ PyDate.month d < 12 ->
  month_period d
  = Ok (PyDate.mkdate (PyDate.year d) (PyDate.month d) 1,
        PyDate.mkdate (PyDate.year d) (PyDate.month d)
          (PyDate.days_in_month (PyDate.year d) (PyDate.month d))) /\
  PyDate.sub_days
    (if PyDate.month d =? 12
     then PyDate.mkdate (PyDate.year d + 1) 1 1
     else PyDate.mkdate (PyDate.year d) (PyDate.month d + 1) 1) 1
  = Ok (PyDate.mkdate (PyDate.year d) (PyDate.month d)
          (PyDate.days_in_month (PyDate.year d) (PyDate.month d))).
Proof.
  intros Hv Hlast. split; [apply month_period_ok; assumption|].
  destruct Hv as (Hy & Hm & _).
  destruct (Z.eqb_spec (PyDate.month d) 12) as [H12|H12].
  - rewrite H12. rewrite day_before_next_year by lia. reflexivity.
  - apply day_before_next_month; lia.
Qed.

(** A leap-year February and a December. *)
Lemma month_period_is_calendar_month_witness :
  (PyDate.valid (PyDate.mkdate 2024 2 10) /\
   (PyDate.year (PyDate.mkdate 2024 2 10) < 9999
    \/ PyDate.month (PyDate.mkdate 2024 2 10) < 12)) /\
  month_period (PyDate.mkdate 2024 2 10)
  = Ok (PyDate.mkdate 2024 2 1, PyDate.mkdate 2024 2 29) /\
  month_period (PyDate.mkdate 2023 12 31)
  = Ok (PyDate.mkdate 2023 12 1, PyDate.mkdate 2023 12 31) /\
  month_period (PyDate.mkdate 1900 2 28)
  = Ok (PyDate.mkdate 1900 2 1, PyDate.mkdate 1900 2 28).
Proof.
  assert (Hv : forall y m d,
             PyDate.validb (PyDate.mkdate y m d) = true ->
             PyDate.valid (PyDate.mkdate y m d)).
  { intros y m d H. unfold PyDate.validb in H; simpl in H.
    repeat (apply andb_true_iff in H as [H ?]).
    unfold PyDate.valid; simpl. lia. }
  split; [split; [apply Hv; reflexivity | left; simpl; lia]|].
  split; [apply (month_period_is_calendar_month (PyDate.mkdate 2024 2 10));
          [apply Hv; reflexivity | left; simpl; lia]|].
  split; [apply (month_period_is_calendar_month (PyDate.mkdate 2023 12 31));
          [apply Hv; reflexivity | left; simpl; lia]|].
  apply (month_period_is_calendar_month (PyDate.mkdate 1900 2 28));
    [apply Hv; reflexivity | left; simpl; lia].
Defined.

(** C6 as stated fails in December 9999: the first day of the next month
    is not a date, and the computation raises. *)
Lemma month_period_december_9999 :
  PyDate.valid (PyDate.mkdate 9999 12 15) /\
  month_period (PyDate.mkdate 9999 12 15)
  = Raise (ValueError "year is out of range").
Proof.
  split; [repeat split; vm_compute; discriminate | reflexivity].
Qed.

(** ** Rendering numbers: widths *)

Section StringFacts.

Import PyStr.

Lemma length_append (a b : string) :
  String.length (a +:+ b) = (String.length a + String.length b)%nat.
Proof. induction a as [|c a IH]; simpl; [reflexivity | rewrite IH; reflexivity]. Qed.

Lemma length_zeros k : String.length (zeros k) = k.
Proof. induction k as [|k IH]; simpl; [reflexivity | rewrite IH; reflexivity]. Qed.

Lemma digits_length_le fuel :
  forall n acc (k : nat),
    0 <= n < 10 ^ Z.of_nat k -> (1 <= k)%nat ->
    (String.length (digits fuel n acc) <= k + String.length acc)%nat.
Proof.
  induction fuel as [|f IH]; intros n acc k Hn Hk; simpl; [lia|].
  destruct (Z.ltb_spec n 10) as [Hlt|Hge]; simpl; [lia|].
  assert (Hk2 : (2 <= k)%nat).
  { destruct k as [|[|k]]; [lia | simpl in Hn; lia | lia]. }
  assert (Hdiv : 0 <= n / 10 < 10 ^ Z.of_nat (k - 1)).
  { split; [apply Z.div_pos; lia|].
    apply Z.div_lt_upper_bound; [lia|].
    replace (10 * 10 ^ Z.of_nat (k - 1)) with (10 ^ Z.of_nat k); [lia|].
    replace (Z.of_nat k) with (1 + Z.of_nat (k - 1)) by lia.
    rewrite Z.pow_add_r by lia. reflexivity. }
  specialize (IH (n / 10) (String (digit n) acc) (k - 1)%nat Hdiv ltac:(lia)).
  simpl in IH. lia.
Qed.

Lemma digits_of_length_le n (k : nat) :
  0 <= n < 10 ^ Z.of_nat k -> (1 <= k)%nat ->
  (String.length (digits_of n) <= k)%nat.
Proof.
  intros Hn Hk. unfold digits_of.
  rewrite Z.abs_eq by lia.
  pose proof (digits_length_le (S (Z.to_nat (Z.log2 n))) n "" k Hn Hk) as H.
  simpl String.length in H at 2. lia.
Qed.

(** Below [10^w], the [0w d] format gives exactly [w] characters. *)
Lemma format_0d_length (w : nat) n :
  0 <= n < 10 ^ Z.of_nat w -> (1 <= w)%nat ->
  String.length (format_0d w n) = w.
Proof.
  intros Hn Hw. unfold format_0d.
  destruct (Z.ltb_spec n 0); [lia|].
  pose proof (digits_of_length_le n w Hn Hw).
  rewrite length_append, length_zeros. lia.
Qed.

Lemma strftime_Ymd_length d :
  PyDate.valid d -> String.length (PyDate.strftime_Ymd d) = 8%nat.
Proof.
  intros (Hy & Hm & Hd). unfold PyDate.strftime_Ymd.
  pose proof (days_in_month_pos (PyDate.year d) (PyDate.month d) Hm).
  rewrite !length_append.
  rewrite (format_0d_length 4), !(format_0d_length 2);
    try (simpl; lia).
Qed.

End StringFacts.

(** ** Saving a sale *)

Section SaleFacts.

Variable create : AuditLog.t -> list AuditLog.t -> result (list AuditLog.t).

Lemma aggregate_sale_period_tables instance customer st st' :
  aggregate_sale_period instance customer st = Ok st' ->
  sales st' = sales st /\ sale_items st' = sale_items st /\
  stdout st' = stdout st /\ audit_logs st' = audit_logs st.
Proof.
  unfold aggregate_sale_period.
  destruct (month_period (Sale.sale_date instance)) as [[s e]|]; simpl;
    [|discriminate].
  destruct (Revenue_get_or_create _ _ _ _ _ _) as [[rev c] tbl].
  intros H. injection H as <-. repeat split.
Qed.

(** What the receiver of a saved sale does: the audit row when the sale
    is new, then the aggregation when the sale has a customer, whose
    exceptions are dropped. *)
Lemma log_sale_changes_spec (instance : Sale.t) (created : bool) (st : Store) :
  exists (st1 : Store) (row : AuditLog.t),
    same_tables st st1 /\
    (AuditLog.action row = "create" /\ AuditLog.model_name row = "Sale" /\
     AuditLog.object_id row = Sale.id instance) /\
    stdout st1 =
      stdout st ++
      (if created then
         match create row (audit_logs st) with
         | Ok _ => @nil string
         | Raise e => ["Error logging audit: " +:+ exn_str e]
         end
       else []) /\
    log_sale_changes create instance created st =
      Ok (match Sale.customer instance with
          | Some c =>
              match aggregate_sale_period instance c st1 with
              | Ok st2 => st2
              | Raise _ => st1
              end
          | None => st1
          end).
Proof.
  unfold log_sale_changes.
  match goal with
  | |- context [log_action create ?u ?a ?m ?o ?s ?ov ?nv ?ip ?d st] =>
      destruct (audit_if_created_contained create created u a m o s ov nv ip d st)
        as (st1 & row & -> & Hsame & Hrow & Hout)
  end.
  exists st1, row. split; [exact Hsame|]. split; [exact Hrow|].
  split; [exact Hout|]. simpl.
  destruct (Sale.customer instance) as [c|]; [|reflexivity].
  destruct (aggregate_sale_period instance c st1); reflexivity.
Qed.

Ltac saved_sale_field :=
  unfold saved_sale; cbv zeta;
  match goal with |- context [negb ?b] => destruct (negb b) end;
  unfold Sale_auto_number;
  match goal with |- context [String.eqb ?a ?b] => destruct (String.eqb a b) end;
  reflexivity.

Lemma saved_sale_id now s st : Sale.id (saved_sale now s st) = Sale.id s.
Proof. saved_sale_field. Qed.

Lemma saved_sale_customer now s st :
  Sale.customer (saved_sale now s st) = Sale.customer s.
Proof. saved_sale_field. Qed.

Lemma saved_sale_date now s st :
  Sale.sale_date (saved_sale now s st) = Sale.sale_date s.
Proof. saved_sale_field. Qed.

Lemma saved_sale_status now s st :
  Sale.status (saved_sale now s st) = Sale.status s.
Proof. saved_sale_field. Qed.


Lemma saved_sale_created_by now s st :
  Sale.created_by (saved_sale now s st) = Sale.created_by s.
Proof. saved_sale_field. Qed.

Lemma Sale_save_spec now s st :
  exists st',
    Sale_save create now s st = Ok (saved_sale now s st, st') /\
    sales st' = upsert Sale.id (saved_sale now s st) (sales st) /\
    sale_items st' = sale_items st.
Proof.
  unfold Sale_save. cbv zeta. fold (saved_sale now s st).
  set (s' := saved_sale now s st).
  set (created := negb _).
  set (st0 := set_sales _ st).
  destruct (log_sale_changes_spec s' created st0)
    as (st1 & row & Hsame & _ & _ & ->).
  simpl. eexists. split; [reflexivity|].
  destruct Hsame as (_ & _ & _ & _ & Hsales & Hitems & _).
  destruct (Sale.customer s') as [c|]; [|split; assumption].
  destruct (aggregate_sale_period s' c st1) as [st2|] eqn:Hagg;
    [|split; assumption].
  apply aggregate_sale_period_tables in Hagg as (-> & -> & _).
  split; assumption.
Qed.

Lemma Sale_auto_number_keeps now tbl s :
  Sale.sale_number s <> "" -> Sale_auto_number now tbl s = s.
Proof.
  intros H. unfold Sale_auto_number.
  destruct (String.eqb_spec (Sale.sale_number s) ""); [contradiction|].
  reflexivity.
Qed.

Lemma saved_sale_number now s st :
  Sale.sale_number (saved_sale now s st)
  = Sale.sale_number (Sale_auto_number now (sales st) s).
Proof. unfold saved_sale. destruct (negb _); reflexivity. Qed.

Lemma sales_created_on_app today tbl s :
  sales_created_on today (tbl ++ [s])
  = sales_created_on today tbl
    + (if bool_decide (Sale.created_at s = today) then 1 else 0).
Proof.
  unfold sales_created_on. rewrite List.filter_app, length_app. simpl.
  destruct (bool_decide _); simpl; lia.
Qed.

(** Whether a number is taken depends on the number and the key only,
    and the row of the sale itself does not take it. *)
Lemma sale_number_taken_ext (s s' : Sale.t) (tbl : list Sale.t) :
  Sale.sale_number s = Sale.sale_number s' -> Sale.id s = Sale.id s' ->
  sale_number_taken s tbl = sale_number_taken s' tbl.
Proof. intros Hn Hi. unfold sale_number_taken. rewrite Hn, Hi. reflexivity. Qed.

Lemma sale_number_taken_upsert (s : Sale.t) (tbl : list Sale.t) :
  sale_number_taken s (upsert Sale.id s tbl) = sale_number_taken s tbl.
Proof.
  unfold sale_number_taken, upsert.
  destruct (has_pk Sale.id (Sale.id s) tbl).
  - induction tbl as [|r tbl IH]; simpl; [reflexivity|].
    rewrite IH. f_equal.
    destruct (String.eqb_spec (Sale.id r) (Sale.id s)) as [E|N].
    + rewrite (String.eqb_refl (Sale.id s)). simpl.
      rewrite !andb_false_r. reflexivity.
    + apply String.eqb_neq in N. rewrite N. reflexivity.
  - rewrite existsb_app. simpl.
    rewrite !String.eqb_refl. simpl. rewrite orb_false_r. reflexivity.
Qed.

Lemma saved_sale_taken now s st tbl :
  sale_number_taken (saved_sale now s st) tbl
  = sale_number_taken (Sale_auto_number now (sales st) s) tbl.
Proof.
  apply sale_number_taken_ext.
  - apply saved_sale_number.
  - unfold saved_sale. destruct (negb _); reflexivity.
Qed.

(** While the database takes the row, the save is [Sale_save]. *)
Lemma Sale_save_unique_free now s st :
  sale_number_taken (Sale_auto_number now (sales st) s) (sales st) = false ->
  Sale_save_unique create now s st = Sale_save create now s st.
Proof. intros H. unfold Sale_save_unique. rewrite H. reflexivity. Qed.

Lemma Sale_save_unique_ok now s st s1 st1 :
  Sale_save_unique create now s st = Ok (s1, st1) ->
  sale_number_taken (Sale_auto_number now (sales st) s) (sales st) = false /\
  Sale_save create now s st = Ok (s1, st1).
Proof.
  unfold Sale_save_unique.
  destruct (sale_number_taken _ _); [discriminate|].
  intros H. split; [reflexivity | exact H].
Qed.

(** C7: a Sale saved with an empty sale_number gets
    "SAL-" + YYYYMMDD of the current day + "-" + the count of sales created
    that day plus one, zero-padded to five digits (18 characters in all
    while that number stays below 100000).  When no other stored sale
    carries that number the row is stored with it; a new sale raises the
    day's count by one, so the next new sale gets the next number; and a
    later save of a sale that has its number (of the instance just
    returned, or of any instance whose number no other row carries)
    leaves the number as it is. *)
Theorem sale_number_assigned_once (now : date) (s : Sale.t) (st : Store) :
  Sale.sale_number s = "" ->
  sale_number_taken (Sale_auto_number now (sales st) s) (sales st) = false ->
  exists s1 st1,
    Sale_save_unique create now s st = Ok (s1, st1) /\
    get_by_pk Sale.id (Sale.id s) (sales st1) = Some s1 /\
    Sale.sale_number s1
    = "SAL-" +:+ PyDate.strftime_Ymd now +:+ "-"
      +:+ PyStr.format_0d 5 (sales_created_on now (sales st) + 1) /\
    (PyDate.valid now -> sales_created_on now (sales st) + 1 < 100000 ->
     String.length (Sale.sale_number s1) = 18%nat) /\
    (has_pk Sale.id (Sale.id s) (sales st) = false ->
     sales_created_on now (sales st1) = sales_created_on now (sales st) + 1) /\
    (forall (now2 : date),
      exists s3 st3,
        Sale_save_unique create now2 s1 st1 = Ok (s3, st3) /\
        Sale.sale_number s3 = Sale.sale_number s1) /\
    forall (now2 : date) (s2 : Sale.t) (st2 : Store),
      Sale.sale_number s2 = Sale.sale_number s1 ->
      sale_number_taken s2 (sales st2) = false ->
      exists s3 st3,
        Sale_save_unique create now2 s2 st2 = Ok (s3, st3) /\
        Sale.sale_number s3 = Sale.sale_number s1.
Proof.
  intros Hempty Hfree.
  destruct (Sale_save_spec now s st) as (st1 & Hsave & Hsales & _).
  exists (saved_sale now s st), st1.
  split; [rewrite Sale_save_unique_free by exact Hfree; exact Hsave|].
  assert (Hnum : Sale.sale_number (saved_sale now s st)
                 = "SAL-" +:+ PyDate.strftime_Ymd now +:+ "-"
                   +:+ PyStr.format_0d 5 (sales_created_on now (sales st) + 1)).
  { rewrite saved_sale_number. unfold Sale_auto_number.
    rewrite Hempty. reflexivity. }
  assert (Hlater : forall now2 s2 st2,
            Sale.sale_number s2 = Sale.sale_number (saved_sale now s st) ->
            sale_number_taken s2 (sales st2) = false ->
            exists s3 st3,
              Sale_save_unique create now2 s2 st2 = Ok (s3, st3) /\
              Sale.sale_number s3 = Sale.sale_number (saved_sale now s st)).
  { intros now2 s2 st2 Hsame Hfree2.
    assert (Hkeep : Sale_auto_number now2 (sales st2) s2 = s2).
    { apply Sale_auto_number_keeps. rewrite Hsame, Hnum. discriminate. }
    destruct (Sale_save_spec now2 s2 st2) as (st3 & Hsave2 & _).
    exists (saved_sale now2 s2 st2), st3. split.
    - rewrite Sale_save_unique_free by (rewrite Hkeep; exact Hfree2).
      exact Hsave2.
    - rewrite saved_sale_number, Hkeep. exact Hsame. }
  split.
  { rewrite Hsales, <- (saved_sale_id now s st). apply get_by_pk_upsert. }
  split; [exact Hnum|].
  split.
  { intros Hv Hcount. rewrite Hnum, !length_append.
    rewrite strftime_Ymd_length by exact Hv.
    rewrite (format_0d_length 5);
      [reflexivity | unfold sales_created_on in *; simpl; lia | lia]. }
  split.
  { intros Hnew. rewrite Hsales. unfold upsert.
    rewrite saved_sale_id, Hnew, sales_created_on_app.
    unfold saved_sale. cbv zeta.
    replace (Sale.id (Sale_auto_number now (sales st) s)) with (Sale.id s)
      by (unfold Sale_auto_number; destruct (String.eqb _ ""); reflexivity).
    rewrite Hnew. simpl.
    rewrite bool_decide_eq_true_2 by reflexivity. reflexivity. }
  split; [|exact Hlater].
  intros now2. apply Hlater; [reflexivity|].
  rewrite Hsales, sale_number_taken_upsert, saved_sale_taken. exact Hfree.
Qed.

(** C10: saving a Sale whose customer is null aggregates nothing: the
    Revenue table after the write is the table before it, whatever the
    status and the date of the sale. *)
Theorem sale_without_customer_leaves_revenue (now : date) (s : Sale.t)
    (st : Store) :
  Sale.customer s = None ->
  exists s' st',
    Sale_save create now s st = Ok (s', st') /\
    revenues st' = revenues st.
Proof.
  intros Hnone. unfold Sale_save. cbv zeta. fold (saved_sale now s st).
  set (s' := saved_sale now s st).
  set (created := negb _).
  set (st0 := set_sales _ st).
  destruct (log_sale_changes_spec s' created st0)
    as (st1 & row & Hsame & _ & _ & ->).
  assert (Hc : Sale.customer s' = None).
  { subst s'. rewrite saved_sale_customer. exact Hnone. }
  rewrite Hc. simpl. exists s', st1. split; [reflexivity|].
  destruct Hsame as (_ & _ & _ & _ & _ & _ & ->). reflexivity.
Qed.

End SaleFacts.

(** ** Every write: the row, the console and the audit row *)

Section PerformFacts.

Variable create : AuditLog.t -> list AuditLog.t -> result (list AuditLog.t).





End PerformFacts.

(** ** The writes at work *)

(** The first two sales of a day get 00001 and 00002, and a later save
    keeps the number. *)
Lemma sale_number_assigned_once_witness :
  Sale.sale_number first_sale = "" /\
  sale_number_taken
    (Sale_auto_number march_5 (sales empty_store) first_sale)
    (sales empty_store) = false /\
  exists s1 st1 s2 st2 s3 st3,
    Sale_save_unique reliable_create march_5 first_sale empty_store
    = Ok (s1, st1) /\
    Sale.sale_number s1 = "SAL-20240305-00001" /\
    Sale_save_unique reliable_create march_5 second_sale st1 = Ok (s2, st2) /\
    Sale.sale_number s2 = "SAL-20240305-00002" /\
    Sale_save_unique reliable_create (PyDate.mkdate 2024 3 6) s1 st2
    = Ok (s3, st3) /\
    Sale.sale_number s3 = "SAL-20240305-00001".
Proof.
  split; [reflexivity|]. split; [reflexivity|].
  destruct (sale_number_assigned_once reliable_create march_5 first_sale
              empty_store eq_refl eq_refl)
    as (s1 & st1 & Hs1 & _ & Hn1 & _ & Hcount & _ & Hkeep).
  assert (Hfree2 : sale_number_taken
                     (Sale_auto_number march_5 (sales st1) second_sale)
                     (sales st1) = false).
  { vm_compute in Hs1. injection Hs1 as <- <-. reflexivity. }
  destruct (sale_number_assigned_once reliable_create march_5 second_sale
              st1 eq_refl Hfree2)
    as (s2 & st2 & Hs2 & _ & Hn2 & _).
  assert (Hfree3 : sale_number_taken s1 (sales st2) = false).
  { vm_compute in Hs1. injection Hs1 as <- <-.
    vm_compute in Hs2. injection Hs2 as <- <-. reflexivity. }
  destruct (Hkeep (PyDate.mkdate 2024 3 6) s1 st2 eq_refl Hfree3)
    as (s3 & st3 & Hs3 & Hn3).
  exists s1, st1, s2, st2, s3, st3.
  assert (Hn1' : Sale.sale_number s1 = "SAL-20240305-00001")
    by (rewrite Hn1; reflexivity).
  split; [exact Hs1|]. split; [exact Hn1'|]. split; [exact Hs2|].
  split; [rewrite Hn2, (Hcount eq_refl); reflexivity|].
  split; [exact Hs3 | rewrite Hn3; exact Hn1'].
Defined.

(** The first sale of the day was deleted and the table holds the second
    alone, numbered 00002.  One sale was created that day, so the next
    new sale is given 00002 again: the unique column refuses it, the save
    raises and the sale receives nothing. *)
Lemma sale_number_collides_after_deletion :
  Sale.sale_number third_sale = "" /\
  sales_created_on march_5 (sales store_after_deletion) + 1 = 2 /\
  Sale_save_unique reliable_create march_5 third_sale store_after_deletion
  = Raise (IntegrityError "UNIQUE constraint failed: sales_sale.sale_number") /\
  ~ exists s1 st1,
      Sale_save_unique reliable_create march_5 third_sale store_after_deletion
      = Ok (s1, st1).
Proof.
  split; [reflexivity|]. split; [reflexivity|]. split; [reflexivity|].
  intros (s1 & st1 & H). vm_compute in H. discriminate.
Qed.

(** A confirmed sale without a customer, saved into a store that holds a
    Revenue row. *)
Lemma sale_without_customer_leaves_revenue_witness :
  Sale.customer counter_sale = None /\
  exists st1 s' st',
    perform reliable_create (save_sale march_5 first_sale) empty_store
    = Ok st1 /\
    revenues st1 <> ∅ /\
    Sale_save reliable_create march_5 counter_sale st1 = Ok (s', st') /\
    revenues st' = revenues st1.
Proof.
  split; [reflexivity|].
  destruct (perform reliable_create (save_sale march_5 first_sale) empty_store)
    as [st1|] eqn:H1; [|vm_compute in H1; discriminate].
  destruct (sale_without_customer_leaves_revenue reliable_create march_5
              counter_sale st1 eq_refl) as (s' & st' & Hs & Hr).
  exists st1, s', st'. split; [reflexivity|].
  split; [|split; [exact Hs | exact Hr]].
  vm_compute in H1. injection H1 as <-. intros Hempty.
  apply (f_equal (fun m => m !! ("c-acme", monthly, PyDate.mkdate 2024 3 1)))
    in Hempty.
  vm_compute in Hempty. discriminate.
Defined.



(** When the audit table refuses the row, the write still completes and
    the failure is printed. *)
Lemma side_effect_failures_contained_example :
  exists st',
    perform failing_create (save_sale march_5 last_month_sale) empty_store
    = Ok st' /\
    get_by_pk Sale.id "s-9" (sales st')
    = Some (saved_sale march_5 last_month_sale empty_store) /\
    audit_logs st' = [] /\
    stdout st' = ["Error logging audit: database is locked"].
Proof.
  eexists. split; [vm_compute; reflexivity|]. repeat split.
Qed.

(** ** Revenue aggregation *)

Section RevenueFacts.

(** *** The totals as numbers *)



(** *** The period as a calendar month *)




Lemma recalculate_idem r rows :
  recalculate (recalculate r rows) rows = recalculate r rows.
Proof. reflexivity. Qed.



(** *** The turns of the command's loop *)

Lemma can_handle_same_period s s0 k k0 :
  can_handle s = Some k -> can_handle s0 = Some k0 ->
  k.1.2 = k0.1.2 -> k.2 = k0.2.
Proof.
  unfold can_handle. intros H H0 Hstart.
  destruct (month_period (Sale.sale_date s)) as [[sd ed]|] eqn:Hp;
    [|discriminate].
  destruct (month_period (Sale.sale_date s0)) as [[sd0 ed0]|] eqn:Hp0;
    [|discriminate].
  destruct (Sale.customer s); [|discriminate].
  destruct (Sale.customer s0); [|discriminate].
  injection H as <-. injection H0 as <-. simpl in *. subst sd0.
  pose proof (month_period_start _ _ _ Hp) as E.
  pose proof (month_period_start _ _ _ Hp0) as E0.
  rewrite E in E0. injection E0 as Ey Em.
  rewrite (month_period_of_month _ _ Ey Em) in Hp. congruence.
Qed.

(** A turn on a sale with a customer and a period: skip a processed key,
    else rewrite the row of the key with the totals of its period. *)
Lemma handle_sale_some tbl s p cid sd ed :
  can_handle s = Some (cid, sd, ed) ->
  exists p',
    handle_sale tbl s p = Ok p' /\
    ((cid, sd) ∈ processed p /\ p' = p
     \/
     ((cid, sd) ∉ processed p) /\
     processed p' = {[(cid, sd)]} ∪ processed p /\
     h_revenues p'
     = <[(cid, monthly, sd) :=
           recalculate
             (default (Revenue_defaults cid monthly sd ed (Sale.created_by s))
                      (h_revenues p !! (cid, monthly, sd)))
             (period_sales cid sd ed tbl)]> (h_revenues p)).
Proof.
  unfold can_handle, handle_sale. cbv zeta.
  destruct (month_period (Sale.sale_date s)) as [[sd' ed']|]; [|discriminate].
  destruct (Sale.customer s) as [c|]; [|discriminate].
  intros H. injection H as <- <- <-. simpl.
  destruct (bool_decide_reflect ((Customer.id c, sd') ∈ processed p))
    as [Hin|Hnin].
  - exists p. split; [reflexivity|]. left. split; [exact Hin | reflexivity].
  - unfold Revenue_get_or_create, Revenue_save.
    destruct (h_revenues p !! (Customer.id c, monthly, sd')) as [r|] eqn:Hl.
    + eexists. split; [reflexivity|]. right.
      split; [exact Hnin|]. split; reflexivity.
    + eexists. split; [reflexivity|]. right.
      split; [exact Hnin|]. split; [reflexivity|]. simpl.
      apply insert_insert_eq.
Qed.

Lemma handle_sale_none tbl s p :
  can_handle s = None -> exists e, handle_sale tbl s p = Raise e.
Proof.
  unfold can_handle, handle_sale. cbv zeta.
  destruct (month_period (Sale.sale_date s)) as [[sd ed]|e]; simpl.
  - destruct (Sale.customer s); [discriminate|]. intros _. eexists. reflexivity.
  - intros _. exists e. reflexivity.
Qed.

Lemma handle_loop_prefix tbl queue p :
  fst (handle_loop tbl queue p) = fst (handle_loop tbl (handled_prefix queue) p).
Proof.
  revert p. induction queue as [|s queue IH]; intros p; simpl; [reflexivity|].
  destruct (can_handle s) as [[[cid sd] ed]|] eqn:Hc.
  - destruct (handle_sale_some tbl s p cid sd ed Hc) as (p' & Hp' & _).
    simpl. rewrite Hp'. apply IH.
  - destruct (handle_sale_none tbl s p Hc) as (e & ->). reflexivity.
Qed.

Lemma handled_prefix_can_handle queue :
  Forall (fun s => can_handle s <> None) (handled_prefix queue).
Proof.
  induction queue as [|s queue IH]; simpl; [constructor|].
  destruct (can_handle s) eqn:Hc; [|constructor].
  constructor; [congruence | exact IH].
Qed.


(** A turn keeps every processed key settled and settles its own. *)
Lemma handle_sale_settles tbl s p p' k :
  can_handle s = Some k -> handle_sale tbl s p = Ok p' ->
  processed_settled tbl p ->
  processed_settled tbl p' /\ processed p ⊆ processed p' /\
  (k.1.1, k.1.2) ∈ processed p'.
Proof.
  destruct k as [[cid sd] ed]. intros Hc Hh Hinv.
  destruct (handle_sale_some tbl s p cid sd ed Hc)
    as (p1 & Hp1 & [[Hin ->] | (Hnin & Hproc & Hrev)]);
    rewrite Hp1 in Hh; injection Hh as <-.
  - split; [exact Hinv|]. split; [reflexivity | exact Hin].
  - split; [|split; [rewrite Hproc; apply union_subseteq_r
                    | rewrite Hproc; apply elem_of_union_l, elem_of_singleton;
                      reflexivity]].
    intros s2 [[cid2 sd2] ed2] Hc2 Hin2. simpl in Hin2.
    rewrite Hproc in Hin2. unfold settled. simpl. rewrite Hrev.
    destruct (decide ((cid2, sd2) = (cid, sd))) as [E|N].
    + injection E as -> ->.
      assert (ed2 = ed) as ->
        by (apply (can_handle_same_period s2 s _ _ Hc2 Hc); reflexivity).
      eexists. split; [apply lookup_insert_eq | apply recalculate_idem].
    + assert (Hold : (cid2, sd2) ∈ processed p).
      { apply elem_of_union in Hin2 as [Hin2|Hin2]; [|exact Hin2].
        apply elem_of_singleton in Hin2. contradiction. }
      destruct (Hinv s2 _ Hc2 Hold) as (r & Hl & Hr). simpl in Hl, Hr.
      exists r. split; [|exact Hr].
      rewrite lookup_insert_ne; [exact Hl | congruence].
Qed.

(** The loop settles the key of every sale it gets through. *)
Lemma handle_loop_settles tbl queue :
  forall p,
    Forall (fun s => can_handle s <> None) queue ->
    processed_settled tbl p ->
    let p' := fst (handle_loop tbl queue p) in
    processed_settled tbl p' /\ processed p ⊆ processed p' /\
    forall s k, In s queue -> can_handle s = Some k ->
                settled tbl (h_revenues p') k.
Proof.
  induction queue as [|s queue IH]; intros p Hall Hinv; simpl.
  - split; [exact Hinv|]. split; [reflexivity|]. intros s k [].
  - inversion Hall as [|? ? Hs Hrest]; subst.
    destruct (can_handle s) as [k0|] eqn:Hc; [|contradiction].
    destruct k0 as [[cid sd] ed].
    destruct (handle_sale_some tbl s p cid sd ed Hc) as (p1 & Hp1 & _).
    rewrite Hp1.
    destruct (handle_sale_settles tbl s p p1 _ Hc Hp1 Hinv)
      as (Hinv1 & Hsub1 & Hin1).
    destruct (IH p1 Hrest Hinv1) as (Hinv' & Hsub' & Hall').
    split; [exact Hinv'|]. split; [etrans; eassumption|].
    intros s2 k2 [<-|Hin2] Hc2.
    + rewrite Hc in Hc2. injection Hc2 as <-.
      apply (Hinv' s _ Hc). apply Hsub'. exact Hin1.
    + apply (Hall' s2 k2 Hin2 Hc2).
Qed.

(** Over settled keys the loop leaves the table as it is. *)
Lemma handle_loop_settled_noop tbl queue :
  forall p,
    Forall (fun s => can_handle s <> None) queue ->
    (forall s k, In s queue -> can_handle s = Some k ->
                 settled tbl (h_revenues p) k) ->
    h_revenues (fst (handle_loop tbl queue p)) = h_revenues p.
Proof.
  induction queue as [|s queue IH]; intros p Hall Hset; simpl; [reflexivity|].
  inversion Hall as [|? ? Hs Hrest]; subst.
  destruct (can_handle s) as [k0|] eqn:Hc; [|contradiction].
  destruct k0 as [[cid sd] ed].
  destruct (handle_sale_some tbl s p cid sd ed Hc)
    as (p1 & Hp1 & [[Hin ->] | (Hnin & Hproc & Hrev)]); rewrite Hp1.
  - apply IH; [exact Hrest|]. intros s2 k2 Hin2. apply Hset. right. exact Hin2.
  - assert (Hsame : h_revenues p1 = h_revenues p).
    { destruct (Hset s _ (or_introl eq_refl) Hc) as (r & Hl & Hr).
      simpl in Hl, Hr. rewrite Hrev, Hl. simpl. rewrite Hr.
      apply insert_id. exact Hl. }
    rewrite <- Hsame. apply IH; [exact Hrest|].
    intros s2 k2 Hin2 Hc2. rewrite Hsame. apply (Hset s2 k2); [right|]; assumption.
Qed.


Variable order : list Sale.t -> list Sale.t.

Lemma handle_final (st : Store) :
  final (handle order st)
  = set_revenues
      (h_revenues
         (fst (handle_loop (sales st)
                 (order (List.filter
                           (fun s => counts_for_revenue (Sale.status s))
                           (sales st)))
                 (mkProgress (revenues st) ∅ 0 0)))) st /\
  raised (handle order st)
  = snd (handle_loop (sales st)
           (order (List.filter
                     (fun s => counts_for_revenue (Sale.status s))
                     (sales st)))
           (mkProgress (revenues st) ∅ 0 0)).
Proof.
  unfold handle.
  destruct (order _) as [|s q]; [destruct st; split; reflexivity|].
  destruct (handle_loop _ _ _) as [p err]. split; reflexivity.
Qed.

(** C5: the bulk aggregation is idempotent: run a second time on the
    store the first run left, with the Sale data unchanged, it leaves
    every Revenue row (and the whole store) as the first run left it. *)
Theorem generate_revenue_records_idempotent (st : Store) :
  revenues (final (handle order (final (handle order st))))
  = revenues (final (handle order st)) /\
  final (handle order (final (handle order st))) = final (handle order st).
Proof.
  assert (H : final (handle order (final (handle order st)))
              = final (handle order st)); [|split; [rewrite H|]; exact H || reflexivity].
  destruct (handle_final st) as [H1 _]. rewrite H1.
  destruct (handle_final (set_revenues
              (h_revenues
                 (fst (handle_loop (sales st)
                         (order (List.filter
                                   (fun s => counts_for_revenue (Sale.status s))
                                   (sales st)))
                         (mkProgress (revenues st) ∅ 0 0)))) st)) as [H2 _].
  rewrite H2. simpl sales. simpl revenues.
  set (tbl := sales st).
  set (q := order (List.filter _ tbl)).
  set (p0 := mkProgress (revenues st) ∅ 0 0).
  set (R1 := h_revenues (fst (handle_loop tbl q p0))).
  assert (Hnoop : h_revenues (fst (handle_loop tbl q (mkProgress R1 ∅ 0 0)))
                  = R1).
  { rewrite handle_loop_prefix.
    apply (handle_loop_settled_noop tbl (handled_prefix q)
             (mkProgress R1 ∅ 0 0) (handled_prefix_can_handle q)).
    simpl. subst R1. rewrite handle_loop_prefix.
    apply (handle_loop_settles tbl (handled_prefix q) p0
             (handled_prefix_can_handle q)).
    intros s k _ Hin. simpl in Hin. apply not_elem_of_empty in Hin.
    contradiction. }
  rewrite Hnoop. reflexivity.
Qed.

End RevenueFacts.

(** ** Revenue rows against the sales of their month *)

Section RevenueClaims.

Variable create : AuditLog.t -> list AuditLog.t -> result (list AuditLog.t).
Variable order : list Sale.t -> list Sale.t.

(** Saving a sale that has a customer settles the Revenue row of the
    sale's customer and period. *)
Lemma Sale_save_aggregates now s c st sd ed :
  Sale.customer s = Some c ->
  month_period (Sale.sale_date s) = Ok (sd, ed) ->
  exists st',
    Sale_save create now s st = Ok (saved_sale now s st, st') /\
    sales st' = upsert Sale.id (saved_sale now s st) (sales st) /\
    settled (sales st') (revenues st') (Customer.id c, sd, ed).
Proof.
  intros Hc Hp. unfold Sale_save. cbv zeta. fold (saved_sale now s st).
  set (s' := saved_sale now s st).
  set (created := negb _).
  set (st0 := set_sales _ st).
  destruct (log_sale_changes_spec create s' created st0)
    as (st1 & row & Hsame & _ & _ & ->).
  destruct Hsame as (_ & _ & _ & _ & Hsales & _ & _).
  assert (Hc' : Sale.customer s' = Some c)
    by (subst s'; rewrite saved_sale_customer; exact Hc).
  assert (Hd' : Sale.sale_date s' = Sale.sale_date s)
    by (subst s'; apply saved_sale_date).
  rewrite Hc'. unfold aggregate_sale_period. rewrite Hd', Hp. simpl.
  destruct (Revenue_get_or_create _ _ _ _ _ _) as [[rev cr] tbl].
  eexists. split; [reflexivity|]. simpl.
  split; [exact Hsales|].
  unfold settled, Revenue_save. simpl. eexists.
  split; [apply lookup_insert_eq | apply recalculate_idem].
Qed.



End RevenueClaims.



(** The bulk pass stops at a counted sale without a customer, where the
    receiver of a saved sale steps over it. *)
Lemma bulk_pass_raises_without_customer :
  raised (handle table_order (set_sales [counter_sale] empty_store))
  = Some (AttributeError "'NoneType' object has no attribute 'id'").
Proof. reflexivity. Qed.
(* ===================================================================== *)
(** * Part III: further properties of the code                            *)
(* ===================================================================== *)

(** ** The audit log *)

Section AuditFacts.

Variable create : AuditLog.t -> list AuditLog.t -> result (list AuditLog.t).

Lemma log_action_run user action model_name object_id object_str
    old_values new_values ip_address description st :
  log_action create user action model_name object_id object_str
             old_values new_values ip_address description st
  = Ok (after_audit create
          (audit_row user action model_name object_id object_str
                     old_values new_values ip_address description) st).
Proof.
  unfold log_action, after_audit, audit_row. cbv zeta.
  match goal with
  | |- context [create ?r (audit_logs st)] =>
      destruct (create r (audit_logs st)); reflexivity
  end.
Qed.

Lemma after_audit_same_tables row st : same_tables st (after_audit create row st).
Proof.
  unfold after_audit. destruct (create row (audit_logs st)); repeat split.
Qed.

(** X1: the three receivers of [post_delete] do one thing: they hand the
    audit table a row with the action "delete", no user, the name of the
    model and the key of the deleted record.  They return normally
    whatever the insertion does, and leave every other table (the Revenue
    rows among them) as it was. *)
Theorem deletion_receivers_only_log (sale : Sale.t) (customer : Customer.t)
    (line : SaleItem.t) (st : Store) :
  exists r1 r2 r3 : AuditLog.t,
    (log_sale_deletion create sale st = Ok (after_audit create r1 st) /\
     AuditLog.user r1 = None /\ AuditLog.action r1 = "delete" /\
     AuditLog.model_name r1 = "Sale" /\ AuditLog.object_id r1 = Sale.id sale) /\
    (log_customer_deletion create customer st = Ok (after_audit create r2 st) /\
     AuditLog.user r2 = None /\ AuditLog.action r2 = "delete" /\
     AuditLog.model_name r2 = "Customer" /\
     AuditLog.object_id r2 = Customer.id customer) /\
    (log_saleitem_deletion create line st = Ok (after_audit create r3 st) /\
     AuditLog.user r3 = None /\ AuditLog.action r3 = "delete" /\
     AuditLog.model_name r3 = "SaleItem" /\
     AuditLog.object_id r3 = SaleItem.id line) /\
    forall r, same_tables st (after_audit create r st) /\
              revenues (after_audit create r st) = revenues st.
Proof.
  unfold log_sale_deletion, log_customer_deletion, log_saleitem_deletion.
  rewrite !log_action_run.
  do 3 eexists. repeat split; try reflexivity;
    destruct (after_audit_same_tables r st) as (? & ? & ? & ? & ? & ? & ?);
    assumption.
Qed.

(** X2: the [changes] column of an audit row lists exactly the keys that both
    snapshots hold with different values, each with its old and its new
    value: a key only one snapshot holds is not listed, and the column is
    null when nothing is listed (so also when a snapshot is missing or
    empty). *)
Theorem audit_changes_are_the_differing_keys user action model_name object_id
    object_str old_values new_values ip_address description st :
  exists row,
    log_action create user action model_name object_id object_str
               old_values new_values ip_address description st
    = Ok (after_audit create row st) /\
    AuditLog.old_values row = old_values /\
    AuditLog.new_values row = new_values /\
    (forall key o n,
       (exists cs, AuditLog.changes row = Some cs /\ In (key, (o, n)) cs)
       <->
       (exists ov nv,
          old_values = Some ov /\ new_values = Some nv /\
          dict_get key ov = Some o /\ In (key, n) nv /\ o <> n)) /\
    (AuditLog.changes row = None <->
     forall ov nv key o n,
       old_values = Some ov -> new_values = Some nv ->
       dict_get key ov = Some o -> In (key, n) nv -> o = n).
Proof.
  rewrite log_action_run. eexists. split; [reflexivity|].
  split; [reflexivity|]. split; [reflexivity|].
  assert (Hdiff : forall ov nv key o n,
            In (key, (o, n)) (diff_values ov nv)
            <-> dict_get key ov = Some o /\ In (key, n) nv /\ o <> n).
  { intros ov nv key o n. unfold diff_values. rewrite in_flat_map. split.
    - intros ([k v] & Hin & Hx). simpl in Hx.
      destruct (dict_get k ov) as [old|] eqn:Hg; [|destruct Hx].
      destruct (String.eqb_spec old v) as [|Hne]; [destruct Hx|].
      destruct Hx as [Hx|[]]. injection Hx as -> -> ->.
      split; [exact Hg|]. split; [exact Hin | exact Hne].
    - intros (Hg & Hin & Hne). exists (key, n). split; [exact Hin|].
      simpl. rewrite Hg.
      destruct (String.eqb_spec o n); [contradiction|]. left. reflexivity. }
  assert (Hlist : forall key o n,
            In (key, (o, n))
               (if dict_truthy old_values && dict_truthy new_values
                then diff_values (default [] old_values) (default [] new_values)
                else [])
            <->
            exists ov nv,
              old_values = Some ov /\ new_values = Some nv /\
              dict_get key ov = Some o /\ In (key, n) nv /\ o <> n).
  { intros key o n. split.
    - destruct old_values as [[|p ov]|]; cbn [dict_truthy andb];
        try (intros []).
      destruct new_values as [[|q nv]|]; cbn [dict_truthy andb];
        try (intros []).
      intros Hin. apply Hdiff in Hin. exists (p :: ov), (q :: nv).
      split; [reflexivity|]. split; [reflexivity | exact Hin].
    - intros (ov & nv & -> & -> & Hg & Hin & Hne).
      destruct ov as [|p ov]; [discriminate|].
      destruct nv as [|q nv]; [destruct Hin|].
      cbn [dict_truthy andb]. apply Hdiff.
      split; [exact Hg|]. split; [exact Hin | exact Hne]. }
  simpl AuditLog.changes.
  set (cs := if dict_truthy old_values && dict_truthy new_values
             then diff_values (default [] old_values) (default [] new_values)
             else []) in *.
  split.
  - intros key o n. rewrite <- Hlist. split.
    + intros (cs' & Hcs & Hin). destruct cs; [discriminate|].
      injection Hcs as <-. exact Hin.
    + intros Hin. destruct cs as [|x cs']; [destruct Hin|].
      eexists. split; [reflexivity | exact Hin].
  - split.
    + intros Hnone ov nv key o n Hov Hnv Hg Hin.
      destruct (String.eqb_spec o n) as [|Hne]; [assumption|exfalso].
      assert (Hc : In (key, (o, n)) cs).
      { apply Hlist. exists ov, nv. repeat split; assumption. }
      destruct cs; [destruct Hc | discriminate].
    + intros Hsame. destruct cs as [|[key [o n]] cs'] eqn:Hcs; [reflexivity|].
      exfalso.
      destruct (proj1 (Hlist key o n) (or_introl eq_refl))
        as (ov & nv & Hov & Hnv & Hg & Hin & Hne).
      apply Hne. exact (Hsame ov nv key o n Hov Hnv Hg Hin).
Qed.

(** X3: a write that updates a stored row hands the audit table nothing and
    prints nothing: only the creation of a record is audited. *)
Theorem updates_leave_no_audit_row (w : write) (st : Store) :
  creates w st = false ->
  exists st',
    perform create w st = Ok st' /\
    audit_logs st' = audit_logs st /\ stdout st' = stdout st.
Proof.
  intros Hup. destruct w as [p|c|t|r|now s|i]; simpl in Hup; simpl perform.
  - unfold UserProfile_save, create_user_profile. cbv zeta. rewrite Hup.
    simpl. eexists. split; [reflexivity|]. split; reflexivity.
  - unfold Customer_save, log_customer_changes. cbv zeta. rewrite Hup.
    simpl. eexists. split; [reflexivity|]. split; reflexivity.
  - unfold Transaction_save, log_transaction_changes. cbv zeta.
    simpl Transaction.id. rewrite Hup.
    simpl. eexists. split; [reflexivity|]. split; reflexivity.
  - unfold Receipt_save, log_receipt_changes. cbv zeta. rewrite Hup.
    simpl. eexists. split; [reflexivity|]. split; reflexivity.
  - unfold Sale_save. cbv zeta.
    replace (Sale.id (Sale_auto_number now (sales st) s)) with (Sale.id s)
      by (unfold Sale_auto_number; destruct (String.eqb _ ""); reflexivity).
    rewrite Hup. unfold log_sale_changes. simpl bind.
    set (s' := Sale_auto_number now (sales st) s).
    set (st0 := set_sales _ st).
    destruct (Sale.customer s') as [c|].
    + destruct (aggregate_sale_period s' c st0) as [st2|e] eqn:Hagg; simpl.
      * apply aggregate_sale_period_tables in Hagg as (_ & _ & Ho & Ha).
        eexists. split; [reflexivity|]. split; assumption.
      * eexists. split; [reflexivity|]. split; reflexivity.
    + simpl. eexists. split; [reflexivity|]. split; reflexivity.
  - unfold SaleItem_save, log_saleitem_changes. cbv zeta.
    simpl SaleItem.id. rewrite Hup.
    simpl. eexists. split; [reflexivity|]. split; reflexivity.
Qed.

End AuditFacts.

(** *** The audit log as a mirror of the tables *)

Lemma map_pk_upsert {A : Type} (pk : A -> uuid) (row : A) (tbl : list A) :
  map pk (upsert pk row tbl)
  = if has_pk pk (pk row) tbl then map pk tbl else map pk tbl ++ [pk row].
Proof.
  unfold upsert. destruct (has_pk pk (pk row) tbl).
  - induction tbl as [|r tbl IH]; simpl; [reflexivity|].
    rewrite IH. destruct (String.eqb_spec (pk r) (pk row)) as [->|];
      reflexivity.
  - rewrite map_app. reflexivity.
Qed.

Lemma audited_keys_app model logs row :
  audited_keys model (logs ++ [row])
  = audited_keys model logs
    ++ (if String.eqb (AuditLog.model_name row) model
           && String.eqb (AuditLog.action row) "create"
        then [AuditLog.object_id row] else []).
Proof.
  unfold audited_keys. rewrite List.filter_app, map_app. simpl.
  destruct (_ && _); reflexivity.
Qed.

Lemma log_action_reliable user action model_name object_id object_str
    old_values new_values ip_address description st :
  log_action reliable_create user action model_name object_id object_str
             old_values new_values ip_address description st
  = Ok (set_audit_logs
          (audit_logs st
           ++ [audit_row user action model_name object_id object_str
                         old_values new_values ip_address description]) st).
Proof. reflexivity. Qed.

Ltac mirror_step Hm Hpk :=
  rewrite ?log_action_reliable; simpl bind;
  eexists; split; [reflexivity|];
  destruct Hm as (H1 & H2 & H3 & H4 & H5 & H6);
  split; [|reflexivity];
  unfold mirrored; simpl;
  rewrite ?audited_keys_app; simpl;
  rewrite ?app_nil_r, ?map_pk_upsert; simpl; rewrite ?Hpk;
  rewrite ?H1, ?H2, ?H3, ?H4, ?H5, ?H6;
  repeat split; reflexivity.

Lemma perform_keeps_mirror (w : write) (st : Store) :
  mirrored st ->
  exists st',
    perform reliable_create w st = Ok st' /\
    mirrored st' /\ stdout st' = stdout st.
Proof.
  intros Hm. destruct w as [p|c|t|r|now s|i]; simpl perform.
  - unfold UserProfile_save, create_user_profile. cbv zeta.
    destruct (has_pk UserProfile.id (UserProfile.id p) (user_profiles st))
      eqn:Hpk; simpl negb; cbv iota; mirror_step Hm Hpk.
  - unfold Customer_save, log_customer_changes. cbv zeta.
    destruct (has_pk Customer.id (Customer.id c) (customers st))
      eqn:Hpk; simpl negb; cbv iota; mirror_step Hm Hpk.
  - unfold Transaction_save, log_transaction_changes. cbv zeta.
    simpl Transaction.id.
    destruct (has_pk Transaction.id (Transaction.id t) (transactions st))
      eqn:Hpk; simpl negb; cbv iota; mirror_step Hm Hpk.
  - unfold Receipt_save, log_receipt_changes. cbv zeta.
    destruct (has_pk Receipt.id (Receipt.id r) (receipts st))
      eqn:Hpk; simpl negb; cbv iota; mirror_step Hm Hpk.
  - unfold Sale_save. cbv zeta. fold (saved_sale now s st).
    set (s' := saved_sale now s st).
    replace (Sale.id (Sale_auto_number now (sales st) s)) with (Sale.id s)
      by (unfold Sale_auto_number; destruct (String.eqb _ ""); reflexivity).
    assert (Hid : Sale.id s' = Sale.id s) by apply saved_sale_id.
    set (st0 := set_sales (upsert Sale.id s' (sales st)) st).
    assert (Hkeys : map Sale.id (sales st0)
                    = if has_pk Sale.id (Sale.id s) (sales st)
                      then map Sale.id (sales st)
                      else map Sale.id (sales st) ++ [Sale.id s]).
    { subst st0. simpl. rewrite map_pk_upsert, Hid. reflexivity. }
    unfold log_sale_changes.
    set (st1r := if negb (has_pk Sale.id (Sale.id s) (sales st))
                 then _ else Ok st0).
    assert (Hst1 : exists st1,
               st1r = Ok st1 /\ mirrored st1 /\ stdout st1 = stdout st /\
               sales st1 = sales st0 /\ sale_items st1 = sale_items st0).
    { subst st1r.
      destruct (has_pk Sale.id (Sale.id s) (sales st)) eqn:Hpk;
        simpl negb; cbv iota.
      - exists st0. split; [reflexivity|].
        destruct Hm as (H1 & H2 & H3 & H4 & H5 & H6).
        split; [|repeat split].
        unfold mirrored. simpl.
        change (upsert Sale.id s' (sales st)) with (sales st0).
        rewrite Hkeys. repeat split; assumption.
      - rewrite log_action_reliable. eexists. split; [reflexivity|].
        destruct Hm as (H1 & H2 & H3 & H4 & H5 & H6).
        split; [|repeat split].
        unfold mirrored. simpl. rewrite !audited_keys_app.
        simpl. rewrite !app_nil_r.
        change (upsert Sale.id s' (sales st)) with (sales st0).
        rewrite Hkeys, Hid, H5. repeat split; try assumption; reflexivity. }
    destruct Hst1 as (st1 & -> & Hm1 & Ho1 & Hs1 & Hi1). simpl bind.
    destruct (Sale.customer s') as [c|].
    + destruct (aggregate_sale_period s' c st1) as [st2|e] eqn:Hagg.
      * pose proof Hagg as Hagg'.
        apply aggregate_sale_period_tables in Hagg as (Hs2 & Hi2 & Ho2 & Ha2).
        exists st2. split; [reflexivity|]. split; [|congruence].
        assert (Hrest : user_profiles st2 = user_profiles st1 /\
                        customers st2 = customers st1 /\
                        transactions st2 = transactions st1 /\
                        receipts st2 = receipts st1).
        { unfold aggregate_sale_period in Hagg'.
          destruct (month_period (Sale.sale_date s')) as [[sd ed]|];
            [|discriminate].
          simpl in Hagg'.
          destruct (Revenue_get_or_create _ _ _ _ _ _) as [[rev cr] tbl].
          injection Hagg' as <-. repeat split. }
        destruct Hrest as (E1 & E2 & E3 & E4).
        destruct Hm1 as (H1 & H2 & H3 & H4 & H5 & H6).
        unfold mirrored. rewrite Ha2, E1, E2, E3, E4, Hs2, Hi2.
        repeat split; assumption.
      * exists st1. split; [reflexivity|]. split; assumption.
    + exists st1. split; [reflexivity|]. split; assumption.
  - unfold SaleItem_save, log_saleitem_changes. cbv zeta.
    simpl SaleItem.id.
    destruct (has_pk SaleItem.id (SaleItem.id i) (sale_items st))
      eqn:Hpk; simpl negb; cbv iota; mirror_step Hm Hpk.
Qed.

(** X4: while the audit table takes every row, the audit log mirrors the
    tables through any sequence of writes: per model, the rows it records
    as created carry exactly the keys of the stored records, in the order
    of the table (one row per record, none for an update), and nothing is
    printed. *)
Theorem audit_log_mirrors_tables (ws : list write) (st : Store) :
  mirrored st ->
  exists st',
    perform_all reliable_create ws st = Ok st' /\
    mirrored st' /\ stdout st' = stdout st.
Proof.
  revert st. induction ws as [|w rest IH]; intros st Hm.
  - exists st. split; [reflexivity|]. split; [exact Hm | reflexivity].
  - simpl perform_all.
    destruct (perform_keeps_mirror w st Hm) as (st1 & -> & Hm1 & Ho1).
    simpl bind. destruct (IH st1 Hm1) as (st' & Hrun & Hm' & Ho').
    exists st'. split; [exact Hrun|]. split; [exact Hm' | congruence].
Qed.

(** X5: a new sale that the database takes is audited under the number
    its save has just given it: the number is generated before the row is
    written and before the receiver runs, so the audit row names the sale
    by that number (the first 500 characters of "Sale <number>") and
    tells the customer's name, or "No Customer". *)
Theorem new_sale_is_audited_under_its_number (now : date) (s : Sale.t)
    (st : Store) :
  Sale.sale_number s = "" ->
  has_pk Sale.id (Sale.id s) (sales st) = false ->
  sale_number_taken (Sale_auto_number now (sales st) s) (sales st) = false ->
  exists s1 st1 row,
    Sale_save_unique reliable_create now s st = Ok (s1, st1) /\
    audit_logs st1 = audit_logs st ++ [row] /\
    Sale.sale_number s1
    = sale_number_for now (sales_created_on now (sales st) + 1) /\
    AuditLog.user row = Some (Sale.created_by s) /\
    AuditLog.action row = "create" /\
    AuditLog.model_name row = "Sale" /\
    AuditLog.object_id row = Sale.id s /\
    AuditLog.object_str row
    = PyStr.slice_to 500 ("Sale " +:+ Sale.sale_number s1) /\
    AuditLog.description row
    = "Sale created: " +:+ Sale.sale_number s1 +:+ " for "
      +:+ match Sale.customer s with
          | Some c => Customer.name c
          | None => "No Customer"
          end.
Proof.
  intros Hempty Hnew Hfree.
  rewrite (Sale_save_unique_free reliable_create now s st Hfree).
  unfold Sale_save. cbv zeta. fold (saved_sale now s st).
  set (s1 := saved_sale now s st).
  replace (Sale.id (Sale_auto_number now (sales st) s)) with (Sale.id s)
    by (unfold Sale_auto_number; destruct (String.eqb _ ""); reflexivity).
  rewrite Hnew. simpl negb.
  set (st0 := set_sales _ st).
  unfold log_sale_changes. rewrite log_action_reliable. simpl bind.
  match goal with
  | |- context [set_audit_logs (audit_logs st ++ [?r]) st0] =>
      set (row := r); set (stA := set_audit_logs (audit_logs st ++ [row]) st0)
  end.
  assert (Hnum : Sale.sale_number s1
                 = sale_number_for now (sales_created_on now (sales st) + 1)).
  { subst s1. rewrite saved_sale_number. unfold Sale_auto_number.
    rewrite Hempty. reflexivity. }
  assert (Hrow : AuditLog.user row = Some (Sale.created_by s) /\
                 AuditLog.action row = "create" /\
                 AuditLog.model_name row = "Sale" /\
                 AuditLog.object_id row = Sale.id s /\
                 AuditLog.object_str row
                 = PyStr.slice_to 500 ("Sale " +:+ Sale.sale_number s1) /\
                 AuditLog.description row
                 = "Sale created: " +:+ Sale.sale_number s1 +:+ " for "
                   +:+ match Sale.customer s with
                       | Some c => Customer.name c
                       | None => "No Customer"
                       end).
  { subst row. unfold audit_row. cbv zeta. simpl.
    subst s1. rewrite saved_sale_created_by, saved_sale_id, saved_sale_customer.
    repeat split; reflexivity. }
  assert (Hlogs : audit_logs stA = audit_logs st ++ [row]) by reflexivity.
  destruct (Sale.customer s1) as [c|].
  - destruct (aggregate_sale_period s1 c stA) as [st2|e] eqn:Hagg; simpl.
    + apply aggregate_sale_period_tables in Hagg as (_ & _ & _ & Ha).
      exists s1, st2, row. split; [reflexivity|].
      split; [rewrite Ha; exact Hlogs|]. split; [exact Hnum | exact Hrow].
    + exists s1, stA, row. split; [reflexivity|].
      split; [exact Hlogs|]. split; [exact Hnum | exact Hrow].
  - simpl. exists s1, stA, row. split; [reflexivity|].
    split; [exact Hlogs|]. split; [exact Hnum | exact Hrow].
Qed.

(** ** Saving again *)

Lemma has_pk_upsert {A : Type} (pk : A -> uuid) (row : A) (tbl : list A) :
  has_pk pk (pk row) (upsert pk row tbl) = true.
Proof.
  pose proof (get_by_pk_upsert pk row tbl) as H.
  unfold get_by_pk in H. unfold has_pk.
  apply find_some in H as [Hin Heq].
  apply existsb_exists. exists row. split; assumption.
Qed.

Lemma upsert_idem {A : Type} (pk : A -> uuid) (row : A) (tbl : list A) :
  upsert pk row (upsert pk row tbl) = upsert pk row tbl.
Proof.
  unfold upsert at 1. rewrite has_pk_upsert.
  unfold upsert. destruct (has_pk pk (pk row) tbl) eqn:Hpk.
  - rewrite List.map_map. apply List.map_ext. intros r.
    destruct (String.eqb_spec (pk r) (pk row)) as [E|N].
    + rewrite String.eqb_refl. reflexivity.
    + destruct (String.eqb_spec (pk r) (pk row)); [contradiction|reflexivity].
  - rewrite map_app. simpl. rewrite String.eqb_refl. f_equal.
    unfold has_pk in Hpk.
    induction tbl as [|r tbl IH]; simpl in *; [reflexivity|].
    apply orb_false_iff in Hpk as [Hr Hrest].
    rewrite Hr. f_equal. apply IH. exact Hrest.
Qed.

Lemma Transaction_auto_calculate_idem (t : Transaction.t) :
  Transaction_auto_calculate (Transaction_auto_calculate t)
  = Transaction_auto_calculate t.
Proof.
  unfold Transaction_auto_calculate. simpl.
  destruct (Transaction.is_taxable t), (Transaction.gst_applicable t);
    reflexivity.
Qed.

Lemma SaleItem_auto_calculate_idem (i : SaleItem.t) :
  SaleItem_auto_calculate (SaleItem_auto_calculate i)
  = SaleItem_auto_calculate i.
Proof. reflexivity. Qed.

Section ResaveFacts.

Variable create : AuditLog.t -> list AuditLog.t -> result (list AuditLog.t).

(** X6: saving the instance that [save] has just handed back changes nothing:
    a Transaction or a SaleItem saved a second time keeps its derived
    amounts, its row is rewritten with the same values, and no second
    audit row is asked for; the whole store stays as the first save left
    it. *)
Theorem saving_again_changes_nothing (t : Transaction.t) (i : SaleItem.t)
    (st : Store) :
  (exists t1 st1,
     Transaction_save create t st = Ok (t1, st1) /\
     Transaction_save create t1 st1 = Ok (t1, st1)) /\
  (exists i1 st1,
     SaleItem_save create i st = Ok (i1, st1) /\
     SaleItem_save create i1 st1 = Ok (i1, st1)).
Proof.
  split.
  - unfold Transaction_save at 1, log_transaction_changes. cbv zeta.
    match goal with
    | |- context [if ?c then log_action create ?u ?a ?m ?o ?s ?ov ?nv ?ip ?d ?st0
                  else Ok ?st0] =>
        destruct (audit_if_created_contained create c u a m o s ov nv ip d st0)
          as (st1 & row & Heq & Hsame & _ & _); rewrite Heq
    end.
    simpl bind. exists (Transaction_auto_calculate t), st1.
    split; [reflexivity|].
    destruct Hsame as (_ & _ & Htr & _). simpl in Htr.
    unfold Transaction_save, log_transaction_changes. cbv zeta.
    rewrite Transaction_auto_calculate_idem.
    rewrite Htr at 1.
    rewrite (has_pk_upsert Transaction.id (Transaction_auto_calculate t)).
    simpl negb. cbv iota. simpl bind.
    rewrite Htr, upsert_idem, <- Htr.
    destruct st1; reflexivity.
  - unfold SaleItem_save at 1, log_saleitem_changes. cbv zeta.
    match goal with
    | |- context [if ?c then log_action create ?u ?a ?m ?o ?s ?ov ?nv ?ip ?d ?st0
                  else Ok ?st0] =>
        destruct (audit_if_created_contained create c u a m o s ov nv ip d st0)
          as (st1 & row & Heq & Hsame & _ & _); rewrite Heq
    end.
    simpl bind. exists (SaleItem_auto_calculate i), st1.
    split; [reflexivity|].
    destruct Hsame as (_ & _ & _ & _ & _ & Hsi & _). simpl in Hsi.
    unfold SaleItem_save, log_saleitem_changes. cbv zeta.
    rewrite SaleItem_auto_calculate_idem.
    rewrite Hsi at 1.
    rewrite (has_pk_upsert SaleItem.id (SaleItem_auto_calculate i)).
    simpl negb. cbv iota. simpl bind.
    rewrite Hsi, upsert_idem, <- Hsi.
    destruct st1; reflexivity.
Qed.

End ResaveFacts.

(** ** Sale numbers: a number names one day and one rank *)

Section NumberFacts.

Import PyStr.

Lemma digit_value n :
  Z.of_nat (nat_of_ascii (digit n)) - 48 = n mod 10.
Proof.
  unfold digit.
  pose proof (Z.mod_pos_bound n 10 ltac:(lia)) as Hm.
  rewrite nat_ascii_embedding by lia. lia.
Qed.

Lemma int_of_digits_from_digits fuel :
  forall n acc,
    0 <= n < 2 ^ Z.of_nat fuel ->
    int_of_digits_from 0 (digits fuel n acc) = int_of_digits_from n acc.
Proof.
  induction fuel as [|f IH]; intros n acc Hn.
  - simpl in *. replace n with 0 by lia. reflexivity.
  - rewrite Nat2Z.inj_succ, Z.pow_succ_r in Hn by lia.
    cbn [digits]. cbv zeta.
    destruct (Z.ltb_spec n 10) as [Hlt|Hge].
    + cbn [int_of_digits_from]. rewrite digit_value.
      rewrite Z.mod_small by lia. reflexivity.
    + rewrite IH.
      * cbn [int_of_digits_from]. rewrite digit_value.
        f_equal. pose proof (Z.div_mod n 10 ltac:(lia)). lia.
      * split; [apply Z.div_pos; lia|].
        apply Z.div_lt_upper_bound; lia.
Qed.

Lemma int_of_digits_of n : 0 <= n -> int_of_digits (digits_of n) = n.
Proof.
  intros Hn. unfold int_of_digits, digits_of. rewrite Z.abs_eq by lia.
  rewrite int_of_digits_from_digits; [reflexivity|].
  split; [lia|].
  rewrite Nat2Z.inj_succ, Z2Nat.id by apply Z.log2_nonneg.
  destruct (Z.eq_dec n 0) as [->|]; [reflexivity|].
  apply Z.log2_spec. lia.
Qed.

Lemma int_of_digits_zeros k s :
  int_of_digits (zeros k +:+ s) = int_of_digits s.
Proof.
  unfold int_of_digits. induction k as [|k IH]; [reflexivity|].
  simpl. exact IH.
Qed.

(** Reading a zero-padded number back gives the number. *)
Lemma int_of_format_0d w n : 0 <= n -> int_of_digits (format_0d w n) = n.
Proof.
  intros Hn. unfold format_0d.
  destruct (Z.ltb_spec n 0); [lia|].
  rewrite int_of_digits_zeros. apply int_of_digits_of. exact Hn.
Qed.

Lemma append_inj_length (a1 a2 b1 b2 : string) :
  a1 +:+ b1 = a2 +:+ b2 -> String.length a1 = String.length a2 ->
  a1 = a2 /\ b1 = b2.
Proof.
  revert a2. induction a1 as [|c a1 IH]; intros [|c2 a2] H Hl;
    simpl in *; try discriminate.
  - split; [reflexivity | exact H].
  - injection H as -> H. destruct (IH a2 H) as [-> ->]; [lia|].
    split; reflexivity.
Qed.

Lemma strftime_Ymd_inj d1 d2 :
  PyDate.valid d1 -> PyDate.valid d2 ->
  PyDate.strftime_Ymd d1 = PyDate.strftime_Ymd d2 -> d1 = d2.
Proof.
  intros (Hy1 & Hm1 & Hd1) (Hy2 & Hm2 & Hd2) H.
  pose proof (days_in_month_pos (PyDate.year d1) _ Hm1).
  pose proof (days_in_month_pos (PyDate.year d2) _ Hm2).
  unfold PyDate.strftime_Ymd in H.
  apply append_inj_length in H as [Hy H];
    [|rewrite !(format_0d_length 4) by (simpl; lia); reflexivity].
  apply append_inj_length in H as [Hm Hd];
    [|rewrite !(format_0d_length 2) by (simpl; lia); reflexivity].
  apply (f_equal int_of_digits) in Hy, Hm, Hd.
  rewrite !int_of_format_0d in Hy, Hm, Hd by lia.
  destruct d1, d2; simpl in *; congruence.
Qed.

(** The number of a day and a rank names them: two numbers are equal only
    for the same day and the same rank. *)
Lemma sale_number_for_inj d1 n1 d2 n2 :
  PyDate.valid d1 -> PyDate.valid d2 -> 0 <= n1 -> 0 <= n2 ->
  sale_number_for d1 n1 = sale_number_for d2 n2 -> d1 = d2 /\ n1 = n2.
Proof.
  intros Hv1 Hv2 Hn1 Hn2 H. unfold sale_number_for in H.
  cbn [String.append] in H. injection H as H.
  change (PyDate.strftime_Ymd d1 +:+ "-" +:+ format_0d 5 n1
          = PyDate.strftime_Ymd d2 +:+ "-" +:+ format_0d 5 n2) in H.
  apply append_inj_length in H as [Hd H];
    [|rewrite !strftime_Ymd_length by assumption; reflexivity].
  cbn [String.append] in H. injection H as H.
  change (format_0d 5 n1 = format_0d 5 n2) in H.
  apply (f_equal int_of_digits) in H.
  rewrite !int_of_format_0d in H by assumption.
  split; [apply strftime_Ymd_inj; assumption | exact H].
Qed.

Lemma sales_created_on_nonneg d tbl : 0 <= sales_created_on d tbl.
Proof. unfold sales_created_on. lia. Qed.

Lemma sales_created_on_split d pre s post :
  sales_created_on d (pre ++ s :: post)
  = sales_created_on d pre
    + (if bool_decide (Sale.created_at s = d) then 1 else 0)
    + sales_created_on d post.
Proof.
  unfold sales_created_on. rewrite List.filter_app, length_app. simpl.
  destruct (bool_decide _); simpl; lia.
Qed.

Lemma auto_numbered_prefix tbl x : auto_numbered (tbl ++ [x]) -> auto_numbered tbl.
Proof.
  intros H pre s post E. apply (H pre s (post ++ [x])).
  rewrite E, <- app_assoc. reflexivity.
Qed.

Lemma auto_numbered_snoc tbl x :
  auto_numbered tbl ->
  PyDate.valid (Sale.created_at x) ->
  Sale.sale_number x
  = sale_number_for (Sale.created_at x)
      (sales_created_on (Sale.created_at x) tbl + 1) ->
  auto_numbered (tbl ++ [x]).
Proof.
  intros Ht Hv Hn pre s post E.
  destruct post as [|y post] using rev_ind.
  - apply app_inj_tail in E as [-> ->]. split; assumption.
  - clear IHpost. rewrite app_comm_cons, app_assoc in E.
    apply app_inj_tail in E as [E _]. exact (Ht pre s post E).
Qed.

Lemma auto_numbered_NoDup tbl :
  auto_numbered tbl -> NoDup (map Sale.sale_number tbl).
Proof.
  induction tbl as [|x tbl IH] using rev_ind; intros H; [constructor|].
  rewrite map_app. apply NoDup_app.
  split; [apply IH, (auto_numbered_prefix _ x), H|].
  split; [|simpl; apply NoDup_cons; split; [apply not_elem_of_nil | constructor]].
  intros n Hin Hx. simpl in Hx. apply list_elem_of_singleton in Hx. subst n.
  apply list_elem_of_In, in_map_iff in Hin as (s & Hs & Hin).
  apply in_split in Hin as (pre & post & ->).
  destruct (H pre s (post ++ [x])) as [Hvs Hns];
    [rewrite <- app_assoc; reflexivity|].
  destruct (H (pre ++ s :: post) x []) as [Hvx Hnx]; [reflexivity|].
  rewrite Hns, Hnx in Hs.
  apply sale_number_for_inj in Hs as [Hd Hr]; try assumption;
    try (pose proof (sales_created_on_nonneg (Sale.created_at s) pre);
         pose proof (sales_created_on_nonneg (Sale.created_at x)
                       (pre ++ s :: post)); lia).
  rewrite sales_created_on_split, <- Hd in Hr.
  rewrite bool_decide_eq_true_2 in Hr by reflexivity.
  pose proof (sales_created_on_nonneg (Sale.created_at s) post). lia.
Qed.

End NumberFacts.

Section NumberClaims.

Variable create : AuditLog.t -> list AuditLog.t -> result (list AuditLog.t).

(** X7: in a table whose sales all carry the number of their creation day and
    of their rank in that day (as they do when [save] numbered each of
    them and none was removed), a new sale saved without a number gets a
    number that no stored sale has: the table stays so numbered and its
    sale numbers stay pairwise distinct. *)
Theorem auto_numbers_stay_distinct (now : date) (s : Sale.t) (st : Store) :
  auto_numbered (sales st) ->
  PyDate.valid now ->
  Sale.sale_number s = "" ->
  has_pk Sale.id (Sale.id s) (sales st) = false ->
  exists s1 st1,
    Sale_save create now s st = Ok (s1, st1) /\
    sales st1 = sales st ++ [s1] /\
    Sale.sale_number s1
    = sale_number_for now (sales_created_on now (sales st) + 1) /\
    auto_numbered (sales st1) /\
    NoDup (map Sale.sale_number (sales st1)).
Proof.
  intros Hinv Hnow Hempty Hnew.
  destruct (Sale_save_spec create now s st) as (st1 & Hsave & Hsales & _).
  exists (saved_sale now s st), st1. split; [exact Hsave|].
  assert (Hid : Sale.id (Sale_auto_number now (sales st) s) = Sale.id s)
    by (unfold Sale_auto_number; destruct (String.eqb _ ""); reflexivity).
  assert (Hs1 : saved_sale now s st
                = with_created_at now
                    (with_sale_number
                       (sale_number_for now
                          (sales_created_on now (sales st) + 1)) s)).
  { unfold saved_sale. cbv zeta. rewrite Hid, Hnew. simpl negb. cbv iota.
    unfold Sale_auto_number. rewrite Hempty. reflexivity. }
  assert (Happ : sales st1 = sales st ++ [saved_sale now s st]).
  { rewrite Hsales. unfold upsert. rewrite saved_sale_id, Hnew. reflexivity. }
  split; [exact Happ|].
  split; [rewrite Hs1; reflexivity|].
  assert (Hnum : auto_numbered (sales st1)).
  { rewrite Happ. apply auto_numbered_snoc; [exact Hinv | |];
      rewrite Hs1; simpl; [exact Hnow | reflexivity]. }
  split; [exact Hnum | apply auto_numbered_NoDup; exact Hnum].
Qed.

End NumberClaims.

(** ** Revenue rows: what a save and the command write *)

Section RevenueMore.

Variable create : AuditLog.t -> list AuditLog.t -> result (list AuditLog.t).
Variable order : list Sale.t -> list Sale.t.





(** *** The counters of the command *)

Lemma period_key_of s cid sd ed :
  can_handle s = Some (cid, sd, ed) -> period_key s = Some (cid, sd).
Proof. intros H. unfold period_key. rewrite H. reflexivity. Qed.

Lemma handle_sale_counts tbl s p cid sd ed :
  can_handle s = Some (cid, sd, ed) ->
  exists p',
    handle_sale tbl s p = Ok p' /\
    processed p' = {[(cid, sd)]} ∪ processed p /\
    Z.of_nat (size (dom (h_revenues p'))) - created_count p'
    = Z.of_nat (size (dom (h_revenues p))) - created_count p /\
    created_count p' + updated_count p' - Z.of_nat (size (processed p'))
    = created_count p + updated_count p - Z.of_nat (size (processed p)) /\
    created_count p <= created_count p' /\
    updated_count p <= updated_count p'.
Proof.
  unfold can_handle, handle_sale. cbv zeta.
  destruct (month_period (Sale.sale_date s)) as [[sd' ed']|]; [|discriminate].
  destruct (Sale.customer s) as [c|]; [|discriminate].
  intros H. injection H as <- <- <-. simpl.
  destruct (bool_decide_reflect ((Customer.id c, sd') ∈ processed p))
    as [Hin|Hnin].
  - exists p. split; [reflexivity|].
    split; [symmetry; apply subseteq_union_1_L, singleton_subseteq_l, Hin|].
    repeat split; lia.
  - assert (Hsize : size ({[(Customer.id c, sd')]} ∪ processed p)
                    = S (size (processed p))).
    { rewrite size_union by (apply disjoint_singleton_l; exact Hnin).
      rewrite size_singleton. reflexivity. }
    unfold Revenue_get_or_create, Revenue_save.
    destruct (h_revenues p !! (Customer.id c, monthly, sd')) as [r|] eqn:Hl.
    + eexists. split; [reflexivity|]. simpl. split; [reflexivity|].
      rewrite Hsize, dom_insert_L.
      rewrite subseteq_union_1_L
        by (apply singleton_subseteq_l, elem_of_dom; eexists; exact Hl).
      repeat split; lia.
    + eexists. split; [reflexivity|]. simpl. split; [reflexivity|].
      rewrite Hsize, insert_insert_eq, dom_insert_L.
      rewrite size_union
        by (apply disjoint_singleton_l, not_elem_of_dom; exact Hl).
      rewrite size_singleton. repeat split; lia.
Qed.

Lemma period_keys_cons s l k :
  period_key s = Some k -> period_keys (s :: l) = {[k]} ∪ period_keys l.
Proof. intros H. unfold period_keys. simpl. rewrite H. reflexivity. Qed.

Lemma handle_loop_counts tbl queue :
  Forall (fun s => can_handle s <> None) queue ->
  forall p,
    let p' := fst (handle_loop tbl queue p) in
    processed p' = period_keys queue ∪ processed p /\
    Z.of_nat (size (dom (h_revenues p'))) - created_count p'
    = Z.of_nat (size (dom (h_revenues p))) - created_count p /\
    created_count p' + updated_count p' - Z.of_nat (size (processed p'))
    = created_count p + updated_count p - Z.of_nat (size (processed p)) /\
    created_count p <= created_count p' /\
    updated_count p <= updated_count p'.
Proof.
  induction 1 as [|s queue Hs _ IH]; intros p; simpl.
  - split; [unfold period_keys; simpl; rewrite union_empty_l_L; reflexivity|].
    repeat split; lia.
  - destruct (can_handle s) as [[[cid sd] ed]|] eqn:Hc; [|contradiction].
    destruct (handle_sale_counts tbl s p cid sd ed Hc)
      as (p1 & -> & Hproc & Hdom & Hcnt & Hc1 & Hu1).
    destruct (IH p1) as (Hproc' & Hdom' & Hcnt' & Hc' & Hu').
    split.
    + rewrite Hproc', Hproc, (period_keys_cons s queue (cid, sd))
        by (apply (period_key_of s cid sd ed Hc)).
      rewrite (union_comm_L {[(cid, sd)]} (period_keys queue)).
      rewrite <- union_assoc_L. reflexivity.
    + repeat split; lia.
Qed.

Lemma handle_counts (st : Store) :
  counts (handle order st)
  = (let p := fst (handle_loop (sales st)
                     (order (List.filter
                               (fun s => counts_for_revenue (Sale.status s))
                               (sales st)))
                     (mkProgress (revenues st) ∅ 0 0)) in
     (created_count p, updated_count p)).
Proof.
  unfold handle.
  destruct (order _) as [|s q]; [reflexivity|].
  destruct (handle_loop _ _ _) as [p err]. reflexivity.
Qed.

Lemma handled_prefix_all queue :
  Forall (fun s => can_handle s <> None) queue -> handled_prefix queue = queue.
Proof.
  induction 1 as [|s queue Hs _ IH]; simpl; [reflexivity|].
  destruct (can_handle s); [rewrite IH; reflexivity | contradiction].
Qed.

Lemma handle_loop_raises tbl queue :
  forall p,
    (exists s, In s queue /\ can_handle s = None) ->
    exists e, snd (handle_loop tbl queue p) = Some e.
Proof.
  induction queue as [|s queue IH]; intros p (x & Hin & Hx);
    [destruct Hin|]. simpl.
  destruct (can_handle s) as [[[cid sd] ed]|] eqn:Hc.
  - destruct (handle_sale_some tbl s p cid sd ed Hc) as (p1 & -> & _).
    apply IH. destruct Hin as [<-|Hin]; [congruence|].
    exists x. split; assumption.
  - destruct (handle_sale_none tbl s p Hc) as (e & ->).
    exists e. reflexivity.
Qed.

Lemma handle_loop_all tbl queue p :
  snd (handle_loop tbl queue p) = None ->
  Forall (fun s => can_handle s <> None) queue.
Proof.
  intros Hnone. apply List.Forall_forall. intros s Hin Hs.
  destruct (handle_loop_raises tbl queue p (ex_intro _ s (conj Hin Hs)))
    as (e & He).
  congruence.
Qed.

Lemma period_keys_same l1 l2 :
  (forall s, In s l1 <-> In s l2) -> period_keys l1 = period_keys l2.
Proof.
  intros H. apply set_eq. intros k. unfold period_keys.
  rewrite !elem_of_list_to_set, !list_elem_of_omap.
  split; intros (s & Hin & Hs); exists s; (split; [|exact Hs]);
    apply list_elem_of_In; apply list_elem_of_In in Hin; apply H; exact Hin.
Qed.

(** X10: the two counters of the command tell what it wrote: "created" is the
    number of Revenue rows the run added to the table, and "created" plus
    "updated" is the number of distinct customer-and-month pairs among the
    sales the loop got through; when the run does not raise (and the
    queryset holds the counted sales) that is the number of distinct
    pairs among all counted sales. *)
Theorem command_counters_tell_what_was_written (st : Store) :
  let o := handle order st in
  let counted :=
    List.filter (fun s => counts_for_revenue (Sale.status s)) (sales st) in
  0 <= fst (counts o) /\ 0 <= snd (counts o) /\
  Z.of_nat (size (dom (revenues (final o))))
  = Z.of_nat (size (dom (revenues st))) + fst (counts o) /\
  fst (counts o) + snd (counts o)
  = Z.of_nat (size (period_keys (handled_prefix (order counted)))) /\
  (raised o = None ->
   (forall l x, In x (order l) <-> In x l) ->
   fst (counts o) + snd (counts o) = Z.of_nat (size (period_keys counted))).
Proof.
  cbv zeta.
  destruct (handle_final order st) as [Hfinal Hraised].
  rewrite handle_counts, Hfinal. cbv zeta. simpl fst. simpl snd.
  simpl revenues.
  set (tbl := sales st) in *.
  set (q := order (List.filter
                     (fun s => counts_for_revenue (Sale.status s)) tbl)) in *.
  set (p0 := mkProgress (revenues st) ∅ 0 0) in *.
  rewrite (handle_loop_prefix tbl q p0).
  destruct (handle_loop_counts tbl (handled_prefix q)
              (handled_prefix_can_handle q) p0)
    as (Hproc & Hdom & Hcnt & Hc & Hu).
  cbv zeta in Hproc, Hdom, Hcnt, Hc, Hu.
  rewrite Hproc in Hcnt.
  change (processed p0) with (∅ : gset (uuid * date)) in Hcnt.
  change (created_count p0) with 0 in Hdom, Hcnt, Hc.
  change (updated_count p0) with 0 in Hcnt, Hu.
  change (h_revenues p0) with (revenues st) in Hdom.
  rewrite union_empty_r_L, size_empty in Hcnt.
  split; [lia|]. split; [lia|]. split; [lia|]. split; [lia|].
  intros Hnone Hperm. rewrite Hraised in Hnone.
  apply handle_loop_all in Hnone.
  rewrite <- (period_keys_same q _ (Hperm _)).
  rewrite <- (handled_prefix_all q Hnone) at 3. lia.
Qed.

(** X11: the command has no handler around a turn of its loop: a counted sale
    without a customer, or one dated in the last month of the calendar,
    makes the run raise, although saving that same sale returns
    normally. *)
Theorem command_raises_on_unprocessable_sale (st : Store) (s : Sale.t)
    (now : date) :
  (forall l x, In x (order l) <-> In x l) ->
  In s (sales st) ->
  counts_for_revenue (Sale.status s) = true ->
  Sale.customer s = None
  \/ (exists e, month_period (Sale.sale_date s) = Raise e) ->
  (exists e, raised (handle order st) = Some e) /\
  sales (final (handle order st)) = sales st /\
  exists s' st', Sale_save create now s st = Ok (s', st').
Proof.
  intros Hperm Hin Hst Hbad.
  destruct (handle_final order st) as [Hfinal Hraised].
  split; [|split].
  - rewrite Hraised. apply handle_loop_raises. exists s. split.
    + apply Hperm, filter_In. split; assumption.
    + unfold can_handle.
      destruct Hbad as [-> | (e & ->)]; [|reflexivity].
      destruct (month_period _) as [[sd ed]|]; reflexivity.
  - rewrite Hfinal. reflexivity.
  - destruct (Sale_save_spec create now s st) as (st' & Hsave & _).
    do 2 eexists. exact Hsave.
Qed.

End RevenueMore.

(** *** Saving a sale again *)

Section ResaveSale.

Variable create : AuditLog.t -> list AuditLog.t -> result (list AuditLog.t).

Lemma saved_sale_number_nonempty now s st :
  Sale.sale_number (saved_sale now s st) <> "".
Proof.
  rewrite saved_sale_number. unfold Sale_auto_number.
  destruct (String.eqb_spec (Sale.sale_number s) "") as [E|N];
    [discriminate | exact N].
Qed.

(** A second save of the instance [Sale_save] has returned keeps the
    instance and rewrites the Revenue row of its month with the same
    totals. *)
Lemma Sale_save_again (now now2 : date) (s : Sale.t) (st : Store) :
  exists st1 st2,
    Sale_save create now s st = Ok (saved_sale now s st, st1) /\
    sales st1 = upsert Sale.id (saved_sale now s st) (sales st) /\
    Sale_save create now2 (saved_sale now s st) st1
    = Ok (saved_sale now s st, st2) /\
    revenues st2 = revenues st1 /\
    audit_logs st2 = audit_logs st1 /\
    stdout st2 = stdout st1.
Proof.
  set (s1 := saved_sale now s st).
  assert (Hfirst : exists st1,
            Sale_save create now s st = Ok (s1, st1) /\
            sales st1 = upsert Sale.id s1 (sales st) /\
            forall c sd ed,
              Sale.customer s1 = Some c ->
              month_period (Sale.sale_date s1) = Ok (sd, ed) ->
              settled (sales st1) (revenues st1) (Customer.id c, sd, ed)).
  { destruct (Sale_save_spec create now s st) as (st1 & Hsave & Hsales & _).
    exists st1. split; [exact Hsave|]. split; [exact Hsales|].
    intros c sd ed Hc Hp. subst s1.
    rewrite saved_sale_customer in Hc. rewrite saved_sale_date in Hp.
    destruct (Sale_save_aggregates create now s c st sd ed Hc Hp)
      as (st1' & Hsave' & _ & Hset).
    rewrite Hsave in Hsave'. injection Hsave' as <-. exact Hset. }
  destruct Hfirst as (st1 & Hsave & Hsales & Hset).
  assert (Hst0 : set_sales (upsert Sale.id s1 (sales st1)) st1 = st1).
  { rewrite Hsales, upsert_idem, <- Hsales. destruct st1; reflexivity. }
  assert (Hsecond : exists st2,
            Sale_save create now2 s1 st1 = Ok (s1, st2) /\
            (st2 = st1 \/
             exists c sd ed r,
               Sale.customer s1 = Some c /\
               month_period (Sale.sale_date s1) = Ok (sd, ed) /\
               revenues st1 !! (Customer.id c, monthly, sd) = Some r /\
               st2 = set_revenues
                       (<[(Customer.id c, monthly, sd) :=
                            recalculate r
                              (period_sales (Customer.id c) sd ed (sales st1))]>
                          (revenues st1)) st1)).
  { unfold Sale_save. cbv zeta.
    rewrite (Sale_auto_number_keeps now2 (sales st1) s1)
      by (apply saved_sale_number_nonempty).
    assert (Hpk : has_pk Sale.id (Sale.id s1) (sales st1) = true)
      by (rewrite Hsales; apply has_pk_upsert).
    rewrite Hpk. simpl negb. cbv iota. rewrite Hst0.
    unfold log_sale_changes. simpl bind.
    destruct (Sale.customer s1) as [c|] eqn:Hc;
      [|exists st1; split; [reflexivity | left; reflexivity]].
    unfold aggregate_sale_period.
    destruct (month_period (Sale.sale_date s1)) as [[sd ed]|e] eqn:Hp;
      [|exists st1; split; [reflexivity | left; reflexivity]].
    simpl bind.
    destruct (Hset c sd ed eq_refl eq_refl) as (r & Hl & Hr). simpl in Hl, Hr.
    unfold Revenue_get_or_create, Revenue_save. rewrite Hl.
    eexists. split; [reflexivity|]. right.
    exists c, sd, ed, r. repeat split; assumption. }
  destruct Hsecond as (st2 & Hsave2 & Hst2).
  exists st1, st2. split; [exact Hsave|]. split; [exact Hsales|].
  split; [exact Hsave2|].
  destruct Hst2 as [-> | (c & sd & ed & r & Hc & Hp & Hl & ->)].
  - repeat split; reflexivity.
  - destruct (Hset c sd ed Hc Hp) as (r' & Hl' & Hr'). simpl in Hl', Hr'.
    rewrite Hl in Hl'. injection Hl' as <-.
    simpl. rewrite Hr'. split; [apply insert_id; exact Hl|].
    split; reflexivity.
Qed.

(** X17: a sale saved again is counted once.  When a save has stored a
    sale, a second save of the instance it returned is taken too (its
    number is carried by its own row only), keeps the number, asks for
    no audit row, prints nothing and recomputes the Revenue row of the
    sale's month from the same sales, so that the Revenue table, the
    audit log and the console are as the first save left them. *)
Theorem saving_a_sale_again_counts_it_once (now now2 : date) (s s1 : Sale.t)
    (st st1 : Store) :
  Sale_save_unique create now s st = Ok (s1, st1) ->
  exists s2 st2,
    Sale_save_unique create now2 s1 st1 = Ok (s2, st2) /\
    Sale.sale_number s2 = Sale.sale_number s1 /\
    revenues st2 = revenues st1 /\
    audit_logs st2 = audit_logs st1 /\
    stdout st2 = stdout st1.
Proof.
  intros Hfirst.
  apply Sale_save_unique_ok in Hfirst as [Hfree Hsave].
  destruct (Sale_save_again now now2 s st)
    as (st1' & st2 & Hsave' & Hsales & Hsave2 & Hrev & Hlogs & Hout).
  rewrite Hsave in Hsave'. injection Hsave' as -> ->.
  exists (saved_sale now s st), st2.
  split; [|repeat split; assumption].
  rewrite Sale_save_unique_free; [exact Hsave2|].
  rewrite (Sale_auto_number_keeps now2 (sales st1') (saved_sale now s st))
    by (apply saved_sale_number_nonempty).
  rewrite Hsales, sale_number_taken_upsert, saved_sale_taken. exact Hfree.
Qed.

End ResaveSale.

(** ** Items: profit and margin *)

Section ItemFacts.

Import Decimal.

(** *** Signs through the rounding of the context *)

Lemma ndigits_0 : ndigits 0 = 1.
Proof. reflexivity. Qed.

Lemma pow10_le a b : 0 <= a <= b -> 10 ^ a <= 10 ^ b.
Proof. intros H. apply Z.pow_le_mono_r; lia. Qed.

Lemma round_half_even_pos c k :
  0 < c -> 10 ^ k <= c -> 0 < k -> 0 < round_half_even c k.
Proof.
  intros Hc Hk Hk0. unfold round_half_even.
  rewrite Z.abs_eq by lia. rewrite Z.sgn_pos by lia.
  assert (Hp : 0 < 10 ^ k) by (apply Z.pow_pos_nonneg; lia).
  assert (Hq : 1 <= c / 10 ^ k).
  { apply Z.div_le_lower_bound; lia. }
  destruct (_ || _); lia.
Qed.

Lemma round_half_even_neg c k :
  round_half_even (- c) k = - round_half_even c k.
Proof.
  unfold round_half_even. rewrite Z.abs_opp, Z.sgn_opp. lia.
Qed.

Lemma fix_pos d : 0 < coeff d -> 0 < coeff (fix_ d).
Proof.
  intros Hc. unfold fix_. cbv zeta.
  destruct (Z.leb_spec (ndigits (coeff d)) prec) as [|Hgt]; [exact Hc|].
  pose proof (ndigits_spec (coeff d) ltac:(lia)) as [Hlo _].
  rewrite Z.abs_eq in Hlo by lia.
  set (n := ndigits (coeff d)) in *.
  assert (Hr : 0 < round_half_even (coeff d) (n - prec)).
  { apply round_half_even_pos; [exact Hc | | unfold prec in *; lia].
    pose proof (pow10_le (n - prec) (n - 1) ltac:(unfold prec in *; lia)).
    lia. }
  set (c' := round_half_even (coeff d) (n - prec)) in *.
  destruct (Z.leb_spec (ndigits c') prec) as [|Hgt']; [exact Hr|].
  simpl coeff.
  pose proof (ndigits_spec c' ltac:(lia)) as [Hlo' _].
  rewrite Z.abs_eq in Hlo' by lia.
  pose proof (pow10_le 1 (ndigits c' - 1) ltac:(unfold prec in *; lia)).
  apply Z.div_str_pos. change (10 ^ 1) with 10 in *. lia.
Qed.

Lemma fix_neg d : coeff d < 0 -> coeff (fix_ d) < 0.
Proof.
  intros Hc. unfold fix_. cbv zeta.
  destruct (Z.leb_spec (ndigits (coeff d)) prec) as [|Hgt]; [exact Hc|].
  pose proof (ndigits_spec (coeff d) ltac:(lia)) as [Hlo _].
  rewrite Z.abs_neq in Hlo by lia.
  set (n := ndigits (coeff d)) in *.
  assert (Hr : round_half_even (coeff d) (n - prec) < 0).
  { replace (coeff d) with (- (- coeff d)) by lia.
    rewrite round_half_even_neg.
    assert (0 < round_half_even (- coeff d) (n - prec)); [|lia].
    apply round_half_even_pos; [lia | | unfold prec in *; lia].
    pose proof (pow10_le (n - prec) (n - 1) ltac:(unfold prec in *; lia)).
    lia. }
  set (c' := round_half_even (coeff d) (n - prec)) in *.
  destruct (Z.leb_spec (ndigits c') prec) as [|Hgt']; [exact Hr|].
  simpl coeff. apply Z.div_lt_upper_bound; lia.
Qed.

Lemma fix_zero d : coeff d = 0 -> coeff (fix_ d) = 0.
Proof.
  intros Hc. rewrite fix_small; [exact Hc|].
  rewrite Hc. simpl. unfold prec. lia.
Qed.

(** *** Division *)

Lemma strip_zeros_pos fuel :
  forall c e ideal, 0 < c -> 0 < fst (strip_zeros fuel c e ideal).
Proof.
  induction fuel as [|f IH]; intros c e ideal Hc; simpl; [exact Hc|].
  destruct (Z.ltb_spec e ideal); simpl; [|exact Hc].
  destruct (Z.eqb_spec (c mod 10) 0) as [Hm|]; simpl; [|exact Hc].
  apply IH. apply Z.div_str_pos.
  pose proof (Z.div_mod c 10 ltac:(lia)). lia.
Qed.

Lemma quotient_ge1 ca cb :
  0 < ca -> 0 < cb ->
  let shift := ndigits cb - ndigits ca + prec + 1 in
  1 <= (if 0 <=? shift then ca * 10 ^ shift else ca)
       / (if 0 <=? shift then cb else cb * 10 ^ (- shift)).
Proof.
  intros Ha Hb shift.
  pose proof (ndigits_spec ca ltac:(lia)) as [Halo Hahi].
  pose proof (ndigits_spec cb ltac:(lia)) as [Hblo Hbhi].
  rewrite Z.abs_eq in Halo, Hahi, Hblo, Hbhi by lia.
  pose proof (ndigits_pos ca). pose proof (ndigits_pos cb).
  set (la := ndigits ca) in *. set (lb := ndigits cb) in *.
  destruct (Z.leb_spec 0 shift) as [Hs|Hs].
  - apply Z.div_le_lower_bound; [lia|].
    assert (10 ^ lb <= 10 ^ (la - 1) * 10 ^ shift).
    { rewrite <- Z.pow_add_r by lia. apply pow10_le.
      subst shift. unfold prec. lia. }
    assert (0 < 10 ^ shift) by (apply Z.pow_pos_nonneg; lia).
    nia.
  - assert (0 < 10 ^ (- shift)) by (apply Z.pow_pos_nonneg; lia).
    apply Z.div_le_lower_bound; [nia|].
    assert (10 ^ lb * 10 ^ (- shift) <= 10 ^ (la - 1)).
    { rewrite <- Z.pow_add_r by lia. apply pow10_le.
      subst shift. unfold prec in *. lia. }
    nia.
Qed.

(** A quotient by a divisor other than zero is there, with the sign of
    the dividend when the divisor is positive. *)
Lemma truediv_sign a b :
  coeff b <> 0 ->
  exists q,
    DecimalOps.truediv a b = inr q /\
    (0 < coeff b ->
     (0 < coeff a -> 0 < coeff q) /\ (coeff a < 0 -> coeff q < 0) /\
     (coeff a = 0 -> coeff q = 0)).
Proof.
  intros Hb. unfold DecimalOps.truediv. cbv zeta.
  destruct (Z.eqb_spec (coeff b) 0) as [|_]; [contradiction|].
  destruct (Z.eqb_spec (Z.abs (coeff a)) 0) as [Ha0|Ha0].
  - eexists. split; [reflexivity|]. intros _.
    rewrite fix_zero by reflexivity. repeat split; lia.
  - pose proof (quotient_ge1 (Z.abs (coeff a)) (Z.abs (coeff b))
                  ltac:(lia) ltac:(lia)) as Hq.
    cbv zeta in Hq.
    set (shift := ndigits (Z.abs (coeff b)) - ndigits (Z.abs (coeff a))
                  + prec + 1) in *.
    set (num := if 0 <=? shift then Z.abs (coeff a) * 10 ^ shift
                else Z.abs (coeff a)) in *.
    set (den := if 0 <=? shift then Z.abs (coeff b)
                else Z.abs (coeff b) * 10 ^ (- shift)) in *.
    assert (Hsigns : forall q', 0 < q' -> 0 < coeff b ->
              forall e,
              (0 < coeff a ->
               0 < coeff (fix_ (mk (Z.sgn (coeff a) * Z.sgn (coeff b) * q') e)))
              /\ (coeff a < 0 ->
                  coeff (fix_ (mk (Z.sgn (coeff a) * Z.sgn (coeff b) * q') e))
                  < 0)
              /\ (coeff a = 0 ->
                  coeff (fix_ (mk (Z.sgn (coeff a) * Z.sgn (coeff b) * q') e))
                  = 0)).
    { intros q' Hq' Hbp e. rewrite (Z.sgn_pos (coeff b)) by lia.
      split; [|split]; intros Ha.
      - apply fix_pos. simpl. rewrite Z.sgn_pos by lia. lia.
      - apply fix_neg. simpl. rewrite Z.sgn_neg by lia. lia.
      - lia. }
    destruct (Z.eqb_spec (num mod den) 0) as [Hr|Hr].
    + destruct (strip_zeros _ (num / den) _ _) as [q' e'] eqn:Hs.
      eexists. split; [reflexivity|]. intros Hbp.
      apply Hsigns; [|exact Hbp].
      pose proof (strip_zeros_pos
                    (Z.to_nat (expo a - expo b - (expo a - expo b - shift)))
                    (num / den) (expo a - expo b - shift) (expo a - expo b)
                    ltac:(lia)) as Hp.
      rewrite Hs in Hp. exact Hp.
    + eexists. split; [reflexivity|]. intros Hbp.
      apply Hsigns; [|exact Hbp].
      destruct (_ =? 0); lia.
Qed.

(** *** Values and signs *)

Lemma value_sign d :
  (0 < coeff d <-> (0 < value d)%Q) /\ (coeff d = 0 <-> (value d == 0)%Q).
Proof.
  unfold value.
  pose proof (Qpower_0_lt (10 # 1) (expo d) ltac:(reflexivity)) as Hp.
  destruct ((10 # 1) ^ expo d)%Q as [pn pd].
  unfold Qlt, Qeq, Qmult, inject_Z in *. simpl in *.
  split; split; intros H; nia.
Qed.

Lemma bounded_neg s B a : bounded s B a -> bounded s B (DecimalOps.neg a).
Proof.
  intros [H1 H2]. split; simpl; [exact H1|]. rewrite Z.abs_opp. exact H2.
Qed.

Lemma value_neg a : (value (DecimalOps.neg a) == - value a)%Q.
Proof.
  unfold value, DecimalOps.neg; simpl. rewrite inject_Z_opp. ring.
Qed.

(** Between prices that fit their columns the difference is exact. *)
Lemma sub_prices_exact sp cp :
  in_field 10 2 sp -> in_field 10 2 cp ->
  in_field 11 2 (DecimalOps.sub sp cp) /\
  (value (DecimalOps.sub sp cp) == value sp - value cp)%Q.
Proof.
  unfold in_field. intros Hs Hc.
  destruct (add_exact_ok 2 (10 ^ 10) (10 ^ 10) sp (DecimalOps.neg cp) Hs
              (bounded_neg _ _ _ Hc) ltac:(unfold prec; lia)) as [Hb Hv].
  split.
  - apply (bounded_weaken 2 (10 ^ 10 + 10 ^ 10)); [exact Hb | lia].
  - unfold DecimalOps.sub. rewrite Hv, value_neg. ring.
Qed.

Lemma eqb_zero_false sp : coeff sp <> 0 -> Decimal.eqb sp (of_int 0) = false.
Proof.
  intros H. unfold Decimal.eqb. cbv zeta. simpl.
  apply Z.eqb_neq.
  assert (0 < 10 ^ (expo sp - Z.min (expo sp) 0))
    by (apply Z.pow_pos_nonneg; lia).
  nia.
Qed.

Lemma eqb_zero_true sp : coeff sp = 0 -> Decimal.eqb sp (of_int 0) = true.
Proof.
  intros H. unfold Decimal.eqb. cbv zeta. simpl. rewrite H. reflexivity.
Qed.

(** X12: [margin_percentage] never divides by zero: it answers for every item,
    with the integer 0 when a price is missing or the selling price is
    zero, and the margin column of the admin list is there for every
    item. *)
Theorem margin_percentage_never_divides_by_zero (obj : Inventory.t) :
  exists v,
    Inventory.margin_percentage obj = inr v /\
    (Inventory.selling_price obj = None \/ Inventory.cost_price obj = None
     \/ (exists sp, Inventory.selling_price obj = Some sp /\ coeff sp = 0) ->
     v = Int 0) /\
    exists text, profit_margin obj = inr text.
Proof.
  assert (H : exists v,
            Inventory.margin_percentage obj = inr v /\
            (Inventory.selling_price obj = None
             \/ Inventory.cost_price obj = None
             \/ (exists sp, Inventory.selling_price obj = Some sp
                            /\ coeff sp = 0) -> v = Int 0)).
  { unfold Inventory.margin_percentage.
    destruct (Inventory.selling_price obj) as [sp|];
      [|eexists; split; [reflexivity | intros _; reflexivity]].
    destruct (Inventory.cost_price obj) as [cp|];
      [|eexists; split; [reflexivity | intros _; reflexivity]].
    destruct (Z.eq_dec (coeff sp) 0) as [Hz|Hnz].
    - rewrite eqb_zero_true by exact Hz.
      eexists; split; [reflexivity | intros _; reflexivity].
    - rewrite eqb_zero_false by exact Hnz.
      destruct (truediv_sign (DecimalOps.sub sp cp) sp Hnz) as (q & -> & _).
      eexists. split; [reflexivity|].
      intros [Hn | [Hn | (sp' & Hsp & Hc)]]; try discriminate.
      injection Hsp as <-. contradiction. }
  destruct H as (v & Hv & Hzero). exists v.
  split; [exact Hv|]. split; [exact Hzero|].
  unfold profit_margin. rewrite Hv. eexists. reflexivity.
Qed.

(** X13: for an item sold at a positive price, with both prices within their
    columns, the margin is positive exactly when the selling price is
    above the cost price, zero exactly when the two are equal, and the
    admin list shows it in green in the first case and in red
    otherwise. *)
Theorem margin_is_green_when_sold_above_cost (obj : Inventory.t)
    (sp cp : Decimal) :
  Inventory.selling_price obj = Some sp ->
  Inventory.cost_price obj = Some cp ->
  in_field 10 2 sp -> in_field 10 2 cp ->
  0 < coeff sp ->
  exists m,
    Inventory.margin_percentage obj = inr (Dec m) /\
    (0 < coeff m <-> (value cp < value sp)%Q) /\
    (coeff m = 0 <-> (value cp == value sp)%Q) /\
    profit_margin_color (Dec m)
    = (if Qlt_le_dec (value cp) (value sp) then "green" else "red").
Proof.
  intros Hsp Hcp Hfs Hfc Hpos.
  unfold Inventory.margin_percentage. rewrite Hsp, Hcp.
  rewrite eqb_zero_false by lia.
  destruct (truediv_sign (DecimalOps.sub sp cp) sp ltac:(lia))
    as (q & -> & Hq).
  destruct (Hq Hpos) as (Hqp & Hqn & Hqz).
  destruct (sub_prices_exact sp cp Hfs Hfc) as [_ Hv].
  destruct (value_sign (DecimalOps.sub sp cp)) as [Hvp Hvz].
  set (m := mul q (of_int 100)).
  assert (Hm : (0 < coeff q -> 0 < coeff m) /\ (coeff q < 0 -> coeff m < 0)
               /\ (coeff q = 0 -> coeff m = 0)).
  { subst m. unfold mul. simpl.
    split; [|split]; intros H.
    - apply fix_pos. simpl. lia.
    - apply fix_neg. simpl. lia.
    - apply fix_zero. simpl. lia. }
  destruct Hm as (Hmp & Hmn & Hmz).
  set (D := DecimalOps.sub sp cp) in *.
  assert (HvD : (0 < coeff D <-> (value cp < value sp)%Q)
                /\ (coeff D = 0 <-> (value cp == value sp)%Q)).
  { rewrite Hv in Hvp, Hvz. split.
    - rewrite Hvp. unfold Qminus. symmetry. apply Qlt_minus_iff.
    - rewrite Hvz. split; intros H.
      + transitivity (value sp - (value sp - value cp))%Q; [ring|].
        rewrite H. ring.
      + rewrite H. ring. }
  destruct HvD as [HDp HDz].
  assert (Hpos_iff : 0 < coeff m <-> (value cp < value sp)%Q).
  { rewrite <- HDp. split.
    - intros H.
      destruct (Z.lt_trichotomy (coeff D) 0) as [Hn|[Hz|Hp]];
        [specialize (Hmn (Hqn Hn)); lia
        | specialize (Hmz (Hqz Hz)); lia | exact Hp].
    - intros H. apply Hmp, Hqp, H. }
  assert (Hzero_iff : coeff m = 0 <-> (value cp == value sp)%Q).
  { rewrite <- HDz. split.
    - intros H.
      destruct (Z.lt_trichotomy (coeff D) 0) as [Hn|[Hz|Hp]];
        [specialize (Hmn (Hqn Hn)); lia | exact Hz
        | specialize (Hmp (Hqp Hp)); lia].
    - intros H. apply Hmz, Hqz, H. }
  exists m. split; [reflexivity|]. split; [exact Hpos_iff|].
  split; [exact Hzero_iff|].
  unfold profit_margin_color, number_gt_zero, DecimalOps.gt_zero.
  destruct (Qlt_le_dec (value cp) (value sp)) as [Hlt|Hle].
  - apply Hpos_iff in Hlt. destruct (Z.ltb_spec 0 (coeff m)); [reflexivity|lia].
  - destruct (Z.ltb_spec 0 (coeff m)) as [Hp|]; [|reflexivity].
    apply Hpos_iff in Hp. exfalso. apply (Qlt_not_le _ _ Hp). exact Hle.
Qed.

(** X14: the profit per unit of an item whose prices fit their columns is the
    selling price less the cost price, exactly, and fits a column one
    digit wider. *)
Theorem profit_per_unit_is_exact (obj : Inventory.t) (sp cp : Decimal) :
  Inventory.selling_price obj = Some sp ->
  Inventory.cost_price obj = Some cp ->
  in_field 10 2 sp -> in_field 10 2 cp ->
  exists d,
    Inventory.profit_per_unit obj = Dec d /\
    (value d == value sp - value cp)%Q /\
    in_field 11 2 d.
Proof.
  intros Hsp Hcp Hs Hc. unfold Inventory.profit_per_unit. rewrite Hsp, Hcp.
  destruct (sub_prices_exact sp cp Hs Hc) as [Hb Hv].
  eexists. split; [reflexivity|]. split; assumption.
Qed.

End ItemFacts.

(** ** The admin list of the audit log, and the invoice *)

Lemma len_append (a b : string) :
  PyStr.len (a +:+ b) = (PyStr.len a + PyStr.len b)%nat.
Proof.
  induction a as [|c a IH]; simpl; [reflexivity|].
  rewrite IH. destruct (PyStr.is_continuation c); reflexivity.
Qed.

(** A slice holds as many characters as were asked for, or all there
    are. *)
Lemma len_slice_to (s : string) :
  forall n, PyStr.len (PyStr.slice_to n s) = Nat.min n (PyStr.len s).
Proof.
  induction s as [|c s IH]; intros n; simpl.
  - rewrite Nat.min_0_r. reflexivity.
  - destruct (PyStr.is_continuation c) eqn:Hc.
    + simpl. rewrite Hc. apply IH.
    + destruct n as [|n]; simpl; [reflexivity|].
      rewrite Hc, IH. reflexivity.
Qed.

(** X15: the object column of the audit list never shows more than 50
    characters: a text of at most 50 characters is shown whole, a longer
    one as its first 47 characters followed by three dots; the text is
    the object's description, or its key when the description is
    empty.  Characters are counted, not the bytes of their UTF-8 form. *)
Theorem object_str_short_fits (obj : AuditLog.t) :
  let text := if String.eqb (AuditLog.object_str obj) ""
              then AuditLog.object_id obj else AuditLog.object_str obj in
  (PyStr.len (object_str_short obj) <= 50)%nat /\
  ((PyStr.len text <= 50)%nat -> object_str_short obj = text) /\
  ((50 < PyStr.len text)%nat ->
   object_str_short obj = PyStr.slice_to 47 text +:+ "..." /\
   PyStr.len (PyStr.slice_to 47 text) = 47%nat /\
   PyStr.len (object_str_short obj) = 50%nat).
Proof.
  cbv zeta. unfold object_str_short. cbv zeta.
  set (text := if String.eqb (AuditLog.object_str obj) ""
               then AuditLog.object_id obj else AuditLog.object_str obj).
  destruct (Nat.ltb_spec 50 (PyStr.len text)) as [Hlong|Hshort].
  - assert (Hcut : PyStr.len (PyStr.slice_to 47 text) = 47%nat)
      by (rewrite len_slice_to; lia).
    assert (Hlen : PyStr.len (PyStr.slice_to 47 text +:+ "...") = 50%nat).
    { rewrite len_append, Hcut. reflexivity. }
    split; [lia|]. split; [lia|]. intros _.
    split; [reflexivity|]. split; [exact Hcut | exact Hlen].
  - split; [exact Hshort|]. split; [reflexivity | lia].
Qed.

(** X16: the invoice never shows the table of line items: the generator asks
    the sale for [saleitem_set], while the line items of a sale are
    reached under [items], the [related_name] of their foreign key, so
    the lookup answers nothing whatever lines the sale has. *)
Theorem invoice_never_lists_line_items (sale : Sale.t) (st : Store) :
  invoice_table sale st = None /\
  Sale_getattr_manager "items" sale st
  = Some (items_of (Sale.id sale) (sale_items st)) /\
  (items_of (Sale.id sale) (sale_items st) <> [] ->
   exists rows,
     invoice_rows (items_of (Sale.id sale) (sale_items st)) = rows /\
     (1 < length rows)%nat).
Proof.
  split; [reflexivity|]. split; [reflexivity|].
  intros Hne. eexists. split; [reflexivity|].
  unfold invoice_rows. simpl. rewrite length_map.
  destruct (items_of _ _); [contradiction | simpl; lia].
Qed.

(** ** Examples for the further properties *)

(** The taxed transaction of the table saved again with its box
    unticked: an update. *)
Lemma updates_leave_no_audit_row_witness :
  creates (save_transaction untaxed_transaction) store_with_taxed_transaction
  = false /\
  exists st',
    perform reliable_create (save_transaction untaxed_transaction)
            store_with_taxed_transaction = Ok st' /\
    audit_logs st' = [] /\ stdout st' = [].
Proof.
  split; [reflexivity|].
  apply (updates_leave_no_audit_row reliable_create
           (save_transaction untaxed_transaction)
           store_with_taxed_transaction).
  reflexivity.
Defined.

(** Five writes on an empty database: four records, four audit rows. *)
Lemma audit_log_mirrors_tables_witness :
  mirrored empty_store /\
  exists st',
    perform_all reliable_create a_day_of_writes empty_store = Ok st' /\
    mirrored st' /\ stdout st' = [] /\
    length (audit_logs st') = 4%nat.
Proof.
  assert (H : mirrored empty_store) by (repeat split).
  split; [exact H|].
  destruct (audit_log_mirrors_tables a_day_of_writes empty_store H)
    as (st' & Hrun & Hm & Ho).
  exists st'. split; [exact Hrun|]. split; [exact Hm|]. split; [exact Ho|].
  vm_compute in Hrun. injection Hrun as <-. reflexivity.
Defined.

(** The second sale of 5 March 2024. *)
Lemma auto_numbers_stay_distinct_witness :
  auto_numbered (sales store_with_first_sale) /\
  PyDate.valid march_5 /\
  Sale.sale_number second_sale = "" /\
  has_pk Sale.id (Sale.id second_sale) (sales store_with_first_sale) = false /\
  exists s1 st1,
    Sale_save reliable_create march_5 second_sale store_with_first_sale
    = Ok (s1, st1) /\
    Sale.sale_number s1 = "SAL-20240305-00002" /\
    NoDup (map Sale.sale_number (sales st1)).
Proof.
  assert (Hv : PyDate.valid march_5) by (repeat split; vm_compute; discriminate).
  assert (Hn : auto_numbered (sales store_with_first_sale)).
  { apply (auto_numbered_snoc [] numbered_first_sale).
    - intros [|x pre] s post E; discriminate.
    - exact Hv.
    - reflexivity. }
  destruct (auto_numbers_stay_distinct reliable_create march_5 second_sale
              store_with_first_sale Hn Hv eq_refl eq_refl)
    as (s1 & st1 & Hsave & _ & Hnum & _ & Hnd).
  split; [exact Hn|]. split; [exact Hv|].
  split; [reflexivity|]. split; [reflexivity|].
  exists s1, st1. split; [exact Hsave|].
  split; [rewrite Hnum; reflexivity | exact Hnd].
Defined.



(** A confirmed counter sale stops the command. *)
Lemma command_raises_on_unprocessable_sale_witness :
  (forall l x, In x (table_order l) <-> In x l) /\
  In numbered_counter_sale (sales counter_store) /\
  counts_for_revenue (Sale.status numbered_counter_sale) = true /\
  Sale.customer numbered_counter_sale = None /\
  (exists e, raised (handle table_order counter_store) = Some e) /\
  exists s' st',
    Sale_save reliable_create march_5 numbered_counter_sale counter_store
    = Ok (s', st').
Proof.
  assert (Hperm : forall l x, In x (table_order l) <-> In x l)
    by (intros l x; reflexivity).
  assert (Hin : In numbered_counter_sale (sales counter_store))
    by (left; reflexivity).
  destruct (command_raises_on_unprocessable_sale reliable_create table_order
              counter_store numbered_counter_sale march_5 Hperm Hin eq_refl
              (or_introl eq_refl))
    as (Hraise & _ & Hsave).
  split; [exact Hperm|]. split; [exact Hin|].
  split; [reflexivity|]. split; [reflexivity|].
  split; [exact Hraise | exact Hsave].
Defined.

(** Widgets bought at 20.00 and sold at 25.00: 5.00 a piece, in green. *)
Lemma margin_is_green_when_sold_above_cost_witness :
  Inventory.selling_price widget_stock = Some (Decimal.mk 2500 (-2)) /\
  Inventory.cost_price widget_stock = Some (Decimal.mk 2000 (-2)) /\
  Decimal.in_field 10 2 (Decimal.mk 2500 (-2)) /\
  Decimal.in_field 10 2 (Decimal.mk 2000 (-2)) /\
  0 < Decimal.coeff (Decimal.mk 2500 (-2)) /\
  exists m,
    Inventory.margin_percentage widget_stock = inr (Dec m) /\
    0 < Decimal.coeff m /\
    profit_margin_color (Dec m) = "green".
Proof.
  assert (H1 : Decimal.in_field 10 2 (Decimal.mk 2500 (-2)))
    by (split; simpl; lia).
  assert (H2 : Decimal.in_field 10 2 (Decimal.mk 2000 (-2)))
    by (split; simpl; lia).
  assert (H3 : 0 < Decimal.coeff (Decimal.mk 2500 (-2))) by (simpl; lia).
  destruct (margin_is_green_when_sold_above_cost widget_stock
              (Decimal.mk 2500 (-2)) (Decimal.mk 2000 (-2))
              eq_refl eq_refl H1 H2 H3)
    as (m & Hm & Hpos & _ & Hcol).
  split; [reflexivity|]. split; [reflexivity|].
  split; [exact H1|]. split; [exact H2|]. split; [exact H3|].
  exists m. split; [exact Hm|].
  assert (Hlt : (Decimal.value (Decimal.mk 2000 (-2))
                 < Decimal.value (Decimal.mk 2500 (-2)))%Q) by reflexivity.
  split; [apply Hpos; exact Hlt|].
  rewrite Hcol.
  destruct (Qlt_le_dec _ _) as [|Hle]; [reflexivity|].
  exfalso. apply (Qlt_not_le _ _ Hlt). exact Hle.
Defined.

Lemma profit_per_unit_is_exact_witness :
  Inventory.selling_price widget_stock = Some (Decimal.mk 2500 (-2)) /\
  Inventory.cost_price widget_stock = Some (Decimal.mk 2000 (-2)) /\
  Decimal.in_field 10 2 (Decimal.mk 2500 (-2)) /\
  Decimal.in_field 10 2 (Decimal.mk 2000 (-2)) /\
  exists d,
    Inventory.profit_per_unit widget_stock = Dec d /\
    (Decimal.value d == 5 # 1)%Q.
Proof.
  assert (H1 : Decimal.in_field 10 2 (Decimal.mk 2500 (-2)))
    by (split; simpl; lia).
  assert (H2 : Decimal.in_field 10 2 (Decimal.mk 2000 (-2)))
    by (split; simpl; lia).
  destruct (profit_per_unit_is_exact widget_stock
              (Decimal.mk 2500 (-2)) (Decimal.mk 2000 (-2))
              eq_refl eq_refl H1 H2)
    as (d & Hd & Hv & _).
  split; [reflexivity|]. split; [reflexivity|].
  split; [exact H1|]. split; [exact H2|].
  exists d. split; [exact Hd|]. rewrite Hv. reflexivity.
Defined.

(** A new sale without a customer, audited under its number. *)
Lemma new_sale_is_audited_under_its_number_witness :
  Sale.sale_number counter_sale = "" /\
  has_pk Sale.id (Sale.id counter_sale) (sales store_with_first_sale) = false /\
  sale_number_taken
    (Sale_auto_number march_5 (sales store_with_first_sale) counter_sale)
    (sales store_with_first_sale) = false /\
  exists s1 st1 row,
    Sale_save_unique reliable_create march_5 counter_sale store_with_first_sale
    = Ok (s1, st1) /\
    audit_logs st1 = [row] /\
    AuditLog.object_str row = "Sale SAL-20240305-00002" /\
    AuditLog.description row
    = "Sale created: SAL-20240305-00002 for No Customer".
Proof.
  split; [reflexivity|]. split; [reflexivity|]. split; [reflexivity|].
  destruct (new_sale_is_audited_under_its_number march_5 counter_sale
              store_with_first_sale eq_refl eq_refl eq_refl)
    as (s1 & st1 & row & Hsave & Hlogs & Hnum & _ & _ & _ & _ & Hstr & Hdesc).
  exists s1, st1, row. split; [exact Hsave|]. split; [exact Hlogs|].
  rewrite Hnum in Hstr, Hdesc.
  split; [rewrite Hstr; reflexivity | rewrite Hdesc; reflexivity].
Defined.

(** The first sale of 5 March 2024, saved, and saved again the day
    after. *)
Lemma saving_a_sale_again_counts_it_once_witness :
  exists s1 st1,
    Sale_save_unique reliable_create march_5 first_sale empty_store
    = Ok (s1, st1) /\
    exists s2 st2,
      Sale_save_unique reliable_create (PyDate.mkdate 2024 3 6) s1 st1
      = Ok (s2, st2) /\
      Sale.sale_number s2 = "SAL-20240305-00001" /\
      revenues st2 = revenues st1 /\
      audit_logs st2 = audit_logs st1 /\
      stdout st2 = stdout st1.
Proof.
  destruct (Sale_save_unique reliable_create march_5 first_sale empty_store)
    as [[s1 st1]|e] eqn:Hfirst; [|vm_compute in Hfirst; discriminate].
  exists s1, st1. split; [reflexivity|].
  destruct (saving_a_sale_again_counts_it_once reliable_create march_5
              (PyDate.mkdate 2024 3 6) first_sale s1 empty_store st1 Hfirst)
    as (s2 & st2 & Hsave & Hnum & Hrev & Hlogs & Hout).
  exists s2, st2. split; [exact Hsave|].
  split; [|repeat split; assumption].
  rewrite Hnum. vm_compute in Hfirst. injection Hfirst as <- _. reflexivity.
Defined.
